(** * Instagram monitor: a shallow embedding of [src/monitor/monitor.py]

    The development follows the module top-down:

    - Python values as the [json] module sees them, the writer
      [json.dump(obj, file, indent=4)] and the reader [json.load(file)],
      both on the text of the file;
    - the file system the monitor touches (directories and text files);
    - the external provider (the [Instaloader] handle and what it
      enumerates);
    - the [InstagramMonitor] object and each of its methods, written in a
      state-and-exception monad over the object and the outside world;
    - the properties of the specification, proved or refuted on that
      embedding. *)

From Stdlib Require Import ZArith List Lia Bool String Ascii.
From stdpp Require Import base option list gmap strings.

#[local] Set Warnings "-register-all".

Local Open Scope Z_scope.
Local Open Scope list_scope.

(** ** Text

    A Python [str] is a sequence of code points.  File contents are kept
    as the decoded text of the file (every file of the monitor is opened
    with [encoding="utf-8"]); the writer only ever emits ASCII. *)

Definition text : Type := list Z.

Fixpoint str (s : string) : text :=
  match s with
  | EmptyString => []
  | String a r => Z.of_N (N_of_ascii a) :: str r
  end.

(** JSON text is full of double quotes; [jtext] lets examples be written
    with single quotes instead. *)
Definition jtext (s : string) : text :=
  map (fun c => if c =? 39 then 34 else c) (str s).

Definition lit_null : text := Eval vm_compute in str "null".
Definition lit_true : text := Eval vm_compute in str "true".
Definition lit_false : text := Eval vm_compute in str "false".
Definition lit_NaN : text := Eval vm_compute in str "NaN".
Definition lit_Infinity : text := Eval vm_compute in str "Infinity".
Definition lit_minus_Infinity : text := Eval vm_compute in str "-Infinity".

Fixpoint starts_with (p s : text) : bool :=
  match p, s with
  | [], _ => true
  | a :: p', b :: s' => (a =? b) && starts_with p' s'
  | _ :: _, [] => false
  end.

(** ** Exceptions and results *)

Inductive exn : Type :=
| JSONDecodeError
| KeyError
| TypeError
| AttributeError
| FileNotFoundError
| FileExistsError
| IsADirectoryError
| NotADirectoryError
| Unmodelled      (* not a Python exception: input outside the modelled fragment *)
| FuelExhausted.  (* not a Python exception: the reader's recursion bound *)

Inductive result (A : Type) : Type :=
| Ok (a : A)
| Raise (e : exn).
Arguments Ok {A} a.
Arguments Raise {A} e.

Definition result_bind {A B} (f : A -> result B) (r : result A) : result B :=
  match r with
  | Ok a => f a
  | Raise e => Raise e
  end.

#[global] Instance result_mbind : MBind result := @result_bind.
#[global] Instance result_mret : MRet result := @Ok.

(** ** Python values

    The values that reach [json.dump] in this program and that
    [json.load] builds: [None], booleans, integers, strings, lists,
    tuples (the follower pairs of [update_profile_info]) and dictionaries
    with string keys.  A dictionary keeps its keys in insertion order.
    Floats do not occur in anything the monitor builds; the reader
    reports a float literal as [Unmodelled]. *)

Inductive pyval : Type :=
| PyNone
| PyBool (b : bool)
| PyInt (n : Z)
| PyStr (s : text)
| PyList (l : list pyval)
| PyTuple (l : list pyval)
| PyDict (d : list (text * pyval)).

Definition pydict : Type := list (text * pyval).

Definition text_eqb (a b : text) : bool := bool_decide (a = b).

(** [d[k]] as a lookup, [k in d]. *)
Fixpoint dict_get (d : pydict) (k : text) : option pyval :=
  match d with
  | [] => None
  | (k', v) :: d' => if text_eqb k' k then Some v else dict_get d' k
  end.

(** [d[k] = v]: an existing key keeps its place, a new key goes last. *)
Fixpoint dict_set (d : pydict) (k : text) (v : pyval) : pydict :=
  match d with
  | [] => [(k, v)]
  | (k', v') :: d' =>
      if text_eqb k' k then (k', v) :: d' else (k', v') :: dict_set d' k v
  end.

(** [d.update(e)] for a dictionary [e]. *)
Definition dict_update (d e : pydict) : pydict :=
  fold_left (fun acc kv => dict_set acc (fst kv) (snd kv)) e d.

(** [dict(pairs)], as the reader builds an object. *)
Definition dict_of_pairs (pairs : list (text * pyval)) : pydict :=
  dict_update [] pairs.

Definition dict_keys (d : pydict) : list text := map fst d.

(** [a == b]: a boolean equals the integer of its value, a list never
    equals a tuple, dictionaries are compared without regard to order. *)
Fixpoint py_eq (a b : pyval) {struct a} : bool :=
  match a, b with
  | PyNone, PyNone => true
  | PyBool x, PyBool y => Bool.eqb x y
  | PyBool x, PyInt n => (if x then 1 else 0) =? n
  | PyInt n, PyBool x => n =? (if x then 1 else 0)
  | PyInt n, PyInt m => n =? m
  | PyStr s, PyStr t => text_eqb s t
  | PyList l, PyList l' | PyTuple l, PyTuple l' =>
      (fix go (l l' : list pyval) {struct l} : bool :=
         match l, l' with
         | [], [] => true
         | x :: xs, y :: ys => py_eq x y && go xs ys
         | _, _ => false
         end) l l'
  | PyDict d, PyDict d' =>
      (length d =? length d')%nat
      && (fix go (d : list (text * pyval)) {struct d} : bool :=
            match d with
            | [] => true
            | kv :: r =>
                match dict_get d' (fst kv) with
                | Some v' => py_eq (snd kv) v'
                | None => false
                end && go r
            end) d
  | _, _ => false
  end.

(** ** The writer: [json.dump(obj, file, indent=4)]

    [ensure_ascii] is on by default: every character outside the
    printable ASCII range is written as a [\uXXXX] escape, with a
    surrogate pair above the basic plane. *)

Definition hexdigit (d : Z) : Z := if d <? 10 then 48 + d else 87 + d.

Definition hex4 (n : Z) : text :=
  [ hexdigit (Z.land (Z.shiftr n 12) 15);
    hexdigit (Z.land (Z.shiftr n 8) 15);
    hexdigit (Z.land (Z.shiftr n 4) 15);
    hexdigit (Z.land n 15) ].

Definition uescape (n : Z) : text := 92 :: 117 :: hex4 n.

Definition escape_char (c : Z) : text :=
  if c =? 34 then [92; 34]
  else if c =? 92 then [92; 92]
  else if c =? 10 then [92; 110]
  else if c =? 13 then [92; 114]
  else if c =? 9 then [92; 116]
  else if c =? 12 then [92; 102]
  else if c =? 8 then [92; 98]
  else if (32 <=? c) && (c <=? 126) then [c]
  else if c <? 65536 then uescape c
  else
    let n := c - 65536 in
    uescape (Z.lor 55296 (Z.land (Z.shiftr n 10) 1023))
      ++ uescape (Z.lor 56320 (Z.land n 1023)).

Fixpoint escape_chars (s : text) : text :=
  match s with
  | [] => []
  | c :: r => escape_char c ++ escape_chars r
  end.

Definition encode_basestring_ascii (s : text) : text :=
  34 :: escape_chars s ++ [34].

(** Decimal digits of a non-negative integer, most significant first. *)
Fixpoint digits (fuel : nat) (n : Z) : text :=
  match fuel with
  | O => []
  | S f =>
      if n <? 10 then [48 + n] else digits f (n / 10) ++ [48 + n mod 10]
  end.

Definition nat_repr (n : Z) : text := digits (S (Z.to_nat (Z.log2 n))) n.

Definition int_repr (z : Z) : text :=
  if z <? 0 then 45 :: nat_repr (- z) else nat_repr z.

Definition newline_indent (level : nat) : text :=
  10 :: repeat 32 (4 * level)%nat.

(** Items of a non-empty container, each on its own line. *)
Definition join_items (level : nat) (items : list text) : text :=
  match items with
  | [] => []
  | x :: xs =>
      newline_indent (S level) ++ x
        ++ concat (map (fun y => 44 :: newline_indent (S level) ++ y) xs)
        ++ newline_indent level
  end.

Fixpoint dumps_at (level : nat) (v : pyval) {struct v} : text :=
  match v with
  | PyNone => lit_null
  | PyBool true => lit_true
  | PyBool false => lit_false
  | PyInt n => int_repr n
  | PyStr s => encode_basestring_ascii s
  | PyList l | PyTuple l =>
      91 :: join_items level (map (dumps_at (S level)) l) ++ [93]
  | PyDict d =>
      123 :: join_items level
               (map (fun kv =>
                       encode_basestring_ascii (fst kv) ++ 58 :: 32
                         :: dumps_at (S level) (snd kv)) d)
          ++ [125]
  end.

Definition json_dumps (v : pyval) : text := dumps_at 0 v.

(** ** The reader: [json.load(file)] *)

Definition is_ws (c : Z) : bool :=
  (c =? 32) || (c =? 9) || (c =? 10) || (c =? 13).

Fixpoint skip_ws (s : text) : text :=
  match s with
  | [] => []
  | c :: r => if is_ws c then skip_ws r else s
  end.

Definition is_digit (c : Z) : bool := (48 <=? c) && (c <=? 57).

Definition hexval (c : Z) : option Z :=
  if (48 <=? c) && (c <=? 57) then Some (c - 48)
  else if (97 <=? c) && (c <=? 102) then Some (c - 87)
  else if (65 <=? c) && (c <=? 70) then Some (c - 55)
  else None.

Definition hex4val (a b c d : Z) : option Z :=
  match hexval a, hexval b, hexval c, hexval d with
  | Some x, Some y, Some z, Some w => Some (x * 4096 + y * 256 + z * 16 + w)
  | _, _, _, _ => None
  end.

Definition is_high_surrogate (c : Z) : bool := (55296 <=? c) && (c <=? 56319).
Definition is_low_surrogate (c : Z) : bool := (56320 <=? c) && (c <=? 57343).

Definition join_surrogates (hi lo : Z) : Z :=
  65536 + Z.lor (Z.shiftl (hi - 55296) 10) (lo - 56320).

(** The one-letter escapes of [json.decoder.BACKSLASH]. *)
Definition unescape (e : Z) : option Z :=
  if e =? 34 then Some 34
  else if e =? 92 then Some 92
  else if e =? 47 then Some 47
  else if e =? 98 then Some 8
  else if e =? 102 then Some 12
  else if e =? 110 then Some 10
  else if e =? 114 then Some 13
  else if e =? 116 then Some 9
  else None.

Definition cons_chr (c : Z) (r : result (text * text)) : result (text * text) :=
  match r with
  | Ok (s, rest) => Ok (c :: s, rest)
  | Raise e => Raise e
  end.

(** [scanstring], strict mode, entered just after the opening quote;
    returns the string and the text after the closing quote. *)
Fixpoint scanstring (s : text) : result (text * text) :=
  match s with
  | [] => Raise JSONDecodeError
  | c :: r =>
      if c =? 34 then Ok ([], r)
      else if c =? 92 then
        match r with
        | [] => Raise JSONDecodeError
        | e :: r1 =>
            if e =? 117 then
              match r1 with
              | h1 :: h2 :: h3 :: h4 :: r2 =>
                  match hex4val h1 h2 h3 h4 with
                  | None => Raise JSONDecodeError
                  | Some uni =>
                      if is_high_surrogate uni then
                        match r2 with
                        | b :: u :: g1 :: g2 :: g3 :: g4 :: r3 =>
                            if (b =? 92) && (u =? 117) then
                              match hex4val g1 g2 g3 g4 with
                              | None => Raise JSONDecodeError
                              | Some uni2 =>
                                  if is_low_surrogate uni2
                                  then cons_chr (join_surrogates uni uni2)
                                         (scanstring r3)
                                  else cons_chr uni (scanstring r2)
                              end
                            else cons_chr uni (scanstring r2)
                        | _ => cons_chr uni (scanstring r2)
                        end
                      else cons_chr uni (scanstring r2)
                  end
              | _ => Raise JSONDecodeError
              end
            else
              match unescape e with
              | Some ch => cons_chr ch (scanstring r1)
              | None => Raise JSONDecodeError
              end
        end
      else if c <? 32 then Raise JSONDecodeError
      else cons_chr c (scanstring r)
  end.

Fixpoint span_digits (s : text) : text * text :=
  match s with
  | [] => ([], [])
  | c :: r =>
      if is_digit c
      then let '(ds, rest) := span_digits r in (c :: ds, rest)
      else ([], s)
  end.

Definition digits_value (ds : text) : Z :=
  fold_left (fun acc d => acc * 10 + (d - 48)) ds 0.

(** The integer part of [NUMBER_RE]: an optional minus sign, then a
    single zero or a non-zero digit followed by any digits. *)
Definition match_integer (s : text) : option (Z * text) :=
  let '(neg, s1) :=
    match s with
    | c :: r => if c =? 45 then (true, r) else (false, s)
    | [] => (false, s)
    end in
  match s1 with
  | [] => None
  | c :: r =>
      if c =? 48 then Some (0, r)
      else if is_digit c then
        let '(ds, rest) := span_digits s1 in
        Some (if neg then - digits_value ds else digits_value ds, rest)
      else None
  end.

(** The optional groups of [NUMBER_RE]: a fraction (a dot and a digit) or
    an exponent (e or E, an optional sign, a digit) right after the
    integer part. *)
Definition has_frac_or_exp (s : text) : bool :=
  match s with
  | c :: d :: r =>
      if c =? 46 then is_digit d
      else if (c =? 101) || (c =? 69) then
        if is_digit d then true
        else if (d =? 45) || (d =? 43) then
          match r with
          | d' :: _ => is_digit d'
          | [] => false
          end
        else false
      else false
  | _ => false
  end.

Definition scan_number (s : text) : result (pyval * text) :=
  match match_integer s with
  | Some (n, rest) =>
      if has_frac_or_exp rest then Raise Unmodelled else Ok (PyInt n, rest)
  | None =>
      if starts_with lit_NaN s || starts_with lit_Infinity s
         || starts_with lit_minus_Infinity s
      then Raise Unmodelled
      else Raise JSONDecodeError
  end.

Fixpoint scan_once (fuel : nat) (s : text) {struct fuel}
  : result (pyval * text) :=
  match fuel with
  | O => Raise FuelExhausted
  | S f =>
      match s with
      | [] => Raise JSONDecodeError
      | c :: r =>
          if c =? 34 then
            '(k, r') ← scanstring r; Ok (PyStr k, r')
          else if c =? 123 then
            match skip_ws r with
            | c1 :: r1 =>
                if c1 =? 125 then Ok (PyDict [], r1)
                else if c1 =? 34 then
                  '(pairs, r') ← JSONObject_loop f r1;
                  Ok (PyDict (dict_of_pairs pairs), r')
                else Raise JSONDecodeError
            | [] => Raise JSONDecodeError
            end
          else if c =? 91 then
            match skip_ws r with
            | c1 :: r1 =>
                if c1 =? 93 then Ok (PyList [], r1)
                else
                  '(vs, r') ← JSONArray_loop f (c1 :: r1);
                  Ok (PyList vs, r')
            | [] => Raise JSONDecodeError
            end
          else if starts_with lit_null s then Ok (PyNone, drop 4 s)
          else if starts_with lit_true s then Ok (PyBool true, drop 4 s)
          else if starts_with lit_false s then Ok (PyBool false, drop 5 s)
          else scan_number s
      end
  end

with JSONArray_loop (fuel : nat) (s : text) {struct fuel}
  : result (list pyval * text) :=
  match fuel with
  | O => Raise FuelExhausted
  | S f =>
      '(v, r) ← scan_once f s;
      match skip_ws r with
      | c :: r1 =>
          if c =? 93 then Ok ([v], r1)
          else if c =? 44 then
            '(vs, r') ← JSONArray_loop f (skip_ws r1);
            Ok (v :: vs, r')
          else Raise JSONDecodeError
      | [] => Raise JSONDecodeError
      end
  end

with JSONObject_loop (fuel : nat) (s : text) {struct fuel}
  : result (list (text * pyval) * text) :=
  match fuel with
  | O => Raise FuelExhausted
  | S f =>
      '(k, r) ← scanstring s;
      match skip_ws r with
      | c :: r1 =>
          if c =? 58 then
            '(v, r2) ← scan_once f (skip_ws r1);
            match skip_ws r2 with
            | c2 :: r3 =>
                if c2 =? 125 then Ok ([(k, v)], r3)
                else if c2 =? 44 then
                  match skip_ws r3 with
                  | c3 :: r4 =>
                      if c3 =? 34 then
                        '(kvs, r') ← JSONObject_loop f r4;
                        Ok ((k, v) :: kvs, r')
                      else Raise JSONDecodeError
                  | [] => Raise JSONDecodeError
                  end
                else Raise JSONDecodeError
            | [] => Raise JSONDecodeError
            end
          else Raise JSONDecodeError
      | [] => Raise JSONDecodeError
      end
  end.

Definition loads_fuel (s : text) : nat := (2 * length s + 2)%nat.

(** [json.loads]: no byte-order mark, one value, nothing but white space
    after it. *)
Definition json_loads (s : text) : result pyval :=
  if starts_with [65279] s then Raise JSONDecodeError
  else
    '(v, r) ← scan_once (loads_fuel s) (skip_ws s);
    match skip_ws r with
    | [] => Ok v
    | _ :: _ => Raise JSONDecodeError
    end.

(** What [json.load] gives back for what [json.dump] wrote: JSON has one
    array type, so a tuple comes back as a list. *)
Fixpoint as_loaded (v : pyval) : pyval :=
  match v with
  | PyList l | PyTuple l => PyList (map as_loaded l)
  | PyDict d => PyDict (map (fun kv => (fst kv, as_loaded (snd kv))) d)
  | _ => v
  end.

(** Unicode scalar values: the code points of well-formed text (no
    surrogates). *)
Definition is_scalar (c : Z) : bool :=
  ((0 <=? c) && (c <? 55296)) || ((57344 <=? c) && (c <=? 1114111)).

(** Values as Python can hold them: the keys of a dictionary are
    pairwise distinct and every string is well-formed text. *)
Fixpoint wf_py (v : pyval) : bool :=
  match v with
  | PyNone | PyBool _ | PyInt _ => true
  | PyStr s => forallb is_scalar s
  | PyList l | PyTuple l => forallb wf_py l
  | PyDict d =>
      forallb (fun kv => forallb is_scalar (fst kv) && wf_py (snd kv)) d
        && bool_decide (NoDup (map fst d))
  end.

Fixpoint has_tuple (v : pyval) : bool :=
  match v with
  | PyTuple _ => true
  | PyList l => existsb has_tuple l
  | PyDict d => existsb (fun kv => has_tuple (snd kv)) d
  | _ => false
  end.

(** Recursion depth the reader needs on the text of a value. *)
Fixpoint need (v : pyval) : nat :=
  match v with
  | PyList l | PyTuple l => S (list_sum (map (fun x => S (need x)) l))
  | PyDict d => S (list_sum (map (fun kv => S (need (snd kv))) d))
  | _ => 1%nat
  end.

(** ** Vocabulary of the round-trip proof *)

(** What may follow a number without being taken for part of it. *)
Definition ends_number (rest : text) : bool :=
  match rest with
  | [] => true
  | c :: _ => negb (is_digit c || (c =? 46) || (c =? 101) || (c =? 69))
  end.

(** The lines after the first item of a container. *)
Definition more_items (level : nat) (items : list text) : text :=
  concat (map (fun y => 44 :: newline_indent (S level) ++ y) items).

Definition dump_member (level : nat) (kv : text * pyval) : text :=
  encode_basestring_ascii (fst kv) ++ 58 :: 32 :: dumps_at level (snd kv).

Definition reads_back (v : pyval) : Prop :=
  forall level f rest,
    (need v <= f)%nat ->
    ends_number rest = true ->
    scan_once f (dumps_at level v ++ rest) = Ok (as_loaded v, rest).


(** Progress of the reader on [s]: a result leaves a strictly shorter
    text; an exception is the parse error, or a float was met, or the
    recursion bound was hit, and this only when the depth was not
    [enough]. *)
Definition bounded {A} (s : text) (enough : Prop) (res : result (A * text))
  : Prop :=
  match res with
  | Ok (_, r) => (length r < length s)%nat
  | Raise e =>
      e = JSONDecodeError \/ e = Unmodelled
      \/ (e = FuelExhausted /\ ~ enough)
  end.

(* ================================================================== *)
(** * The outside world *)

(** ** File system

    A path is the list of its components, relative to the working
    directory (which always exists).  The user name is taken to be a
    single path component, as Instagram user names are. *)

Abbreviation path := (list string).

Inductive node : Type :=
| Dir
| File (content : text).

#[global] Instance node_eq_dec : EqDecision node.
Proof. solve_decision. Defined.

Definition lookup_node (fs : gmap path node) (p : path) : option node :=
  match p with
  | [] => Some Dir
  | _ :: _ => fs !! p
  end.

Definition parent (p : path) : path := removelast p.

(** [Path.mkdir(parents=True, exist_ok=True)] and
    [os.makedirs(p, exist_ok=True)]: walk down from the working
    directory, create what is missing, stop at a regular file. *)
Fixpoint mkdir_from (pre rest : path) (fs : gmap path node)
  : result unit * gmap path node :=
  match rest with
  | [] => (Ok tt, fs)
  | c :: rest' =>
      let p := pre ++ [c] in
      match fs !! p with
      | None => mkdir_from p rest' (<[p := Dir]> fs)
      | Some Dir => mkdir_from p rest' fs
      | Some (File _) =>
          (Raise (match rest' with
                  | [] => FileExistsError
                  | _ :: _ => NotADirectoryError
                  end), fs)
      end
  end.

Definition mkdir_p (p : path) (fs : gmap path node)
  : result unit * gmap path node :=
  mkdir_from [] p fs.

(** What [open(p, "r+")], [seek(0)], [write(new)] leaves in a file that
    held [old]: the new text, then whatever of the old text lies beyond
    it (nothing truncates the file). *)
Definition overwrite_from_start (old new : text) : text :=
  new ++ drop (length new) old.

(** ** The provider

    What the monitor reads of the [instaloader] structures.  A
    [datetime] is carried as its rendering by
    [strftime("%Y-%m-%d %H:%M:%S")], the only use the monitor makes of
    it.  The provider answers every query; its failures (network,
    authentication) are outside this model. *)

Module StoryItem.
Record t : Type := {
  mediaid : Z;
  url : text;
  date : text;
  expiring_utc : text;
  caption : option text;
  caption_mentions : list text;
  is_video : bool;
  video_url : option text;
}.
End StoryItem.

Module Highlight.
Record t : Type := {
  unique_id : Z;
  title : text;
  cover_url : text;
  itemcount : Z;
  get_items : list StoryItem.t;
}.
End Highlight.

Module Story.
Record t : Type := {
  unique_id : text;
  last_seen_utc : option text;
  latest_media_utc : text;
  itemcount : Z;
  get_items : list StoryItem.t;
}.
End Story.

Module Profile.
Record t : Type := {
  userid : Z;
  followers : Z;
  followees : Z;
  biography : text;
  profile_pic_url : text;
  get_followers : list (Z * text);   (* (userid, username) of each *)
  get_followees : list (Z * text);
}.
End Profile.

(** What the [Instaloader] handle answers at the moment. *)
Record Instaloader : Type := {
  from_username : string -> Profile.t;
  get_highlights : Z -> list Highlight.t;
  get_stories : list Z -> list Story.t;
}.

(** ** Observable calls *)

Inductive log_message : Type :=
| LogNewHighlight (title : text) (itemcount : Z)
| LogNewStory (latest_media_utc : text)
| LogProfileIdNotFound
| LogProfileIdChanged
| LogProfileIdUpToDate.

Inductive event : Type :=
| EvLogInfo (m : log_message)
| EvLogError (e : exn)
| EvDownloadStoryItem (item : StoryItem.t) (target : path)
| EvDownloadProfile (username : string)
| EvJsonDump (file : path) (obj : pyval).

(* ================================================================== *)
(** * The monitor *)

(** The attributes of an [InstagramMonitor] that change or are read.
    [downloaded_highlights] and [downloaded_stories] are the attributes
    [load_data] creates through [self.__dict__]; they do not exist before
    the first [load_data]. *)
Record InstagramMonitor : Type := {
  profile_username : string;
  downloaded_highlights_list : list Z;
  downloaded_stories_list : list text;
  data : pyval;
  downloaded_highlights : option pyval;
  downloaded_stories : option pyval;
}.

Definition set_downloaded_highlights_list (l : list Z) (m : InstagramMonitor)
  : InstagramMonitor :=
  {| profile_username := profile_username m;
     downloaded_highlights_list := l;
     downloaded_stories_list := downloaded_stories_list m;
     data := data m;
     downloaded_highlights := downloaded_highlights m;
     downloaded_stories := downloaded_stories m |}.

Definition set_downloaded_stories_list (l : list text) (m : InstagramMonitor)
  : InstagramMonitor :=
  {| profile_username := profile_username m;
     downloaded_highlights_list := downloaded_highlights_list m;
     downloaded_stories_list := l;
     data := data m;
     downloaded_highlights := downloaded_highlights m;
     downloaded_stories := downloaded_stories m |}.

Definition set_data (v : pyval) (m : InstagramMonitor) : InstagramMonitor :=
  {| profile_username := profile_username m;
     downloaded_highlights_list := downloaded_highlights_list m;
     downloaded_stories_list := downloaded_stories_list m;
     data := v;
     downloaded_highlights := downloaded_highlights m;
     downloaded_stories := downloaded_stories m |}.

Definition set_downloaded_highlights (v : pyval) (m : InstagramMonitor)
  : InstagramMonitor :=
  {| profile_username := profile_username m;
     downloaded_highlights_list := downloaded_highlights_list m;
     downloaded_stories_list := downloaded_stories_list m;
     data := data m;
     downloaded_highlights := Some v;
     downloaded_stories := downloaded_stories m |}.

Definition set_downloaded_stories (v : pyval) (m : InstagramMonitor)
  : InstagramMonitor :=
  {| profile_username := profile_username m;
     downloaded_highlights_list := downloaded_highlights_list m;
     downloaded_stories_list := downloaded_stories_list m;
     data := data m;
     downloaded_highlights := downloaded_highlights m;
     downloaded_stories := Some v |}.

Record state : Type := {
  self : InstagramMonitor;
  fs : gmap path node;
  remote : Instaloader;
  events : list event;
}.

Definition with_self (m : InstagramMonitor) (s : state) : state :=
  {| self := m; fs := fs s; remote := remote s; events := events s |}.

Definition with_fs (f : gmap path node) (s : state) : state :=
  {| self := self s; fs := f; remote := remote s; events := events s |}.

Definition with_remote (r : Instaloader) (s : state) : state :=
  {| self := self s; fs := fs s; remote := r; events := events s |}.

Definition with_events (e : list event) (s : state) : state :=
  {| self := self s; fs := fs s; remote := remote s; events := e |}.

(** ** State and exceptions

    A method runs on the object and the world and either returns or
    raises; what it changed before raising stays changed. *)

Definition M (A : Type) : Type := state -> result A * state.

Definition ret {A} (a : A) : M A := fun s => (Ok a, s).

Definition raise {A} (e : exn) : M A := fun s => (Raise e, s).

Definition bind {A B} (m : M A) (k : A -> M B) : M B :=
  fun s =>
    match m s with
    | (Ok a, s') => k a s'
    | (Raise e, s') => (Raise e, s')
    end.

Notation "'let*' x ':=' m 'in' k" := (bind m (fun x => k))
  (at level 10, x name, m at level 100, k at level 200).
Notation "m '>>' k" := (bind m (fun _ => k))
  (at level 90, right associativity).

Definition lift {A} (r : result A) : M A := fun s => (r, s).

Definition get_self : M InstagramMonitor := fun s => (Ok (self s), s).

Definition put_self (m : InstagramMonitor) : M unit :=
  fun s => (Ok tt, with_self m s).

Definition modify_self (f : InstagramMonitor -> InstagramMonitor) : M unit :=
  fun s => (Ok tt, with_self (f (self s)) s).

Definition get_remote : M Instaloader := fun s => (Ok (remote s), s).

Definition emit (e : event) : M unit :=
  fun s => (Ok tt, with_events (events s ++ [e]) s).

(** [try: body except Exception as e: logger.error(...); raise] *)
Definition try_log_raise {A} (body : M A) : M A :=
  fun s =>
    match body s with
    | (Ok a, s') => (Ok a, s')
    | (Raise e, s') => (Raise e, with_events (events s' ++ [EvLogError e]) s')
    end.

(** [for x in l: acc = body(acc, x)] *)
Fixpoint for_each {A B} (l : list A) (acc : B) (body : B -> A -> M B) : M B :=
  match l with
  | [] => ret acc
  | x :: xs => let* acc' := body acc x in for_each xs acc' body
  end.

(** ** Files *)

(** [os.path.exists(p)] and [Path.exists()] *)
Definition path_exists (p : path) : M bool :=
  fun s => (Ok (bool_decide (is_Some (lookup_node (fs s) p))), s).

(** [open(p, "r", encoding="utf-8")] and [file.read()] *)
Definition read_file (p : path) : M text :=
  fun s =>
    match lookup_node (fs s) p with
    | Some (File c) => (Ok c, s)
    | Some Dir => (Raise IsADirectoryError, s)
    | None => (Raise FileNotFoundError, s)
    end.

(** [open(p, "w", encoding="utf-8")] and [file.write(c)]: the file is
    created or emptied, then written. *)
Definition write_file (p : path) (c : text) : M unit :=
  fun s =>
    match lookup_node (fs s) p with
    | Some Dir => (Raise IsADirectoryError, s)
    | _ =>
        match lookup_node (fs s) (parent p) with
        | Some Dir => (Ok tt, with_fs (<[p := File c]> (fs s)) s)
        | Some (File _) => (Raise NotADirectoryError, s)
        | None => (Raise FileNotFoundError, s)
        end
    end.

(** [file.seek(0)] and [file.write(c)] on a file opened with ["r+"] and
    read to its end. *)
Definition rewrite_file (p : path) (old c : text) : M unit :=
  fun s => (Ok tt, with_fs (<[p := File (overwrite_from_start old c)]> (fs s)) s).

Definition makedirs (p : path) : M unit :=
  fun s => let '(r, f) := mkdir_p p (fs s) in (r, with_fs f s).

(** [json.dump(obj, file, indent=4)] on a file just opened with ["w"]. *)
Definition json_dump_to (p : path) (obj : pyval) : M unit :=
  write_file p (json_dumps obj) >>
  emit (EvJsonDump p obj).

(** ** Paths of the monitor

    [profile_id_file], [data_dir] and the attributes [setup_dirs] and
    [__init__] set; all are fixed by the user name. *)

Definition profile_id_file (u : string) : path := [u +:+ "_profile_id.json"].
Definition data_dir (u : string) : path := ["output"; u +:+ "_data"].
Definition highlights_dir (u : string) : path := data_dir u ++ ["highlights"].
Definition stories_dir (u : string) : path := data_dir u ++ ["stories"].
Definition data_file (u : string) : path := data_dir u ++ ["data.json"].
Definition highlights_file (u : string) : path :=
  data_dir u ++ ["highlights"; "downloaded_highlights.json"].
Definition stories_file (u : string) : path :=
  data_dir u ++ ["stories"; "downloaded_stories.json"].
Definition metadata_file (u : string) : path := data_dir u ++ ["metadata.json"].

Definition username : M string :=
  let* m := get_self in ret (profile_username m).

(** ** Methods *)

(** [setup_dirs]: the two entries of [dir_file_mapping] whose name ends
    in [_dir] are created, in the order of the mapping. *)
Definition setup_dirs : M unit :=
  let* u := username in
  makedirs (highlights_dir u) >>
  makedirs (stories_dir u).

Definition initial_metadata : pyval :=
  PyDict [ (str "highlights", PyDict []); (str "stories", PyDict []) ].

Definition setup_metadata_file : M unit :=
  let* u := username in
  let* present := path_exists (metadata_file u) in
  if negb present
  then json_dump_to (metadata_file u) initial_metadata
  else ret tt.

(** [__init__]: the object starts with empty lists and an empty [data];
    the layout is set up on the way. *)
Definition fresh_monitor (u : string) : InstagramMonitor :=
  {| profile_username := u;
     downloaded_highlights_list := [];
     downloaded_stories_list := [];
     data := PyDict [];
     downloaded_highlights := None;
     downloaded_stories := None |}.

Definition init (u : string) : M unit :=
  put_self (fresh_monitor u) >>
  setup_dirs >>
  setup_metadata_file.

Definition load_json (filename : path) : M pyval :=
  let* present := path_exists filename in
  if present
  then let* c := read_file filename in lift (json_loads c)
  else ret (PyDict []).

Definition save_json (filename : path) (json_data : pyval) : M unit :=
  json_dump_to filename json_data.

(** [self.__dict__[data_key] = ...] over [data_file_mapping], in its
    order: [data], [downloaded_highlights], [downloaded_stories]. *)
Definition load_data : M unit :=
  let* u := username in
  let* v := load_json (data_file u) in
  modify_self (set_data v) >>
  let* v := load_json (highlights_file u) in
  modify_self (set_downloaded_highlights v) >>
  let* v := load_json (stories_file u) in
  modify_self (set_downloaded_stories v).

(** [self.__dict__[key]]: a [KeyError] when the attribute was never
    set. *)
Definition attribute (a : option pyval) : M pyval :=
  match a with
  | Some v => ret v
  | None => raise KeyError
  end.

Definition save_data : M unit :=
  let* u := username in
  let* m := get_self in
  save_json (data_file u) (data m) >>
  let* m := get_self in
  let* v := attribute (downloaded_highlights m) in
  save_json (highlights_file u) v >>
  let* m := get_self in
  let* v := attribute (downloaded_stories m) in
  save_json (stories_file u) v.

Definition setup : M unit :=
  let* u := username in
  makedirs (data_dir u) >>
  load_data.

(** The three statements of [update_metadata_file] between the load and
    the dump, on the loaded value. *)
Definition merge_metadata (metadata : pyval) (category_key : text)
           (new_metadata : pydict) (timestamp : text) : result pyval :=
  match metadata with
  | PyDict md =>
      match dict_get md category_key with
      | None => Raise KeyError
      | Some (PyDict cat) =>
          match dict_get cat timestamp with
          | None =>
              Ok (PyDict (dict_set md category_key
                            (PyDict (dict_set cat timestamp
                                       (PyDict (dict_update [] new_metadata))))))
          | Some (PyDict entry) =>
              Ok (PyDict (dict_set md category_key
                            (PyDict (dict_set cat timestamp
                                       (PyDict (dict_update entry new_metadata))))))
          | Some _ => Raise AttributeError
          end
      | Some _ => Raise TypeError
      end
  | _ => Raise TypeError
  end.

Definition update_metadata_file (category_key : text) (new_metadata : pydict)
           (timestamp : text) : M unit :=
  let* u := username in
  let* old := read_file (metadata_file u) in
  let* metadata := lift (json_loads old) in
  let* metadata' := lift (merge_metadata metadata category_key new_metadata timestamp) in
  rewrite_file (metadata_file u) old (json_dumps metadata') >>
  emit (EvJsonDump (metadata_file u) metadata').

Definition py_opt_str (o : option text) : pyval :=
  match o with
  | Some s => PyStr s
  | None => PyNone
  end.

Definition highlight_item_metadata (item : StoryItem.t) : pyval :=
  PyDict [ (str "media_id", PyInt (StoryItem.mediaid item));
           (str "url", PyStr (StoryItem.url item));
           (str "caption", py_opt_str (StoryItem.caption item));
           (str "caption_mentions",
             PyList (map PyStr (StoryItem.caption_mentions item)));
           (str "is_video", PyBool (StoryItem.is_video item));
           (str "video_url",
             if StoryItem.is_video item
             then py_opt_str (StoryItem.video_url item) else PyNone) ].

Definition highlights_metadata (highlight : Highlight.t) (stories : list pyval)
  : pydict :=
  [ (str "id", PyInt (Highlight.unique_id highlight));
    (str "title", PyStr (Highlight.title highlight));
    (str "cover_url", PyStr (Highlight.cover_url highlight));
    (str "highlight_count", PyInt (Highlight.itemcount highlight));
    (str "stories", PyList stories) ].

Definition download_highlights_with_metadata (highlight : Highlight.t)
           (timestamp : text) : M unit :=
  let* u := username in
  let* stories :=
    for_each (Highlight.get_items highlight) []
      (fun stories item =>
         emit (EvDownloadStoryItem item (highlights_dir u)) >>
         ret (stories ++ [highlight_item_metadata item])) in
  update_metadata_file (str "highlights")
    (highlights_metadata highlight stories) timestamp.

Definition download_new_highlights (target_profile : Profile.t)
           (timestamp : text) : M (list Z) :=
  let* m := get_self in
  let downloaded_ids : gset Z := list_to_set (downloaded_highlights_list m) in
  let* L := get_remote in
  for_each (get_highlights L (Profile.userid target_profile)) []
    (fun new_downloads highlight =>
       if negb (bool_decide (Highlight.unique_id highlight ∈ downloaded_ids))
       then
         emit (EvLogInfo (LogNewHighlight (Highlight.title highlight)
                            (Highlight.itemcount highlight))) >>
         download_highlights_with_metadata highlight timestamp >>
         ret (new_downloads ++ [Highlight.unique_id highlight])
       else ret new_downloads).

Definition story_item_metadata (story_item : StoryItem.t) : pyval :=
  PyDict [ (str "media_id", PyInt (StoryItem.mediaid story_item));
           (str "url", PyStr (StoryItem.url story_item));
           (str "created_at", PyStr (StoryItem.date story_item));
           (str "expires_at", PyStr (StoryItem.expiring_utc story_item));
           (str "caption", py_opt_str (StoryItem.caption story_item));
           (str "caption_mentions",
             PyList (map PyStr (StoryItem.caption_mentions story_item)));
           (str "is_video", PyBool (StoryItem.is_video story_item));
           (str "video_url",
             if StoryItem.is_video story_item
             then py_opt_str (StoryItem.video_url story_item) else PyNone) ].

Definition stories_metadata (story : Story.t) (stories : list pyval) : pydict :=
  [ (str "id", PyStr (Story.unique_id story));
    (str "last_seen", py_opt_str (Story.last_seen_utc story));
    (str "latest_media", PyStr (Story.latest_media_utc story));
    (str "story_count", PyInt (Story.itemcount story));
    (str "stories", PyList stories) ].

Definition download_stories_with_metadata (story : Story.t) (timestamp : text)
  : M unit :=
  let* u := username in
  let* stories :=
    for_each (Story.get_items story) []
      (fun stories story_item =>
         emit (EvDownloadStoryItem story_item (stories_dir u)) >>
         ret (stories ++ [story_item_metadata story_item])) in
  update_metadata_file (str "stories") (stories_metadata story stories) timestamp.

(** [new_downloads] is returned as it was created; [downloaded_ids] is
    built and not used. *)
Definition download_new_stories (target_profile : Profile.t) (timestamp : text)
  : M (list text) :=
  let new_downloads : list text := [] in
  let* m := get_self in
  let downloaded_ids : gset text := list_to_set (downloaded_stories_list m) in
  let* L := get_remote in
  for_each (get_stories L [Profile.userid target_profile]) tt
    (fun _ story =>
       emit (EvLogInfo (LogNewStory (Story.latest_media_utc story))) >>
       download_stories_with_metadata story timestamp) >>
  ret new_downloads.

(** Returns the id when [return_id] is set; saves it and returns [None]
    otherwise. *)
Definition fetch_or_save_profile_id (return_id : bool) : M pyval :=
  let* u := username in
  let* L := get_remote in
  let target_profile := from_username L u in
  let profile_id := Profile.userid target_profile in
  if return_id then ret (PyInt profile_id)
  else
    json_dump_to (profile_id_file u)
      (PyDict [ (str "profile_id", PyInt profile_id) ]) >>
    ret PyNone.

(** [obj["profile_id"]] on what [json.load] returned. *)
Definition subscript_profile_id (obj : pyval) : result pyval :=
  match obj with
  | PyDict d =>
      match dict_get d (str "profile_id") with
      | Some x => Ok x
      | None => Raise KeyError
      end
  | _ => Raise TypeError
  end.

Definition check_and_update_profile_id : M unit :=
  try_log_raise (
    let* u := username in
    let* present := path_exists (profile_id_file u) in
    (if negb present
     then emit (EvLogInfo LogProfileIdNotFound) >>
          fetch_or_save_profile_id false >> ret tt
     else ret tt) >>
    let* c := read_file (profile_id_file u) in
    let* loaded := lift (json_loads c) in
    let* stored_profile_id := lift (subscript_profile_id loaded) in
    let* current_profile_id := fetch_or_save_profile_id true in
    (if negb (py_eq stored_profile_id current_profile_id)
     then emit (EvLogInfo LogProfileIdChanged) >>
          fetch_or_save_profile_id false >> ret tt
     else ret tt) >>
    emit (EvLogInfo LogProfileIdUpToDate)).

Definition py_pair (p : Z * text) : pyval :=
  PyTuple [PyInt (fst p); PyStr (snd p)].

(** The record [update_profile_info] stores under the timestamp. *)
Definition profile_snapshot (profile : Profile.t) : pyval :=
  PyDict [ (str "followers_count", PyInt (Profile.followers profile));
           (str "following_count", PyInt (Profile.followees profile));
           (str "bio", PyStr (Profile.biography profile));
           (str "profile_pic_url", PyStr (Profile.profile_pic_url profile));
           (str "followers", PyList (map py_pair (Profile.get_followers profile)));
           (str "following", PyList (map py_pair (Profile.get_followees profile))) ].

(** [obj[key] = value] *)
Definition setitem (obj : pyval) (key : text) (value : pyval) : result pyval :=
  match obj with
  | PyDict d => Ok (PyDict (dict_set d key value))
  | _ => Raise TypeError
  end.

Definition update_profile_info (profile : Profile.t) (timestamp : text)
  : M unit :=
  let* m := get_self in
  let* data' := lift (setitem (data m) timestamp (profile_snapshot profile)) in
  modify_self (set_data data') >>
  save_data.

(** [run_monitor]; [now] is the reading of the clock,
    [datetime.now().strftime("%Y-%m-%d %H:%M:%S")]. *)
Definition run_monitor (now : text) : M unit :=
  try_log_raise (
    setup >>
    let* u := username in
    let* L := get_remote in
    let target_profile := from_username L u in
    let timestamp := now in
    let* new_downloaded_highlights :=
      download_new_highlights target_profile timestamp in
    modify_self (fun m =>
      set_downloaded_highlights_list
        (downloaded_highlights_list m ++ new_downloaded_highlights) m) >>
    save_data >>
    let* new_downloaded_stories :=
      download_new_stories target_profile timestamp in
    modify_self (fun m =>
      set_downloaded_stories_list
        (downloaded_stories_list m ++ new_downloaded_stories) m) >>
    save_data >>
    update_profile_info target_profile timestamp >>
    emit (EvDownloadProfile u)).

(* ================================================================== *)
(** * A worked scenario

    One profile, two highlights and one active story, used where a
    property is shown on a concrete run. *)

Definition ex_item (id : Z) : StoryItem.t :=
  {| StoryItem.mediaid := id;
     StoryItem.url := str "https://cdn.example/m.jpg";
     StoryItem.date := str "2024-05-01 10:00:00";
     StoryItem.expiring_utc := str "2024-05-02 10:00:00";
     StoryItem.caption := None;
     StoryItem.caption_mentions := [];
     StoryItem.is_video := false;
     StoryItem.video_url := None |}.

Definition ex_h1 : Highlight.t :=
  {| Highlight.unique_id := 101;
     Highlight.title := str "travel";
     Highlight.cover_url := str "https://cdn.example/c1.jpg";
     Highlight.itemcount := 1;
     Highlight.get_items := [ex_item 11] |}.

Definition ex_h2 : Highlight.t :=
  {| Highlight.unique_id := 102;
     Highlight.title := str "family";
     Highlight.cover_url := str "https://cdn.example/c2.jpg";
     Highlight.itemcount := 1;
     Highlight.get_items := [ex_item 12] |}.

(** A highlight whose reel is empty. *)
Definition ex_h3 : Highlight.t :=
  {| Highlight.unique_id := 103;
     Highlight.title := str "x";
     Highlight.cover_url := str "";
     Highlight.itemcount := 0;
     Highlight.get_items := [] |}.

Definition ex_story : Story.t :=
  {| Story.unique_id := str "7_13";
     Story.last_seen_utc := None;
     Story.latest_media_utc := str "2024-05-01 10:00:00";
     Story.itemcount := 1;
     Story.get_items := [ex_item 13] |}.

Definition ex_profile : Profile.t :=
  {| Profile.userid := 7;
     Profile.followers := 1;
     Profile.followees := 0;
     Profile.biography := str "hello";
     Profile.profile_pic_url := str "https://cdn.example/p.jpg";
     Profile.get_followers := [(8, str "bob")];
     Profile.get_followees := [] |}.

Definition ex_remote (highlights : list Highlight.t) : Instaloader :=
  {| from_username := fun _ => ex_profile;
     get_highlights := fun _ => highlights;
     get_stories := fun _ => [ex_story] |}.

Definition ex_user : string := "alice".

(** An empty disk and a newly built object. *)
Definition ex_start (highlights : list Highlight.t) : state :=
  {| self := fresh_monitor ex_user;
     fs := ∅;
     remote := ex_remote highlights;
     events := [] |}.

(** The state after [InstagramMonitor(...)] on the empty disk. *)
Definition ex_ready (highlights : list Highlight.t) : state :=
  snd (init ex_user (ex_start highlights)).

Definition ex_time : text := str "2024-05-01 10:00:00".
Definition ex_later : text := str "2024-05-01 16:00:00".

(** A snapshot store with one entry, as [update_profile_info] builds it. *)
Definition ex_store : pyval := PyDict [ (ex_time, profile_snapshot ex_profile) ].

(** The story items the provider was asked to download into [target]. *)
Definition downloads_into (target : path) (evs : list event)
  : list StoryItem.t :=
  flat_map (fun e =>
              match e with
              | EvDownloadStoryItem item t =>
                  if bool_decide (t = target) then [item] else []
              | _ => []
              end) evs.

(** The objects handed to [json.dump] for [file]. *)
Definition dumps_to (file : path) (evs : list event) : list pyval :=
  flat_map (fun e =>
              match e with
              | EvJsonDump f obj => if bool_decide (f = file) then [obj] else []
              | _ => []
              end) evs.

(** [obj[k1][k2]] where both are dictionaries. *)
Definition get_in (obj : pyval) (k1 k2 : text) : option pyval :=
  match obj with
  | PyDict d =>
      match dict_get d k1 with
      | Some (PyDict d1) => dict_get d1 k2
      | _ => None
      end
  | _ => None
  end.

(** Every key of [e] is in [obj], with the value [e] gives it. *)
Definition dict_includes (obj : pyval) (e : pydict) : Prop :=
  match obj with
  | PyDict d => forall k v, In (k, v) e -> dict_get d k = Some v
  | _ => False
  end.

(** The text of the file at [p] (nothing, if there is no file). *)
Definition file_text (s : state) (p : path) : text :=
  match lookup_node (fs s) p with
  | Some (File c) => c
  | _ => []
  end.

(** The state once the first highlight of the scenario has been
    downloaded and logged. *)
Definition ex_after_h1 : state :=
  snd (download_highlights_with_metadata ex_h1 ex_time (ex_ready [])).

(** The paths [mkdir_from pre rest] looks at, in order. *)
Fixpoint prefixes_from (pre rest : path) : list path :=
  match rest with
  | [] => []
  | c :: rest' => (pre ++ [c]) :: prefixes_from (pre ++ [c]) rest'
  end.

(** What [__init__] leaves on a disk that held [f]: [setup_dirs], then
    [setup_metadata_file] if that did not raise. *)
Definition layout_after (u : string) (f : gmap path node) : gmap path node :=
  match mkdir_p (highlights_dir u) f with
  | (Raise _, f1) => f1
  | (Ok _, f1) =>
      match mkdir_p (stories_dir u) f1 with
      | (Raise _, f2) => f2
      | (Ok _, f2) =>
          match f2 !! metadata_file u with
          | None => <[metadata_file u := File (json_dumps initial_metadata)]> f2
          | Some _ => f2
          end
      end
  end.

(** The directories of the layout. *)
Definition layout_dirs (u : string) : list path :=
  [ ["output"]; data_dir u; highlights_dir u; stories_dir u ].

(** The log [update_metadata_file] builds when the highlight with the
    empty reel is logged after the first one, under the same timestamp. *)
Definition ex_merged : result pyval :=
  match json_loads (file_text ex_after_h1 (metadata_file ex_user)) with
  | Ok metadata =>
      merge_metadata metadata (str "highlights")
        (highlights_metadata ex_h3 []) ex_time
  | Raise e => Raise e
  end.

(* ================================================================== *)
(** * Vocabulary of the proofs about runs *)

(** A method started where [P] holds returns [a] in a state where [Q a]
    holds, or raises in a state where [E] holds. *)
Definition triple {A} (P : state -> Prop) (m : M A)
           (Q : A -> state -> Prop) (E : state -> Prop) : Prop :=
  forall s, P s ->
    match m s with
    | (Ok a, s') => Q a s'
    | (Raise _, s') => E s'
    end.

(** What [load_json] makes of a node of the disk. *)
Definition loaded_from (n : option node) : result pyval :=
  match n with
  | None => Ok (PyDict [])
  | Some (File c) => json_loads c
  | Some Dir => Raise IsADirectoryError
  end.

(** During a run, before [load_data] is through: the stories file and the
    in-memory id list are as they were. *)
Definition stories_as_found (u : string) (ids : list text) (n : option node)
           (s : state) : Prop :=
  profile_username (self s) = u
  /\ downloaded_stories_list (self s) = ids
  /\ fs s !! stories_file u = n.

(** After [load_data]: the attribute holds what was loaded, and the file
    is as it was or holds that value again. *)
Definition stories_as_loaded (u : string) (ids : list text) (n : option node)
           (v : pyval) (s : state) : Prop :=
  profile_username (self s) = u
  /\ downloaded_stories_list (self s) = ids
  /\ downloaded_stories (self s) = Some v
  /\ (fs s !! stories_file u = n
      \/ fs s !! stories_file u = Some (File (json_dumps v))).

(** What both say about the end of the run: the id list in memory is as
    it was, and the file is as it was or holds again what was loaded from
    it. *)
Definition stories_kept (u : string) (ids : list text) (n : option node)
           (s : state) : Prop :=
  downloaded_stories_list (self s) = ids
  /\ (fs s !! stories_file u = n
      \/ exists v, loaded_from n = Ok v
                   /\ fs s !! stories_file u = Some (File (json_dumps v))).

(** ** The reconciler, in the words of the specification

    The delta is the subsequence of the candidates whose identifier is
    absent from the known identifiers, in the order of enumeration. *)
Definition is_new (known : list Z) (h : Highlight.t) : bool :=
  negb (bool_decide (Highlight.unique_id h ∈ known)).

Definition reconciler_delta_spec (known : list Z)
           (candidates : list Highlight.t) : list Highlight.t :=
  List.filter (is_new known) candidates.

(** The "downloading new highlight" messages of a trace. *)
Definition new_highlight_logs (evs : list event) : list (text * Z) :=
  flat_map (fun e =>
              match e with
              | EvLogInfo (LogNewHighlight t c) => [(t, c)]
              | _ => []
              end) evs.

(** What processing one story leaves in the trace, [log] being the
    metadata log handed to [json.dump] at the end. *)
Definition story_events (u : string) (story : Story.t) (log : pyval)
  : list event :=
  EvLogInfo (LogNewStory (Story.latest_media_utc story))
    :: map (fun item => EvDownloadStoryItem item (stories_dir u))
         (Story.get_items story)
    ++ [EvJsonDump (metadata_file u) log].

(** [log] has, under [stories] and the timestamp, every field of the
    story's metadata. *)
Definition logs_story (timestamp : text) (story : Story.t) (log : pyval)
  : Prop :=
  exists entry,
    get_in log (str "stories") timestamp = Some (PyDict entry)
    /\ forall k v,
        In (k, v) (stories_metadata story
                     (map story_item_metadata (Story.get_items story))) ->
        dict_get entry k = Some v.

(** The same object with another downloaded-stories id list. *)
Definition with_stories_list (l : list text) (s : state) : state :=
  with_self (set_downloaded_stories_list l (self s)) s.

(** The object of the scenario when the first highlight is already
    known. *)
Definition ex_known_h1 : state :=
  with_self (set_downloaded_highlights_list [101] (fresh_monitor ex_user))
    (ex_ready [ex_h1; ex_h2]).

(** The object of the scenario when the story of the day is already in
    the downloaded-stories id list. *)
Definition ex_story_known : state :=
  with_stories_list [Story.unique_id ex_story] (ex_ready [ex_h1; ex_h2]).

(** Two runs, each of a newly built object, on the same disk and with the
    provider enumerating the same two highlights. *)
Definition ex_run1 : result unit * state :=
  (init ex_user >> run_monitor ex_time) (ex_start [ex_h1; ex_h2]).

Definition ex_run2 : result unit * state :=
  (init ex_user >> run_monitor ex_later) (snd ex_run1).

(** The part of the trace the second run added. *)
Definition ex_run2_events : list event :=
  drop (length (events (snd ex_run1))) (events (snd ex_run2)).

(** The object knows these highlight ids and is the monitor of [u]. *)
Definition knows (u : string) (l : list Z) (s : state) : Prop :=
  profile_username (self s) = u /\ downloaded_highlights_list (self s) = l.

(** A disk on which [downloaded_highlights.json] holds an empty object,
    and one on which it holds the beginning of an object. *)
Definition ex_empty_object_on_disk : state :=
  with_fs (<[highlights_file ex_user := File (jtext "{}")]> ∅) (ex_start []).

Definition ex_malformed_on_disk : state :=
  with_fs (<[highlights_file ex_user := File (jtext "{'a': ")]> ∅)
    (ex_start []).

(** An object whose store already has a snapshot under [ex_time]. *)
Definition ex_old_snapshot : pyval :=
  PyDict [ (str "followers_count", PyInt 0) ].

Definition ex_same_second : state :=
  with_self (set_data (PyDict [ (ex_time, ex_old_snapshot) ])
               (fresh_monitor ex_user))
    (ex_ready []).

(* ================================================================== *)
(** * Comparing two lists

    [compare_and_log_changes] touches nothing but the logger; it is given
    as the messages it hands to [logger.info], in order.  The elements
    are of any hashable type. *)

Section Compare.
Context {K : Type} `{Countable K}.

Inductive change_message : Type :=
| LogNewItems (list_name : text) (added : gset K)
| LogRemovedItems (list_name : text) (removed : gset K).

Definition compare_and_log_changes (old_list new_list : list K)
           (list_name : text) : list change_message :=
  let added : gset K := list_to_set new_list ∖ list_to_set old_list in
  let removed : gset K := list_to_set old_list ∖ list_to_set new_list in
  (if bool_decide (added ≠ ∅) then [LogNewItems list_name added] else [])
  ++ (if bool_decide (removed ≠ ∅)
      then [LogRemovedItems list_name removed] else []).

(** The same message read from the other list's side. *)
Definition mirrored (m : change_message) : change_message :=
  match m with
  | LogNewItems n a => LogRemovedItems n a
  | LogRemovedItems n r => LogNewItems n r
  end.

End Compare.
Arguments change_message K {_ _}.

(* ================================================================== *)
(** * Vocabulary of the further properties *)

(** What [fetch_or_save_profile_id] writes for the id [n]. *)
Definition profile_id_record (n : Z) : pyval :=
  PyDict [ (str "profile_id", PyInt n) ].

(** The id the provider gives for the monitored user. *)
Definition current_profile_id (s : state) : Z :=
  Profile.userid (from_username (remote s) (profile_username (self s))).

(** The cached profile id agrees with the provider's: the file can be
    read as [check_and_update_profile_id] reads it, and what it holds
    under [profile_id] equals the id. *)
Definition profile_id_agrees (s : state) : Prop :=
  exists c loaded stored,
    lookup_node (fs s) (profile_id_file (profile_username (self s)))
    = Some (File c)
    /\ json_loads c = Ok loaded
    /\ subscript_profile_id loaded = Ok stored
    /\ py_eq stored (PyInt (current_profile_id s)) = true.

(** A disk that holds a profile-id file for the scenario's user. *)
Definition ex_cached (c : text) : state :=
  with_fs (<[profile_id_file ex_user := File c]> ∅) (ex_start []).

(** A disk whose metadata log is a JSON object without the categories. *)
Definition ex_bare_log : state :=
  with_fs (<[metadata_file ex_user := File (jtext "{}")]> (fs (ex_ready [])))
    (ex_ready []).

(** The events a run has added to the log of [s] by the time of [s']. *)
Definition events_since (s s' : state) : list event :=
  drop (length (events s)) (events s').

(** [log] has, under [highlights] and the timestamp, every field of the
    highlight's metadata. *)
Definition logs_highlight (timestamp : text) (highlight : Highlight.t)
           (log : pyval) : Prop :=
  exists entry,
    get_in log (str "highlights") timestamp = Some (PyDict entry)
    /\ forall k v,
        In (k, v) (highlights_metadata highlight
                     (map highlight_item_metadata
                        (Highlight.get_items highlight))) ->
        dict_get entry k = Some v.

(** The events of a run before its last one: everything but the call of
    [download_profile] and the error line. *)
Definition quiet (e : event) : Prop :=
  match e with
  | EvDownloadProfile _ | EvLogError _ => False
  | _ => True
  end.

(** The regular files a run writes. *)
Definition run_files (u : string) : list path :=
  [ data_file u; highlights_file u; stories_file u; metadata_file u ].

(** The paths a run may create or write: the data directory and the one
    above it, and the four files. *)
Definition run_paths (u : string) : list path :=
  prefixes_from [] (data_dir u) ++ run_files u.

(** The statements of [run_monitor] after [self.setup()]. *)
Definition run_after_setup (now : text) : M unit :=
  let* u := username in
  let* L := get_remote in
  let target_profile := from_username L u in
  let timestamp := now in
  let* new_downloaded_highlights :=
    download_new_highlights target_profile timestamp in
  modify_self (fun m =>
    set_downloaded_highlights_list
      (downloaded_highlights_list m ++ new_downloaded_highlights) m) >>
  save_data >>
  let* new_downloaded_stories :=
    download_new_stories target_profile timestamp in
  modify_self (fun m =>
    set_downloaded_stories_list
      (downloaded_stories_list m ++ new_downloaded_stories) m) >>
  save_data >>
  update_profile_info target_profile timestamp >>
  emit (EvDownloadProfile u).

(** Since [s0], the trace has only grown, by quiet events. *)
Definition trace_grown (s0 s : state) : Prop :=
  profile_username (self s) = profile_username (self s0)
  /\ exists evs, events s = events s0 ++ evs /\ Forall quiet evs.

(** Since [s0], nothing outside the paths of a run has changed on disk,
    and what was a directory or a regular file still is one. *)
Definition disk_kept (s0 s : state) : Prop :=
  profile_username (self s) = profile_username (self s0)
  /\ (forall q, ~ In q (run_paths (profile_username (self s0))) ->
                fs s !! q = fs s0 !! q)
  /\ (forall q, fs s0 !! q = Some Dir -> fs s !! q = Some Dir)
  /\ (forall q c, fs s0 !! q = Some (File c) ->
                  exists c', fs s !! q = Some (File c')).

(** During a run, before [load_data] has read the highlights file: the
    file is as it was. *)
Definition highlights_as_found (u : string) (n : option node) (s : state)
  : Prop :=
  profile_username (self s) = u
  /\ fs s !! highlights_file u = n.

(** After that: the attribute [downloaded_highlights] holds what was
    loaded, and the file is as it was or holds that value again. *)
Definition highlights_as_loaded (u : string) (n : option node) (v : pyval)
           (s : state) : Prop :=
  profile_username (self s) = u
  /\ downloaded_highlights (self s) = Some v
  /\ (fs s !! highlights_file u = n
      \/ fs s !! highlights_file u = Some (File (json_dumps v))).

(** What both say about the end of the run. *)
Definition highlights_kept (u : string) (n : option node) (s : state) : Prop :=
  fs s !! highlights_file u = n
  \/ exists v, loaded_from n = Ok v
               /\ fs s !! highlights_file u = Some (File (json_dumps v)).

(** A newly built object that already knows both highlights of the
    scenario, on an empty disk (no layout, no metadata log). *)
Definition ex_all_known : state :=
  with_self (set_downloaded_highlights_list [101; 102] (fresh_monitor ex_user))
    (ex_start [ex_h1; ex_h2]).

(** The object of user [u] knows the highlight ids [l] and talks to the
    provider [L]. *)
Definition learnt (u : string) (L : Instaloader) (l : list Z) (s : state)
  : Prop :=
  profile_username (self s) = u
  /\ remote s = L
  /\ downloaded_highlights_list (self s) = l.

(** The object of user [u] holds the snapshot store [v] and talks to the
    provider [L]. *)
Definition holds_store (u : string) (L : Instaloader) (v : pyval) (s : state)
  : Prop :=
  profile_username (self s) = u
  /\ remote s = L
  /\ data (self s) = v.

(** The state after the first run of the scenario. *)
Definition ex_after_run1 : state := snd ex_run1.

(** The scenario with one highlight, ready to run. *)
Definition ex_one : state := ex_ready [ex_h1].

(** A character of plain text: a line feed or printable ASCII. *)
Definition plain (c : Z) : Prop := c = 10 \/ 32 <= c <= 126.

(** Since [s0] nothing was logged and nothing that was on disk has
    changed. *)
Definition only_dirs_made (s0 s : state) : Prop :=
  profile_username (self s) = profile_username (self s0)
  /\ events s = events s0
  /\ forall q n, fs s0 !! q = Some n -> fs s !! q = Some n.

(** A disk, ready for a run, whose stories id file is cut short. *)
Definition ex_bad_stories : state :=
  with_fs (<[stories_file ex_user := File (jtext "[1,")]> (fs (ex_ready [ex_h1])))
    (ex_ready [ex_h1]).
(* ================================================================== *)
(** * Properties of the JSON layer *)

Section PyvalInduction.
Variable P : pyval -> Prop.
Hypothesis HNone : P PyNone.
Hypothesis HBool : forall b, P (PyBool b).
Hypothesis HInt : forall n, P (PyInt n).
Hypothesis HStr : forall s, P (PyStr s).
Hypothesis HList : forall l, Forall P l -> P (PyList l).
Hypothesis HTuple : forall l, Forall P l -> P (PyTuple l).
Hypothesis HDict : forall d, Forall (fun kv => P (snd kv)) d -> P (PyDict d).

Fixpoint pyval_nested_ind (v : pyval) : P v :=
  match v with
  | PyNone => HNone
  | PyBool b => HBool b
  | PyInt n => HInt n
  | PyStr s => HStr s
  | PyList l =>
      HList l ((fix go (l : list pyval) : Forall P l :=
                  match l with
                  | [] => @List.Forall_nil _ P
                  | x :: xs => @List.Forall_cons _ P x xs (pyval_nested_ind x) (go xs)
                  end) l)
  | PyTuple l =>
      HTuple l ((fix go (l : list pyval) : Forall P l :=
                   match l with
                   | [] => @List.Forall_nil _ P
                   | x :: xs => @List.Forall_cons _ P x xs (pyval_nested_ind x) (go xs)
                   end) l)
  | PyDict d =>
      HDict d ((fix go (d : list (text * pyval))
                 : Forall (fun kv => P (snd kv)) d :=
                  match d with
                  | [] => @List.Forall_nil _ (fun kv => P (snd kv))
                  | kv :: xs =>
                      @List.Forall_cons _ (fun kv => P (snd kv)) kv xs
                        (pyval_nested_ind (snd kv)) (go xs)
                  end) d)
  end.
End PyvalInduction.

(** ** White space *)

Lemma skip_ws_spaces (n : nat) (s : text) :
  skip_ws (repeat 32 n ++ s) = skip_ws s.
Proof. induction n as [|n IH]; simpl; auto. Qed.

Lemma skip_ws_newline_indent (level : nat) (s : text) :
  skip_ws (newline_indent level ++ s) = skip_ws s.
Proof. unfold newline_indent. simpl. apply skip_ws_spaces. Qed.

Lemma skip_ws_stop (c : Z) (s : text) :
  is_ws c = false -> skip_ws (c :: s) = c :: s.
Proof. intros H. simpl. now rewrite H. Qed.

(** ** Hexadecimal escapes *)

Lemma hexval_hexdigit (d : Z) : 0 <= d < 16 -> hexval (hexdigit d) = Some d.
Proof.
  intros Hd. unfold hexdigit, hexval.
  destruct (Z.ltb_spec d 10).
  - replace ((48 <=? 48 + d) && (48 + d <=? 57)) with true
      by (symmetry; apply andb_true_iff; split; apply Z.leb_le; lia).
    f_equal. lia.
  - replace ((48 <=? 87 + d) && (87 + d <=? 57)) with false
      by (symmetry; apply andb_false_iff; right; apply Z.leb_gt; lia).
    replace ((97 <=? 87 + d) && (87 + d <=? 102)) with true
      by (symmetry; apply andb_true_iff; split; apply Z.leb_le; lia).
    f_equal. lia.
Qed.

Lemma land_15 (n : Z) : Z.land n 15 = n mod 16.
Proof. change 15 with (Z.ones 4). rewrite Z.land_ones by lia. reflexivity. Qed.

Lemma hex4val_hex4 (n : Z) :
  0 <= n < 65536 ->
  exists h1 h2 h3 h4, hex4 n = [h1; h2; h3; h4] /\ hex4val h1 h2 h3 h4 = Some n.
Proof.
  intros Hn. unfold hex4. do 4 eexists. split; [reflexivity|].
  unfold hex4val. rewrite !land_15, !Z.shiftr_div_pow2 by lia.
  rewrite !hexval_hexdigit by (apply Z.mod_pos_bound; lia).
  f_equal.
  change (2 ^ 12) with 4096. change (2 ^ 8) with 256. change (2 ^ 4) with 16.
  assert (H3 : (n / 4096) mod 16 = n / 4096).
  { apply Z.mod_small. split; [apply Z.div_pos; lia|].
    apply Z.div_lt_upper_bound; lia. }
  rewrite H3.
  pose proof (Z.div_mod n 4096 ltac:(lia)).
  pose proof (Z.div_mod n 256 ltac:(lia)).
  pose proof (Z.div_mod n 16 ltac:(lia)).
  pose proof (Z.div_mod (n / 256) 16 ltac:(lia)).
  pose proof (Z.div_mod (n / 16) 16 ltac:(lia)).
  pose proof (Z.mod_pos_bound n 16 ltac:(lia)).
  pose proof (Z.mod_pos_bound (n / 256) 16 ltac:(lia)).
  pose proof (Z.mod_pos_bound (n / 16) 16 ltac:(lia)).
  assert (n / 256 / 16 = n / 4096) by (rewrite Z.div_div by lia; reflexivity).
  assert (n / 16 / 16 = n / 256) by (rewrite Z.div_div by lia; reflexivity).
  lia.
Qed.

Lemma land_mul_pow2_small (a b k : Z) :
  0 <= k -> 0 <= b < 2 ^ k -> Z.land (a * 2 ^ k) b = 0.
Proof.
  intros Hk Hb. apply Z.bits_inj'. intros i Hi.
  rewrite Z.land_spec, Z.bits_0.
  destruct (Z.lt_ge_cases i k) as [Hlt|Hge].
  - now rewrite Z.mul_pow2_bits_low.
  - destruct (Z.eq_dec b 0) as [->|Hnz].
    + now rewrite Z.bits_0, andb_false_r.
    + rewrite (Z.bits_above_log2 b i), andb_false_r; [reflexivity|lia|].
      apply Z.lt_le_trans with k; [|lia].
      apply Z.log2_lt_pow2; lia.
Qed.

Lemma lor_mul_pow2_small (a b k : Z) :
  0 <= k -> 0 <= b < 2 ^ k -> Z.lor (a * 2 ^ k) b = a * 2 ^ k + b.
Proof.
  intros Hk Hb. pose proof (Z.add_lor_land (a * 2 ^ k) b) as H.
  rewrite land_mul_pow2_small in H by assumption. lia.
Qed.

Lemma surrogate_pair (c : Z) :
  65536 <= c <= 1114111 ->
  let n := c - 65536 in
  let hi := Z.lor 55296 (Z.land (Z.shiftr n 10) 1023) in
  let lo := Z.lor 56320 (Z.land n 1023) in
  (55296 <= hi <= 56319) /\ (56320 <= lo <= 57343)
  /\ join_surrogates hi lo = c.
Proof.
  intros Hc n hi lo.
  assert (Hn : 0 <= n < 1048576) by (unfold n; lia).
  assert (Hq : 0 <= n / 1024 < 1024).
  { split; [apply Z.div_pos; lia|apply Z.div_lt_upper_bound; lia]. }
  pose proof (Z.mod_pos_bound n 1024 ltac:(lia)) as Hr.
  assert (Hhi : hi = 55296 + n / 1024).
  { unfold hi. change 1023 with (Z.ones 10).
    rewrite Z.land_ones, Z.shiftr_div_pow2 by lia.
    change (2 ^ 10) with 1024. rewrite (Z.mod_small (n / 1024)) by lia.
    change 55296 with (54 * 2 ^ 10). apply lor_mul_pow2_small; [lia|].
    change (2 ^ 10) with 1024. lia. }
  assert (Hlo : lo = 56320 + n mod 1024).
  { unfold lo. change 1023 with (Z.ones 10). rewrite Z.land_ones by lia.
    change (2 ^ 10) with 1024.
    change 56320 with (55 * 2 ^ 10). apply lor_mul_pow2_small; [lia|].
    change (2 ^ 10) with 1024. lia. }
  split; [lia|]. split; [lia|].
  unfold join_surrogates. rewrite Hhi, Hlo.
  replace (55296 + n / 1024 - 55296) with (n / 1024) by lia.
  replace (56320 + n mod 1024 - 56320) with (n mod 1024) by lia.
  rewrite Z.shiftl_mul_pow2 by lia.
  rewrite lor_mul_pow2_small by (change (2 ^ 10) with 1024; lia).
  change (2 ^ 10) with 1024.
  pose proof (Z.div_mod n 1024 ltac:(lia)). unfold n in *. lia.
Qed.

(** ** Strings: [scanstring] reads back what [encode_basestring_ascii]
    wrote *)

Lemma scanstring_uescape (n : Z) (s : text) :
  0 <= n < 65536 ->
  is_high_surrogate n = false ->
  scanstring (uescape n ++ s) = cons_chr n (scanstring s).
Proof.
  intros Hn Hhi.
  destruct (hex4val_hex4 n Hn) as (h1 & h2 & h3 & h4 & Hhex & Hval).
  unfold uescape. rewrite Hhex. cbn [app scanstring].
  change (92 =? 34) with false. change (92 =? 92) with true.
  change (117 =? 117) with true. cbv iota.
  rewrite Hval, Hhi. reflexivity.
Qed.

Lemma scanstring_upair (hi lo : Z) (s : text) :
  55296 <= hi <= 56319 ->
  56320 <= lo <= 57343 ->
  scanstring (uescape hi ++ uescape lo ++ s)
  = cons_chr (join_surrogates hi lo) (scanstring s).
Proof.
  intros Hhi Hlo.
  destruct (hex4val_hex4 hi ltac:(lia)) as (h1 & h2 & h3 & h4 & Hhex & Hval).
  destruct (hex4val_hex4 lo ltac:(lia)) as (g1 & g2 & g3 & g4 & Hhex' & Hval').
  unfold uescape. rewrite Hhex, Hhex'. cbn [app scanstring].
  change (92 =? 34) with false. change (92 =? 92) with true.
  change (117 =? 117) with true. cbv iota. cbn [andb].
  rewrite Hval, Hval'.
  replace (is_high_surrogate hi) with true
    by (symmetry; apply andb_true_iff; split; apply Z.leb_le; lia).
  replace (is_low_surrogate lo) with true
    by (symmetry; apply andb_true_iff; split; apply Z.leb_le; lia).
  reflexivity.
Qed.

Lemma scanstring_escape_char (c : Z) (s : text) :
  is_scalar c = true ->
  scanstring (escape_char c ++ s) = cons_chr c (scanstring s).
Proof.
  intros Hc. unfold is_scalar in Hc.
  apply orb_true_iff in Hc.
  assert (Hr : 0 <= c < 55296 \/ 57344 <= c <= 1114111).
  { destruct Hc as [H|H]; apply andb_true_iff in H as [H1 H2];
      [left|right]; split;
      first [apply Z.leb_le; assumption | apply Z.ltb_lt; assumption]. }
  clear Hc. unfold escape_char.
  destruct (Z.eqb_spec c 34) as [->|N34]; [reflexivity|].
  destruct (Z.eqb_spec c 92) as [->|N92]; [reflexivity|].
  destruct (Z.eqb_spec c 10) as [->|N10]; [reflexivity|].
  destruct (Z.eqb_spec c 13) as [->|N13]; [reflexivity|].
  destruct (Z.eqb_spec c 9) as [->|N9]; [reflexivity|].
  destruct (Z.eqb_spec c 12) as [->|N12]; [reflexivity|].
  destruct (Z.eqb_spec c 8) as [->|N8]; [reflexivity|].
  destruct ((32 <=? c) && (c <=? 126)) eqn:Hprint.
  - apply andb_true_iff in Hprint as [H1 H2].
    apply Z.leb_le in H1. apply Z.leb_le in H2.
    cbn [app scanstring].
    destruct (Z.eqb_spec c 34); [lia|].
    destruct (Z.eqb_spec c 92); [lia|].
    destruct (Z.ltb_spec c 32); [lia|]. reflexivity.
  - destruct (Z.ltb_spec c 65536) as [Hlt|Hge].
    + apply scanstring_uescape; [lia|].
      unfold is_high_surrogate. apply andb_false_iff.
      destruct Hr; [left; apply Z.leb_gt; lia|right; apply Z.leb_gt; lia].
    + cbv zeta. rewrite <- app_assoc.
      destruct (surrogate_pair c ltac:(lia)) as (Hhi & Hlo & Hjoin).
      rewrite scanstring_upair by assumption.
      cbv zeta in Hjoin. now rewrite Hjoin.
Qed.

Lemma scanstring_escape_chars (s rest : text) :
  forallb is_scalar s = true ->
  scanstring (escape_chars s ++ 34 :: rest) = Ok (s, rest).
Proof.
  induction s as [|c s IH]; intros Hs.
  - reflexivity.
  - cbn [forallb] in Hs. apply andb_true_iff in Hs as [Hc Hs].
    cbn [escape_chars]. rewrite <- app_assoc.
    rewrite scanstring_escape_char by assumption.
    now rewrite IH.
Qed.

(** ** Integers: the number scanner reads back what [int.__repr__] wrote *)

Lemma digits_value_snoc (ds : text) (d : Z) :
  digits_value (ds ++ [d]) = digits_value ds * 10 + (d - 48).
Proof. unfold digits_value. now rewrite fold_left_app. Qed.

Lemma is_digit_true (c : Z) : is_digit c = true <-> 48 <= c <= 57.
Proof.
  unfold is_digit. rewrite andb_true_iff, !Z.leb_le. reflexivity.
Qed.

Lemma digits_spec (f : nat) :
  forall n, 0 <= n < 10 ^ Z.of_nat (S f) ->
  forallb is_digit (digits (S f) n) = true
  /\ digits_value (digits (S f) n) = n
  /\ exists c t, digits (S f) n = c :: t
       /\ (n = 0 -> c = 48 /\ t = [])
       /\ (0 < n -> 49 <= c <= 57).
Proof.
  induction f as [|f IH]; intros n Hn.
  - change (10 ^ Z.of_nat 1) with 10 in Hn.
    cbn [digits]. destruct (Z.ltb_spec n 10); [|lia].
    split; [|split].
    + cbn [forallb]. rewrite andb_true_r. apply is_digit_true. lia.
    + unfold digits_value. cbn. lia.
    + exists (48 + n), []. repeat split; lia.
  - remember (S f) as f1 eqn:Ef1.
    cbn [digits]. destruct (Z.ltb_spec n 10) as [Hlt|Hge].
    + split; [|split].
      * cbn [forallb]. rewrite andb_true_r. apply is_digit_true. lia.
      * unfold digits_value. cbn. lia.
      * exists (48 + n), []. repeat split; lia.
    + assert (Hq : 0 < n / 10 < 10 ^ Z.of_nat f1).
      { split.
        - apply Z.div_str_pos. lia.
        - apply Z.div_lt_upper_bound; [lia|].
          rewrite Nat2Z.inj_succ, Z.pow_succ_r in Hn by lia. lia. }
      subst f1.
      destruct (IH (n / 10) ltac:(lia)) as (Hall & Hval & c & t & Heq & _ & Hpos).
      pose proof (Z.mod_pos_bound n 10 ltac:(lia)) as Hr.
      split; [|split].
      * rewrite forallb_app, Hall. cbn [forallb andb].
        rewrite andb_true_r. apply is_digit_true. lia.
      * rewrite digits_value_snoc, Hval.
        pose proof (Z.div_mod n 10 ltac:(lia)). lia.
      * rewrite Heq. exists c, (t ++ [48 + n mod 10]).
        split; [reflexivity|]. split; [lia|]. intros _. apply Hpos. lia.
Qed.

Lemma nat_repr_spec (n : Z) :
  0 <= n ->
  forallb is_digit (nat_repr n) = true
  /\ digits_value (nat_repr n) = n
  /\ exists c t, nat_repr n = c :: t
       /\ (n = 0 -> c = 48 /\ t = [])
       /\ (0 < n -> 49 <= c <= 57).
Proof.
  intros Hn. unfold nat_repr. apply digits_spec.
  split; [assumption|].
  rewrite Nat2Z.inj_succ, Z2Nat.id by apply Z.log2_nonneg.
  destruct (Z.eq_dec n 0) as [->|Hnz].
  - reflexivity.
  - apply Z.lt_le_trans with (2 ^ Z.succ (Z.log2 n)).
    + apply Z.log2_spec. lia.
    + apply Z.pow_le_mono_l. pose proof (Z.log2_nonneg n). lia.
Qed.

Lemma span_digits_app (ds rest : text) :
  forallb is_digit ds = true ->
  ends_number rest = true ->
  span_digits (ds ++ rest) = (ds, rest).
Proof.
  intros Hds Hrest. induction ds as [|d ds IH].
  - destruct rest as [|c r]; [reflexivity|].
    cbn [app span_digits]. cbn [ends_number] in Hrest.
    apply negb_true_iff in Hrest.
    apply orb_false_iff in Hrest as [Hrest _].
    apply orb_false_iff in Hrest as [Hrest _].
    apply orb_false_iff in Hrest as [Hrest _].
    now rewrite Hrest.
  - cbn [forallb] in Hds. apply andb_true_iff in Hds as [Hd Hds].
    cbn [app span_digits]. rewrite Hd, IH by assumption. reflexivity.
Qed.

Lemma has_frac_or_exp_ends (rest : text) :
  ends_number rest = true -> has_frac_or_exp rest = false.
Proof.
  destruct rest as [|c [|d r]]; try reflexivity.
  cbn [ends_number has_frac_or_exp]. intros H.
  apply negb_true_iff in H.
  apply orb_false_iff in H as [H H69].
  apply orb_false_iff in H as [H H101].
  apply orb_false_iff in H as [_ H46].
  now rewrite H46, H101, H69.
Qed.

Lemma match_integer_int_repr (z : Z) (rest : text) :
  ends_number rest = true ->
  match_integer (int_repr z ++ rest) = Some (z, rest).
Proof.
  intros Hrest. unfold int_repr.
  destruct (Z.ltb_spec z 0) as [Hneg|Hpos].
  - destruct (nat_repr_spec (- z) ltac:(lia))
      as (Hall & Hval & c & t & Heq & _ & Hc).
    specialize (Hc ltac:(lia)).
    assert (Hspan : span_digits (nat_repr (- z) ++ rest) = (nat_repr (- z), rest))
      by (apply span_digits_app; assumption).
    unfold match_integer. cbn [app]. change (45 =? 45) with true. cbv iota.
    rewrite Heq in Hspan |- *. cbn [app] in Hspan |- *.
    destruct (Z.eqb_spec c 48); [lia|].
    replace (is_digit c) with true by (symmetry; apply is_digit_true; lia).
    rewrite Hspan, <- Heq, Hval. f_equal. f_equal. lia.
  - destruct (nat_repr_spec z ltac:(lia))
      as (Hall & Hval & c & t & Heq & Hzero & Hc).
    assert (Hspan : span_digits (nat_repr z ++ rest) = (nat_repr z, rest))
      by (apply span_digits_app; assumption).
    unfold match_integer.
    rewrite Heq in Hspan |- *. cbn [app] in Hspan |- *.
    destruct (Z.eq_dec z 0) as [->|Hnz].
    + destruct (Hzero eq_refl) as [-> ->]. reflexivity.
    + specialize (Hc ltac:(lia)).
      destruct (Z.eqb_spec c 45); [lia|].
      destruct (Z.eqb_spec c 48); [lia|].
      replace (is_digit c) with true by (symmetry; apply is_digit_true; lia).
      rewrite Hspan, <- Heq, Hval. reflexivity.
Qed.

Lemma int_repr_head (z : Z) :
  exists c t, int_repr z = c :: t /\ (c = 45 \/ 48 <= c <= 57).
Proof.
  unfold int_repr. destruct (Z.ltb_spec z 0).
  - eexists _, _. split; [reflexivity|]. now left.
  - destruct (nat_repr_spec z ltac:(lia)) as (_ & _ & c & t & Heq & Hz & Hc).
    exists c, t. split; [assumption|]. right.
    destruct (Z.eq_dec z 0) as [->|]; [destruct (Hz eq_refl); lia|].
    specialize (Hc ltac:(lia)). lia.
Qed.

Lemma scan_once_number (f : nat) (c : Z) (r : text) :
  c = 45 \/ 48 <= c <= 57 ->
  scan_once (S f) (c :: r) = scan_number (c :: r).
Proof.
  intros Hc. cbn [scan_once].
  destruct (Z.eqb_spec c 34); [lia|].
  destruct (Z.eqb_spec c 123); [lia|].
  destruct (Z.eqb_spec c 91); [lia|].
  unfold lit_null, lit_true, lit_false. cbn [starts_with].
  destruct (Z.eqb_spec 110 c); [lia|].
  destruct (Z.eqb_spec 116 c); [lia|].
  destruct (Z.eqb_spec 102 c); [lia|].
  reflexivity.
Qed.

Lemma scan_once_int (f : nat) (z : Z) (rest : text) :
  ends_number rest = true ->
  scan_once (S f) (int_repr z ++ rest) = Ok (PyInt z, rest).
Proof.
  intros Hrest.
  destruct (int_repr_head z) as (c & t & Heq & Hc).
  rewrite Heq. cbn [app]. rewrite scan_once_number by assumption.
  change (c :: t ++ rest) with ((c :: t) ++ rest). rewrite <- Heq.
  unfold scan_number.
  rewrite match_integer_int_repr by assumption.
  now rewrite has_frac_or_exp_ends.
Qed.

(** ** Dictionaries *)

Lemma text_eqb_eq (a b : text) : text_eqb a b = true <-> a = b.
Proof. unfold text_eqb. apply bool_decide_eq_true. Qed.

Lemma text_eqb_refl (a : text) : text_eqb a a = true.
Proof. now apply text_eqb_eq. Qed.

Lemma text_eqb_neq (a b : text) : a <> b -> text_eqb a b = false.
Proof. intros H. unfold text_eqb. now apply bool_decide_eq_false. Qed.

Lemma dict_set_fresh (d : pydict) (k : text) (v : pyval) :
  ~ In k (map fst d) -> dict_set d k v = d ++ [(k, v)].
Proof.
  induction d as [|[k' v'] d IH]; intros Hk; [reflexivity|].
  cbn [dict_set app]. cbn [map fst In] in Hk.
  rewrite text_eqb_neq by tauto. rewrite IH by tauto. reflexivity.
Qed.

Lemma dict_update_fresh (e : pydict) :
  forall d, NoDup (map fst e) ->
  (forall k, In k (map fst e) -> ~ In k (map fst d)) ->
  dict_update d e = d ++ e.
Proof.
  unfold dict_update.
  induction e as [|[k v] e IH]; intros d Hnd Hdisj.
  - cbn. now rewrite app_nil_r.
  - cbn [fold_left fst snd]. cbn [map fst] in Hnd, Hdisj.
    apply NoDup_cons in Hnd as [Hk Hnd]. rewrite list_elem_of_In in Hk.
    rewrite dict_set_fresh by (apply Hdisj; now left).
    rewrite IH; [now rewrite <- app_assoc|assumption|].
    intros k' Hk'. rewrite map_app, in_app_iff. cbn [map fst In].
    intros [Hin|[<-|[]]]; [|contradiction].
    apply (Hdisj k'); [now right|assumption].
Qed.

Lemma dict_of_pairs_nodup (e : pydict) :
  NoDup (map fst e) -> dict_of_pairs e = e.
Proof.
  intros H. unfold dict_of_pairs. rewrite dict_update_fresh; auto.
Qed.

(** ** Values: the reader reads back what the writer wrote *)

Lemma dumps_at_head (v : pyval) (level : nat) :
  exists c t, dumps_at level v = c :: t
              /\ is_ws c = false /\ c <> 93 /\ c <= 126.
Proof.
  destruct v as [|[|]|n|s|l|l|d]; cbn [dumps_at];
    try (eexists _, _; split; [reflexivity|split; [reflexivity|lia]]).
  destruct (int_repr_head n) as (c & t & Heq & Hc).
  exists c, t. split; [assumption|]. split; [|lia].
  unfold is_ws.
  destruct (Z.eqb_spec c 32); [lia|]. destruct (Z.eqb_spec c 9); [lia|].
  destruct (Z.eqb_spec c 10); [lia|]. destruct (Z.eqb_spec c 13); [lia|].
  reflexivity.
Qed.

Lemma skip_ws_dumps_at (v : pyval) (level : nat) (rest : text) :
  skip_ws (dumps_at level v ++ rest) = dumps_at level v ++ rest.
Proof.
  destruct (dumps_at_head v level) as (c & t & Heq & Hws & _).
  rewrite Heq. cbn [app]. now apply skip_ws_stop.
Qed.

Lemma ends_number_more (level : nat) (items : list text) (c : Z) (rest : text) :
  ends_number (more_items level items ++ newline_indent level ++ c :: rest)
  = true.
Proof. destruct items; reflexivity. Qed.

Lemma JSONArray_loop_last (f : nat) (s r r1 : text) (v : pyval) :
  scan_once f s = Ok (v, r) ->
  skip_ws r = 93 :: r1 ->
  JSONArray_loop (S f) s = Ok ([v], r1).
Proof.
  intros Hv Hr. cbn [JSONArray_loop]. rewrite Hv.
  cbn [mbind result_mbind result_bind]. rewrite Hr. reflexivity.
Qed.

Lemma JSONArray_loop_more (f : nat) (s r r1 r' : text) (v : pyval)
      (vs : list pyval) :
  scan_once f s = Ok (v, r) ->
  skip_ws r = 44 :: r1 ->
  JSONArray_loop f (skip_ws r1) = Ok (vs, r') ->
  JSONArray_loop (S f) s = Ok (v :: vs, r').
Proof.
  intros Hv Hr Hvs. cbn [JSONArray_loop]. rewrite Hv.
  cbn [mbind result_mbind result_bind]. rewrite Hr.
  change (44 =? 93) with false. change (44 =? 44) with true. cbv iota.
  rewrite Hvs. reflexivity.
Qed.

Lemma JSONArray_loop_items (level : nat) (rest : text) (l : list pyval) :
  Forall reads_back l ->
  forall x f,
    reads_back x ->
    (list_sum (map (fun y => S (need y)) (x :: l)) <= f)%nat ->
    JSONArray_loop f
      (dumps_at (S level) x
         ++ more_items level (map (dumps_at (S level)) l)
         ++ newline_indent level ++ 93 :: rest)
    = Ok (map as_loaded (x :: l), rest).
Proof.
  induction 1 as [|y l Hy Hl IH]; intros x f Hx Hf.
  - cbn in Hf. destruct f as [|f]; [lia|].
    eapply JSONArray_loop_last.
    + apply Hx; [lia|apply ends_number_more].
    + cbn [map more_items concat app].
      now rewrite skip_ws_newline_indent.
  - destruct f as [|f]; [cbn in Hf; lia|].
    assert (Hf' : (need x <= f)%nat /\
                  (list_sum (map (fun y => S (need y)) (y :: l)) <= f)%nat).
    { cbn in Hf |- *. lia. }
    eapply JSONArray_loop_more.
    + apply Hx; [lia|apply ends_number_more].
    + cbn [map]. unfold more_items at 1. cbn [map concat app].
      reflexivity.
    + rewrite <- !app_assoc, skip_ws_newline_indent, skip_ws_dumps_at.
      apply (IH y f Hy). lia.
Qed.

Lemma JSONObject_loop_last (f : nat) (s r r1 r2 r3 : text) (k : text)
      (v : pyval) :
  scanstring s = Ok (k, r) ->
  skip_ws r = 58 :: r1 ->
  scan_once f (skip_ws r1) = Ok (v, r2) ->
  skip_ws r2 = 125 :: r3 ->
  JSONObject_loop (S f) s = Ok ([(k, v)], r3).
Proof.
  intros Hk Hr Hv Hr2. cbn [JSONObject_loop]. rewrite Hk.
  cbn [mbind result_mbind result_bind]. rewrite Hr.
  change (58 =? 58) with true. cbv iota. rewrite Hv.
  cbn [mbind result_mbind result_bind]. rewrite Hr2. reflexivity.
Qed.

Lemma JSONObject_loop_more (f : nat) (s r r1 r2 r3 r4 r' : text) (k : text)
      (v : pyval) (kvs : list (text * pyval)) :
  scanstring s = Ok (k, r) ->
  skip_ws r = 58 :: r1 ->
  scan_once f (skip_ws r1) = Ok (v, r2) ->
  skip_ws r2 = 44 :: r3 ->
  skip_ws r3 = 34 :: r4 ->
  JSONObject_loop f r4 = Ok (kvs, r') ->
  JSONObject_loop (S f) s = Ok ((k, v) :: kvs, r').
Proof.
  intros Hk Hr Hv Hr2 Hr3 Hkvs. cbn [JSONObject_loop]. rewrite Hk.
  cbn [mbind result_mbind result_bind]. rewrite Hr.
  change (58 =? 58) with true. cbv iota. rewrite Hv.
  cbn [mbind result_mbind result_bind]. rewrite Hr2.
  change (44 =? 125) with false. change (44 =? 44) with true. cbv iota.
  rewrite Hr3. change (34 =? 34) with true. cbv iota.
  rewrite Hkvs. reflexivity.
Qed.

Lemma JSONObject_loop_items (level : nat) (rest : text) (d : pydict) :
  Forall (fun kv => reads_back (snd kv)) d ->
  forallb (fun kv => forallb is_scalar (fst kv)) d = true ->
  forall k v f,
    forallb is_scalar k = true ->
    reads_back v ->
    (list_sum (map (fun kv => S (need (snd kv))) ((k, v) :: d)) <= f)%nat ->
    JSONObject_loop f
      (escape_chars k ++ 34 :: 58 :: 32 :: dumps_at (S level) v
         ++ more_items level (map (dump_member (S level)) d)
         ++ newline_indent level ++ 125 :: rest)
    = Ok (map (fun kv => (fst kv, as_loaded (snd kv))) ((k, v) :: d), rest).
Proof.
  induction 1 as [|[k2 v2] d Hv2 Hd IH]; intros Hkeys k v f Hk Hv Hf.
  - cbn in Hf. destruct f as [|f]; [lia|].
    eapply JSONObject_loop_last.
    + now apply scanstring_escape_chars.
    + reflexivity.
    + cbn [skip_ws is_ws]. change (32 =? 32) with true. cbn [orb].
      rewrite skip_ws_dumps_at.
      apply Hv; [lia|apply ends_number_more].
    + cbn [map more_items concat app].
      now rewrite skip_ws_newline_indent.
  - destruct f as [|f]; [cbn in Hf; lia|].
    cbn [forallb fst] in Hkeys. apply andb_true_iff in Hkeys as [Hk2 Hkeys].
    eapply JSONObject_loop_more.
    + now apply scanstring_escape_chars.
    + reflexivity.
    + cbn [skip_ws is_ws]. change (32 =? 32) with true. cbn [orb].
      rewrite skip_ws_dumps_at.
      apply Hv; [cbn in Hf; lia|apply ends_number_more].
    + cbn [map]. unfold more_items at 1. cbn [map concat app].
      reflexivity.
    + rewrite <- !app_assoc, skip_ws_newline_indent.
      unfold dump_member at 1, encode_basestring_ascii. cbn [fst snd app].
      reflexivity.
    + rewrite <- !app_assoc. cbn [app].
      apply (IH Hkeys k2 v2 f Hk2 Hv2). cbn in Hf |- *. lia.
Qed.

Lemma need_pos (v : pyval) : (1 <= need v)%nat.
Proof. destruct v; cbn; lia. Qed.

Lemma map_fst_as_loaded (d : pydict) :
  map fst (map (fun kv => (fst kv, as_loaded (snd kv))) d) = map fst d.
Proof. rewrite map_map. apply map_ext. reflexivity. Qed.

Lemma scan_once_array_items (f : nat) (r r1 r' : text) (c : Z)
      (vs : list pyval) :
  skip_ws r = c :: r1 ->
  c <> 93 ->
  JSONArray_loop f (c :: r1) = Ok (vs, r') ->
  scan_once (S f) (91 :: r) = Ok (PyList vs, r').
Proof.
  intros Hr Hc Hvs. cbn [scan_once]. change (91 =? 34) with false.
  change (91 =? 123) with false. change (91 =? 91) with true. cbv iota.
  rewrite Hr. destruct (Z.eqb_spec c 93); [contradiction|].
  rewrite Hvs. reflexivity.
Qed.

Lemma scan_once_object_members (f : nat) (r r1 r' : text)
      (pairs : list (text * pyval)) :
  skip_ws r = 34 :: r1 ->
  JSONObject_loop f r1 = Ok (pairs, r') ->
  scan_once (S f) (123 :: r) = Ok (PyDict (dict_of_pairs pairs), r').
Proof.
  intros Hr Hp. cbn [scan_once]. change (123 =? 34) with false.
  change (123 =? 123) with true. cbv iota.
  rewrite Hr. change (34 =? 125) with false. change (34 =? 34) with true.
  cbv iota. rewrite Hp. reflexivity.
Qed.

Lemma reads_back_array (level : nat) (f : nat) (rest : text)
      (l : list pyval) :
  Forall reads_back l ->
  (S (list_sum (map (fun y => S (need y)) l)) <= f)%nat ->
  scan_once f
    (91 :: join_items level (map (dumps_at (S level)) l) ++ 93 :: rest)
  = Ok (PyList (map as_loaded l), rest).
Proof.
  intros Hl Hf. destruct f as [|f]; [lia|].
  destruct Hl as [|x l Hx Hl].
  - reflexivity.
  - destruct (dumps_at_head x (S level)) as (c & t & Heq & _ & Hc & _).
    pose proof (JSONArray_loop_items level rest l Hl x f Hx
                  ltac:(apply le_S_n; exact Hf)) as Hloop.
    rewrite Heq in Hloop. cbn [app] in Hloop.
    eapply scan_once_array_items; [|exact Hc|exact Hloop].
    cbn [map join_items].
    fold (more_items level (map (dumps_at (S level)) l)).
    rewrite <- !app_assoc, skip_ws_newline_indent, skip_ws_dumps_at.
    rewrite Heq. reflexivity.
Qed.

Lemma reads_back_object (level : nat) (f : nat) (rest : text) (d : pydict) :
  Forall (fun kv => reads_back (snd kv)) d ->
  forallb (fun kv => forallb is_scalar (fst kv)) d = true ->
  NoDup (map fst d) ->
  (S (list_sum (map (fun kv => S (need (snd kv))) d)) <= f)%nat ->
  scan_once f
    (123 :: join_items level (map (dump_member (S level)) d) ++ 125 :: rest)
  = Ok (PyDict (map (fun kv => (fst kv, as_loaded (snd kv))) d), rest).
Proof.
  intros Hd Hkeys Hnd Hf. destruct f as [|f]; [lia|].
  destruct Hd as [|[k v] d Hv Hd].
  - reflexivity.
  - cbn [forallb fst] in Hkeys. apply andb_true_iff in Hkeys as [Hk Hkeys].
    pose proof (JSONObject_loop_items level rest d Hd Hkeys k v f Hk Hv
                  ltac:(apply le_S_n; exact Hf)) as Hloop.
    rewrite <- (dict_of_pairs_nodup
                  (map (fun kv => (fst kv, as_loaded (snd kv))) ((k, v) :: d)))
      by (rewrite map_fst_as_loaded; exact Hnd).
    eapply scan_once_object_members; [|exact Hloop].
    cbn [map join_items].
    fold (more_items level (map (dump_member (S level)) d)).
    rewrite <- !app_assoc, skip_ws_newline_indent.
    unfold dump_member at 1, encode_basestring_ascii.
    cbn [fst snd app]. rewrite <- !app_assoc. reflexivity.
Qed.

Theorem scan_once_dumps_at (v : pyval) :
  wf_py v = true -> reads_back v.
Proof.
  induction v as [| b | n | s | l IH | l IH | d IH] using pyval_nested_ind;
    intros Hwf level f rest Hf Hrest.
  - destruct f as [|f]; [cbn in Hf; lia|]. reflexivity.
  - destruct f as [|f]; [cbn in Hf; lia|]. destruct b; reflexivity.
  - destruct f as [|f]; [cbn in Hf; lia|].
    cbn [dumps_at as_loaded]. now apply scan_once_int.
  - destruct f as [|f]; [cbn in Hf; lia|].
    cbn [dumps_at as_loaded wf_py] in *.
    unfold encode_basestring_ascii. cbn [app scan_once].
    change (34 =? 34) with true. cbv iota.
    rewrite <- app_assoc. cbn [app].
    rewrite scanstring_escape_chars by assumption. reflexivity.
  - cbn [dumps_at as_loaded wf_py need] in *.
    cbn [app]. rewrite <- app_assoc. cbn [app].
    apply reads_back_array; [|assumption].
    rewrite forallb_forall in Hwf. rewrite List.Forall_forall in IH |- *.
    intros x Hx. apply IH; auto.
  - cbn [dumps_at as_loaded wf_py need] in *.
    cbn [app]. rewrite <- app_assoc. cbn [app].
    apply reads_back_array; [|assumption].
    rewrite forallb_forall in Hwf. rewrite List.Forall_forall in IH |- *.
    intros x Hx. apply IH; auto.
  - cbn [dumps_at as_loaded wf_py need] in *.
    apply andb_true_iff in Hwf as [Hall Hnd].
    apply bool_decide_eq_true in Hnd.
    cbn [app]. rewrite <- app_assoc. cbn [app].
    rewrite forallb_forall in Hall.
    apply (reads_back_object level f rest d); [| |assumption|assumption].
    + rewrite List.Forall_forall in IH |- *.
      intros kv Hkv. apply IH; [assumption|].
      specialize (Hall kv Hkv). now apply andb_true_iff in Hall as [_ ?].
    + rewrite forallb_forall. intros kv Hkv. specialize (Hall kv Hkv).
      now apply andb_true_iff in Hall as [? _].
Qed.

(** The recursion bound of [json_loads] is enough for any text the
    writer produced. *)

Lemma list_sum_cons (a : nat) (l : list nat) :
  list_sum (a :: l) = (a + list_sum l)%nat.
Proof. reflexivity. Qed.

Lemma list_sum_map_le {A} (g h : A -> nat) (l : list A) :
  Forall (fun x => (g x <= h x)%nat) l ->
  (list_sum (map g l) <= list_sum (map h l))%nat.
Proof.
  induction 1 as [|x l Hx Hl IH]; [reflexivity|].
  cbn [map]. rewrite !list_sum_cons. lia.
Qed.

Lemma length_more_items (level : nat) (items : list text) :
  (list_sum (map (fun t => S (length t)) items)
   <= length (more_items level items))%nat.
Proof.
  induction items as [|y ys IH]; [reflexivity|].
  unfold more_items in *. cbn [map concat].
  rewrite list_sum_cons, length_app. cbn [length]. rewrite length_app. lia.
Qed.

Lemma length_join_items (level : nat) (items : list text) :
  (list_sum (map (fun t => S (length t)) items)
   <= length (join_items level items))%nat.
Proof.
  destruct items as [|x xs]; [reflexivity|].
  cbn [join_items map]. fold (more_items level xs).
  rewrite list_sum_cons, !length_app.
  pose proof (length_more_items level xs).
  unfold newline_indent. cbn [length]. lia.
Qed.

Lemma need_le_length (v : pyval) :
  forall level, (need v <= length (dumps_at level v))%nat.
Proof.
  induction v as [| b | n | s | l IH | l IH | d IH] using pyval_nested_ind;
    intros level.
  - cbn. lia.
  - destruct b; cbn; lia.
  - destruct (int_repr_head n) as (c & t & Heq & _).
    cbn [need dumps_at]. rewrite Heq. cbn. lia.
  - cbn. lia.
  - cbn [need dumps_at length]. rewrite length_app.
    pose proof (length_join_items level (map (dumps_at (S level)) l)) as H.
    rewrite map_map in H.
    pose proof (list_sum_map_le (fun x => S (need x))
                  (fun x => S (length (dumps_at (S level) x))) l) as H'.
    cbn [length]. enough (list_sum (map (fun x => S (need x)) l)
                          <= list_sum (map (fun x => S (length (dumps_at (S level) x))) l))%nat by lia.
    apply H'. eapply Forall_impl; [exact IH|]. cbn. intros x Hx.
    specialize (Hx (S level)). lia.
  - cbn [need dumps_at length]. rewrite length_app.
    pose proof (length_join_items level (map (dumps_at (S level)) l)) as H.
    rewrite map_map in H.
    pose proof (list_sum_map_le (fun x => S (need x))
                  (fun x => S (length (dumps_at (S level) x))) l) as H'.
    cbn [length]. enough (list_sum (map (fun x => S (need x)) l)
                          <= list_sum (map (fun x => S (length (dumps_at (S level) x))) l))%nat by lia.
    apply H'. eapply Forall_impl; [exact IH|]. cbn. intros x Hx.
    specialize (Hx (S level)). lia.
  - cbn [need dumps_at length].
    change (map (fun kv : text * pyval =>
                   encode_basestring_ascii (fst kv) ++ 58 :: 32
                     :: dumps_at (S level) (snd kv)) d)
      with (map (dump_member (S level)) d).
    rewrite length_app.
    pose proof (length_join_items level (map (dump_member (S level)) d)) as H.
    rewrite map_map in H.
    pose proof (list_sum_map_le (fun kv => S (need (snd kv)))
                  (fun kv => S (length (dump_member (S level) kv))) d) as H'.
    cbn [length].
    enough (list_sum (map (fun kv => S (need (snd kv))) d)
            <= list_sum (map (fun kv => S (length (dump_member (S level) kv))) d))%nat
      by lia.
    apply H'. eapply Forall_impl; [exact IH|]. cbn. intros kv Hkv.
    specialize (Hkv (S level)). unfold dump_member.
    rewrite length_app. cbn [length]. lia.
Qed.

(** Round trip through the text, for every value Python can hold. *)
Theorem json_loads_dumps (v : pyval) :
  wf_py v = true -> json_loads (json_dumps v) = Ok (as_loaded v).
Proof.
  intros Hwf. unfold json_loads, json_dumps.
  destruct (dumps_at_head v 0) as (c & t & Heq & Hws & _ & Hc).
  assert (Hbom : starts_with [65279] (dumps_at 0 v) = false).
  { rewrite Heq. cbn [starts_with].
    destruct (Z.eqb_spec 65279 c); [lia|]. reflexivity. }
  rewrite Hbom.
  assert (Hskip : skip_ws (dumps_at 0 v) = dumps_at 0 v).
  { rewrite Heq. now apply skip_ws_stop. }
  rewrite Hskip.
  pose proof (scan_once_dumps_at v Hwf 0%nat (loads_fuel (dumps_at 0 v)) []) as H.
  rewrite app_nil_r in H. rewrite H; [reflexivity| |reflexivity].
  unfold loads_fuel. pose proof (need_le_length v 0). lia.
Qed.

Lemma as_loaded_no_tuple (v : pyval) :
  has_tuple v = false -> as_loaded v = v.
Proof.
  induction v as [| b | n | s | l IH | l IH | d IH] using pyval_nested_ind;
    cbn [has_tuple as_loaded]; intros H; try reflexivity; try discriminate.
  - f_equal. induction IH as [|x l Hx Hl IHl]; [reflexivity|].
    cbn [existsb] in H. apply orb_false_iff in H as [H1 H2].
    cbn [map]. rewrite Hx, IHl by assumption. reflexivity.
  - f_equal. induction IH as [|[k x] d Hx Hd IHd]; [reflexivity|].
    cbn [existsb snd] in H. apply orb_false_iff in H as [H1 H2].
    cbn [map fst snd]. cbn [snd] in Hx. rewrite Hx, IHd by assumption.
    reflexivity.
Qed.

Lemma dumps_at_as_loaded (v : pyval) :
  forall level, dumps_at level (as_loaded v) = dumps_at level v.
Proof.
  induction v as [| b | n | s | l IH | l IH | d IH] using pyval_nested_ind;
    intros level; cbn [as_loaded dumps_at]; try reflexivity.
  - do 3 f_equal. rewrite map_map. apply map_ext_Forall.
    eapply Forall_impl; [exact IH|]. cbn. auto.
  - do 3 f_equal. rewrite map_map. apply map_ext_Forall.
    eapply Forall_impl; [exact IH|]. cbn. auto.
  - do 3 f_equal. rewrite map_map. apply map_ext_Forall.
    eapply Forall_impl; [exact IH|]. cbn. intros kv Hkv. now rewrite Hkv.
Qed.

(** ** The recursion bound of the reader is never hit *)

Lemma skip_ws_length (s : text) : (length (skip_ws s) <= length s)%nat.
Proof.
  induction s as [|c r IH]; [reflexivity|].
  cbn [skip_ws]. destruct (is_ws c); cbn [length]; lia.
Qed.

Lemma bounded_cons_chr (c : Z) (s s' : text) (res : result (text * text)) :
  bounded s' True res -> (length s' <= length s)%nat ->
  bounded s True (cons_chr c res).
Proof.
  destruct res as [[k r]|e]; cbn; [lia|auto].
Qed.

Lemma bounded_weaken {A} (s s' : text) (enough enough' : Prop)
      (res : result (A * text)) :
  bounded s' enough' res -> (length s' <= length s)%nat ->
  (enough -> enough') ->
  bounded s enough res.
Proof. destruct res as [[a r]|e]; cbn; [lia|tauto]. Qed.

Lemma scanstring_bounded (n : nat) :
  forall s, (length s <= n)%nat -> bounded s True (scanstring s).
Proof.
  induction n as [|n IH]; intros s Hn.
  - destruct s; [|cbn in Hn; lia]. cbn. auto.
  - destruct s as [|c r]; [cbn; auto|].
    cbn [length] in Hn. cbn [scanstring].
    repeat match goal with
           | |- bounded _ _ (match ?x with _ => _ end) =>
               destruct x eqn:?; cbn [length] in *
           | |- bounded _ _ (if ?x then _ else _) =>
               destruct x eqn:?
           end;
      try (cbn; first [lia | now left]);
      (eapply bounded_cons_chr; [apply IH|]; cbn [length]; lia).
Qed.

Lemma span_digits_length (s : text) :
  (length (snd (span_digits s)) <= length s)%nat.
Proof.
  induction s as [|c r IH]; [reflexivity|].
  cbn [span_digits]. destruct (is_digit c); [|reflexivity].
  destruct (span_digits r) as [ds rest]. cbn [snd length] in *. lia.
Qed.

Lemma match_integer_length (s rest : text) (n : Z) :
  match_integer s = Some (n, rest) -> (length rest < length s)%nat.
Proof.
  unfold match_integer.
  assert (Hgen : forall (neg : bool) (s1 : text),
             match s1 with
             | [] => None
             | c :: r =>
                 if c =? 48 then Some (0, r)
                 else if is_digit c then
                   let '(ds, rest) := span_digits s1 in
                   Some (if neg then - digits_value ds else digits_value ds,
                         rest)
                 else None
             end = Some (n, rest) -> (length rest < length s1)%nat).
  { intros neg [|c r]; [discriminate|].
    destruct (c =? 48); [intros [= _ <-]; cbn; lia|].
    destruct (is_digit c) eqn:Hd; [|discriminate].
    pose proof (span_digits_length r) as Hl.
    cbn [span_digits]. rewrite Hd.
    destruct (span_digits r) as [ds rest']. cbn [snd] in Hl.
    intros [= _ <-]. cbn [length]. lia. }
  destruct s as [|c r]; [discriminate|].
  destruct (c =? 45).
  - intros H. apply (Hgen true r) in H. cbn [length]. lia.
  - apply (Hgen false (c :: r)).
Qed.

Lemma scan_number_bounded (s : text) : bounded s True (scan_number s).
Proof.
  unfold scan_number.
  destruct (match_integer s) as [[n rest]|] eqn:E.
  - destruct (has_frac_or_exp rest); cbn; [auto|].
    eapply match_integer_length; eassumption.
  - destruct (_ || _); cbn; auto.
Qed.

Lemma reader_bounded (f : nat) :
  (forall s, bounded s (2 * length s + 1 <= f)%nat (scan_once f s))
  /\ (forall s, bounded s (2 * length s + 2 <= f)%nat (JSONArray_loop f s))
  /\ (forall s, bounded s (2 * length s + 2 <= f)%nat (JSONObject_loop f s)).
Proof.
  induction f as [|f (IHonce & IHarr & IHobj)].
  - repeat split; intros s; cbn; right; right; (split; [reflexivity|lia]).
  - split; [|split]; intros s.
    + destruct s as [|c r]; [cbn; auto|].
      cbn [scan_once].
      destruct (c =? 34).
      { pose proof (scanstring_bounded _ r (le_n _)) as H.
        destruct (scanstring r) as [[k r']|e]; cbn in *; [lia|tauto]. }
      destruct (c =? 123).
      { pose proof (skip_ws_length r) as Hw.
        destruct (skip_ws r) as [|c1 r1]; [cbn; auto|].
        cbn [length] in Hw.
        destruct (c1 =? 125); [cbn; lia|].
        destruct (c1 =? 34); [|cbn; auto].
        specialize (IHobj r1).
        destruct (JSONObject_loop f r1) as [[pairs r']|e]; cbn in *; [lia|].
        intuition lia. }
      destruct (c =? 91).
      { pose proof (skip_ws_length r) as Hw.
        destruct (skip_ws r) as [|c1 r1]; [cbn; auto|].
        cbn [length] in Hw.
        destruct (c1 =? 93); [cbn; lia|].
        specialize (IHarr (c1 :: r1)).
        destruct (JSONArray_loop f (c1 :: r1)) as [[vs r']|e]; cbn in *; [lia|].
        intuition lia. }
      destruct (starts_with lit_null (c :: r));
        [cbn [bounded]; rewrite length_drop; cbn [length]; lia|].
      destruct (starts_with lit_true (c :: r));
        [cbn [bounded]; rewrite length_drop; cbn [length]; lia|].
      destruct (starts_with lit_false (c :: r));
        [cbn [bounded]; rewrite length_drop; cbn [length]; lia|].
      eapply bounded_weaken; [apply scan_number_bounded|lia|auto].
    + cbn [JSONArray_loop].
      specialize (IHonce s).
      destruct (scan_once f s) as [[v r]|e]; cbn in IHonce |- *;
        [|intuition lia].
      pose proof (skip_ws_length r) as Hw.
      destruct (skip_ws r) as [|c r1]; [cbn; auto|].
      cbn [length] in Hw.
      destruct (c =? 93); [cbn; lia|].
      destruct (c =? 44); [|cbn; auto].
      pose proof (skip_ws_length r1) as Hw1.
      specialize (IHarr (skip_ws r1)).
      destruct (JSONArray_loop f (skip_ws r1)) as [[vs r']|e]; cbn in *; [lia|].
      intuition lia.
    + cbn [JSONObject_loop].
      pose proof (scanstring_bounded _ s (le_n _)) as Hk.
      destruct (scanstring s) as [[k r]|e]; cbn in Hk |- *; [|tauto].
      pose proof (skip_ws_length r) as Hw.
      destruct (skip_ws r) as [|c r1]; [cbn; auto|].
      cbn [length] in Hw.
      destruct (c =? 58); [|cbn; auto].
      pose proof (skip_ws_length r1) as Hw1.
      specialize (IHonce (skip_ws r1)).
      destruct (scan_once f (skip_ws r1)) as [[v r2]|e]; cbn in IHonce |- *;
        [|intuition lia].
      pose proof (skip_ws_length r2) as Hw2.
      destruct (skip_ws r2) as [|c2 r3]; [cbn; auto|].
      cbn [length] in Hw2.
      destruct (c2 =? 125); [cbn; lia|].
      destruct (c2 =? 44); [|cbn; auto].
      pose proof (skip_ws_length r3) as Hw3.
      destruct (skip_ws r3) as [|c3 r4]; [cbn; auto|].
      cbn [length] in Hw3.
      destruct (c3 =? 34); [|cbn; auto].
      specialize (IHobj r4).
      destruct (JSONObject_loop f r4) as [[kvs r']|e]; cbn in *; [lia|].
      intuition lia.
Qed.

(** Whatever the text, [json_loads] gives a value, raises the parse
    error as Python does, or has met a float: the recursion bound of the
    reader is never what stops it. *)
Theorem json_loads_raises (s : text) (e : exn) :
  json_loads s = Raise e -> e = JSONDecodeError \/ e = Unmodelled.
Proof.
  unfold json_loads.
  destruct (starts_with [65279] s); [intros [= <-]; now left|].
  destruct (reader_bounded (loads_fuel s)) as (H & _ & _).
  specialize (H (skip_ws s)). pose proof (skip_ws_length s) as Hw.
  destruct (scan_once (loads_fuel s) (skip_ws s)) as [[v r]|e']; cbn in *.
  - destruct (skip_ws r); [discriminate|intros [= <-]; now left].
  - intros [= <-]. unfold loads_fuel in H. intuition lia.
Qed.

(* ================================================================== *)
(** * Properties of the file layer *)

Lemma lookup_node_insert_eq (f : gmap path node) (p : path) (n : node) :
  p <> [] -> lookup_node (<[p := n]> f) p = Some n.
Proof.
  intros Hp. destruct p as [|c p]; [contradiction|].
  cbn [lookup_node]. apply lookup_insert_eq.
Qed.

Lemma lookup_node_insert_ne (f : gmap path node) (p q : path) (n : node) :
  p <> q -> lookup_node (<[p := n]> f) q = lookup_node f q.
Proof.
  intros Hpq. destruct q as [|c q]; [reflexivity|].
  cbn [lookup_node]. now apply lookup_insert_ne.
Qed.

Lemma write_file_ok (p : path) (c : text) (s : state) :
  lookup_node (fs s) p <> Some Dir ->
  lookup_node (fs s) (parent p) = Some Dir ->
  write_file p c s = (Ok tt, with_fs (<[p := File c]> (fs s)) s).
Proof.
  intros Hp Hpar. unfold write_file. rewrite Hpar.
  destruct (lookup_node (fs s) p) as [[|c0]|]; [contradiction| |]; reflexivity.
Qed.

Lemma write_file_inv (p : path) (c : text) (s s' : state) :
  write_file p c s = (Ok tt, s') ->
  p <> [] /\ s' = with_fs (<[p := File c]> (fs s)) s.
Proof.
  unfold write_file. intros H.
  destruct p as [|x p].
  - cbn in H. discriminate.
  - split; [discriminate|].
    destruct (lookup_node (fs s) (x :: p)) as [[|c0]|];
      [discriminate| |];
      destruct (lookup_node (fs s) (parent (x :: p))) as [[|c1]|];
      congruence.
Qed.

Lemma write_file_fail (p : path) (c : text) (s s' : state) (e : exn) :
  write_file p c s = (Raise e, s') -> s' = s.
Proof.
  unfold write_file. intros H.
  destruct (lookup_node (fs s) p) as [[|c0]|];
    [congruence| |];
    destruct (lookup_node (fs s) (parent p)) as [[|c1]|]; congruence.
Qed.

(** ** The loader and the writer *)

Lemma load_json_eq (filename : path) (s : state) :
  load_json filename s
  = (match lookup_node (fs s) filename with
     | None => Ok (PyDict [])
     | Some (File c) => json_loads c
     | Some Dir => Raise IsADirectoryError
     end, s).
Proof.
  unfold load_json, bind, path_exists, read_file, lift, ret.
  destruct (lookup_node (fs s) filename) as [[|c]|] eqn:E.
  - rewrite bool_decide_eq_true_2 by eauto. cbn. now rewrite E.
  - rewrite bool_decide_eq_true_2 by eauto. cbn. now rewrite E.
  - rewrite bool_decide_eq_false_2 by (intros [? ?]; discriminate).
    reflexivity.
Qed.

Lemma save_json_inv (filename : path) (v : pyval) (s s' : state) :
  save_json filename v s = (Ok tt, s') ->
  filename <> []
  /\ fs s' = <[filename := File (json_dumps v)]> (fs s)
  /\ self s' = self s /\ remote s' = remote s
  /\ events s' = events s ++ [EvJsonDump filename v].
Proof.
  unfold save_json, json_dump_to, bind, emit. intros H.
  destruct (write_file filename (json_dumps v) s) as [[[]|e] s1] eqn:Hw;
    [|discriminate].
  apply write_file_inv in Hw as [Hne ->]. inversion H; subst.
  repeat split; try reflexivity. assumption.
Qed.

Lemma json_dump_to_eq (p : path) (v : pyval) (s : state) :
  json_dump_to p v s
  = match write_file p (json_dumps v) s with
    | (Ok _, s1) => (Ok tt, with_events (events s1 ++ [EvJsonDump p v]) s1)
    | (Raise e, s1) => (Raise e, s1)
    end.
Proof.
  unfold json_dump_to, bind, emit.
  destruct (write_file p (json_dumps v) s) as [[[]|e] s1]; reflexivity.
Qed.

Lemma json_dump_to_self (p : path) (v : pyval) (s : state) :
  self (snd (json_dump_to p v s)) = self s
  /\ remote (snd (json_dump_to p v s)) = remote s.
Proof.
  rewrite json_dump_to_eq.
  destruct (write_file p (json_dumps v) s) as [[[]|e] s1] eqn:Hw.
  - apply write_file_inv in Hw as [_ ->]. split; reflexivity.
  - apply write_file_fail in Hw as ->. split; reflexivity.
Qed.

(** ** C8: the loader *)

(** C8.  [load_json] returns the empty mapping when the file
    is absent; when the file exists it returns what [json.load] makes of
    its content, raising the parse error of a malformed file; hence it
    returns the empty mapping exactly when the file is absent or holds
    the JSON text of an empty object; and an exception on a file that
    exists is the reader's own (the parse error, or a float literal,
    which the embedding of the reader does not cover). *)
Theorem load_json_cases (filename : path) (s : state) :
  load_json filename s
  = (match lookup_node (fs s) filename with
     | None => Ok (PyDict [])
     | Some (File c) => json_loads c
     | Some Dir => Raise IsADirectoryError
     end, s)
  /\ (fst (load_json filename s) = Ok (PyDict [])
      <-> lookup_node (fs s) filename = None
          \/ exists c, lookup_node (fs s) filename = Some (File c)
                       /\ json_loads c = Ok (PyDict []))
  /\ (forall c e,
        lookup_node (fs s) filename = Some (File c) ->
        fst (load_json filename s) = Raise e ->
        json_loads c = Raise e /\ (e = JSONDecodeError \/ e = Unmodelled)).
Proof.
  split; [apply load_json_eq|].
  rewrite load_json_eq. cbn [fst].
  split.
  - destruct (lookup_node (fs s) filename) as [[|c]|].
    + split; [discriminate|]. intros [H|(c & H & _)]; discriminate.
    + split.
      * intros H. right. exists c. now split.
      * intros [H|(c' & H & H')]; [discriminate|]. congruence.
    + split; [now left|reflexivity].
  - intros c e -> H. split; [exact H|]. exact (json_loads_raises c e H).
Qed.

(** C8, a present file that loads as the empty mapping: after a first
    run [downloaded_highlights.json] exists and holds an empty object, and
    the loader returns the empty mapping for it. *)
Lemma load_json_empty_object_present :
  lookup_node (fs ex_empty_object_on_disk) (highlights_file ex_user) <> None
  /\ fst (load_json (highlights_file ex_user) ex_empty_object_on_disk)
     = Ok (PyDict []).
Proof. vm_compute. split; [discriminate|reflexivity]. Qed.

(** A malformed file is not defaulted. *)
Example load_json_malformed :
  fst (load_json (highlights_file ex_user) ex_malformed_on_disk)
  = Raise JSONDecodeError.
Proof. vm_compute. reflexivity. Qed.

(** ** C10: saving and loading *)

(** C10.  What [save_json] wrote, [load_json] reads back
    with every tuple turned into a list and nothing else changed: equal
    to the original when it holds no tuple, and with the keys of a
    mapping in their insertion order. *)
Theorem save_json_load_json (filename : path) (v : pyval) (s : state) :
  wf_py v = true ->
  fst (save_json filename v s) = Ok tt ->
  fst (load_json filename (snd (save_json filename v s))) = Ok (as_loaded v)
  /\ (has_tuple v = false -> as_loaded v = v)
  /\ (forall d, v = PyDict d ->
      exists d', as_loaded v = PyDict d' /\ map fst d' = map fst d).
Proof.
  intros Hwf Hok.
  destruct (save_json filename v s) as [[[]|e] s'] eqn:Hs; [|discriminate].
  apply save_json_inv in Hs as (Hne & Hfs & _).
  split; [|split].
  - cbn [snd]. rewrite load_json_eq. cbn [fst]. rewrite Hfs.
    rewrite lookup_node_insert_eq by assumption.
    now apply json_loads_dumps.
  - apply as_loaded_no_tuple.
  - intros d ->. cbn [as_loaded]. eexists. split; [reflexivity|].
    apply map_fst_as_loaded.
Qed.

Lemma save_json_load_json_witness :
  fst (load_json (data_file ex_user)
         (snd (save_json (data_file ex_user) ex_store (ex_ready []))))
  = Ok (as_loaded ex_store)
  /\ (has_tuple ex_store = false -> as_loaded ex_store = ex_store)
  /\ (forall d, ex_store = PyDict d ->
      exists d', as_loaded ex_store = PyDict d' /\ map fst d' = map fst d).
Proof.
  apply (save_json_load_json (data_file ex_user) ex_store (ex_ready [])).
  - vm_compute. reflexivity.
  - vm_compute. reflexivity.
Defined.

(** C10, a store that does not come back equal: a store holding one snapshot with one
    follower pair is saved without error and is not what comes back (the
    pair was a tuple and is now a list, which Python does not hold equal). *)
Lemma save_json_load_json_differs :
  fst (save_json (data_file ex_user) ex_store (ex_ready [])) = Ok tt
  /\ fst (load_json (data_file ex_user)
            (snd (save_json (data_file ex_user) ex_store (ex_ready []))))
     = Ok (as_loaded ex_store)
  /\ as_loaded ex_store <> ex_store
  /\ py_eq (as_loaded ex_store) ex_store = false.
Proof.
  vm_compute. repeat split; try reflexivity. discriminate.
Qed.

(** ** C9: the snapshot store *)

Lemma dict_get_set_eq (d : pydict) (k : text) (v : pyval) :
  dict_get (dict_set d k v) k = Some v.
Proof.
  induction d as [|[k' v'] d IH]; cbn [dict_set dict_get].
  - now rewrite text_eqb_refl.
  - destruct (text_eqb k' k) eqn:E; cbn [dict_get]; rewrite E; auto.
Qed.

Lemma dict_get_set_ne (d : pydict) (k k' : text) (v : pyval) :
  k' <> k -> dict_get (dict_set d k v) k' = dict_get d k'.
Proof.
  intros Hne. induction d as [|[k0 v0] d IH]; cbn [dict_set dict_get].
  - rewrite text_eqb_neq by congruence. reflexivity.
  - destruct (text_eqb k0 k) eqn:E; cbn [dict_get].
    + apply text_eqb_eq in E as ->.
      rewrite text_eqb_neq by congruence. reflexivity.
    + destruct (text_eqb k0 k'); auto.
Qed.

Lemma dict_set_keys (d : pydict) (k : text) (v : pyval) :
  map fst (dict_set d k v)
  = if bool_decide (k ∈ map fst d) then map fst d else map fst d ++ [k].
Proof.
  induction d as [|[k' v'] d IH]; cbn [dict_set map fst].
  - rewrite bool_decide_eq_false_2 by apply not_elem_of_nil. reflexivity.
  - destruct (text_eqb k' k) eqn:E; cbn [map fst].
    + apply text_eqb_eq in E as ->.
      rewrite bool_decide_eq_true_2 by apply list_elem_of_here. reflexivity.
    + assert (Hne : k' <> k).
      { intros ->. rewrite text_eqb_refl in E. discriminate. }
      rewrite IH. destruct (bool_decide (k ∈ map fst d)) eqn:Hin.
      * apply bool_decide_eq_true in Hin.
        rewrite bool_decide_eq_true_2 by (now apply list_elem_of_further).
        reflexivity.
      * apply bool_decide_eq_false in Hin.
        rewrite bool_decide_eq_false_2; [reflexivity|].
        intros H. apply elem_of_cons in H as [->|H]; [congruence|contradiction].
Qed.

Ltac unfold_monad :=
  repeat (progress (unfold bind, ret, raise, lift, get_self, get_remote,
                    modify_self, emit, username, attribute in *;
                    cbn beta iota zeta in *)).

Lemma save_data_self (s : state) :
  self (snd (save_data s)) = self s /\ remote (snd (save_data s)) = remote s.
Proof.
  unfold save_data, save_json. unfold_monad.
  destruct (json_dump_to_self (data_file (profile_username (self s)))
              (data (self s)) s) as [H1 H1'].
  destruct (json_dump_to _ _ s) as [[[]|e] s1]; cbn [snd] in *;
    [|split; congruence].
  destruct (downloaded_highlights (self s1)) as [hv|];
    [|cbn; split; congruence].
  destruct (json_dump_to_self (highlights_file (profile_username (self s)))
              hv s1) as [H2 H2'].
  destruct (json_dump_to _ _ s1) as [[[]|e] s2]; cbn [snd] in *;
    [|split; congruence].
  destruct (downloaded_stories (self s2)) as [sv|];
    [|cbn; split; congruence].
  destruct (json_dump_to_self (stories_file (profile_username (self s)))
              sv s2) as [H3 H3'].
  split; congruence.
Qed.

(** C9.  [update_profile_info] puts the snapshot under the
    run's timestamp: a new entry, placed last, when the timestamp is not
    yet a key, and in place of the snapshot stored under that timestamp
    otherwise; the value under every other key is as before and no key
    goes away. *)
Theorem update_profile_info_store (profile : Profile.t) (timestamp : text)
        (s : state) (d : pydict) :
  data (self s) = PyDict d ->
  exists d',
    data (self (snd (update_profile_info profile timestamp s))) = PyDict d'
    /\ dict_get d' timestamp = Some (profile_snapshot profile)
    /\ (forall k, k <> timestamp -> dict_get d' k = dict_get d k)
    /\ map fst d'
       = if bool_decide (timestamp ∈ map fst d)
         then map fst d else map fst d ++ [timestamp].
Proof.
  intros Hd. exists (dict_set d timestamp (profile_snapshot profile)).
  split; [|split; [|split]].
  - unfold update_profile_info. unfold_monad.
    rewrite Hd. cbn [setitem].
    match goal with
    | |- context [save_data ?s1] =>
        destruct (save_data_self s1) as [H _];
        destruct (save_data s1) as [[[]|e] s2]; cbn [snd] in *;
        rewrite H; reflexivity
    end.
  - apply dict_get_set_eq.
  - intros k Hk. now apply dict_get_set_ne.
  - apply dict_set_keys.
Qed.

Lemma update_profile_info_store_witness :
  exists d',
    data (self (snd (update_profile_info ex_profile ex_later
                       (with_self (set_data ex_store (fresh_monitor ex_user))
                          (ex_ready []))))) = PyDict d'
    /\ dict_get d' ex_later = Some (profile_snapshot ex_profile)
    /\ (forall k, k <> ex_later ->
        dict_get d' k = dict_get [(ex_time, profile_snapshot ex_profile)] k)
    /\ map fst d'
       = if bool_decide (ex_later ∈ map fst [(ex_time, profile_snapshot ex_profile)])
         then map fst [(ex_time, profile_snapshot ex_profile)]
         else map fst [(ex_time, profile_snapshot ex_profile)] ++ [ex_later].
Proof.
  apply (update_profile_info_store ex_profile ex_later
           (with_self (set_data ex_store (fresh_monitor ex_user)) (ex_ready []))
           [(ex_time, profile_snapshot ex_profile)]).
  reflexivity.
Defined.

(** C9, a stored snapshot that is rewritten: a run whose clock reads a
    timestamp that is already a key (the clock has one-second resolution
    and local time repeats when it is set back) replaces the snapshot
    stored under it; the store has as many entries as before and the
    earlier snapshot is gone. *)
Lemma update_profile_info_rewrites_snapshot :
  data (self ex_same_second) = PyDict [ (ex_time, ex_old_snapshot) ]
  /\ data (self (snd (update_profile_info ex_profile ex_time ex_same_second)))
     = PyDict [ (ex_time, profile_snapshot ex_profile) ]
  /\ profile_snapshot ex_profile <> ex_old_snapshot.
Proof. vm_compute. repeat split; try reflexivity. discriminate. Qed.

(** ** Running a method one statement at a time *)

Lemma bind_ok {A B} (m : M A) (k : A -> M B) (s s' : state) (a : A) :
  m s = (Ok a, s') -> bind m k s = k a s'.
Proof. intros H. unfold bind. now rewrite H. Qed.

Lemma bind_raise {A B} (m : M A) (k : A -> M B) (s s' : state) (e : exn) :
  m s = (Raise e, s') -> bind m k s = (Raise e, s').
Proof. intros H. unfold bind. now rewrite H. Qed.

Lemma bind_assoc {A B C} (m : M A) (k : A -> M B) (k' : B -> M C) (s : state) :
  bind (bind m k) k' s = bind m (fun a => bind (k a) k') s.
Proof. unfold bind. destruct (m s) as [[a|e] s1]; reflexivity. Qed.

Lemma try_log_raise_ok {A} (body : M A) (s s' : state) (a : A) :
  body s = (Ok a, s') -> try_log_raise body s = (Ok a, s').
Proof. intros H. unfold try_log_raise. now rewrite H. Qed.

Lemma try_log_raise_raise {A} (body : M A) (s s' : state) (e : exn) :
  body s = (Raise e, s') ->
  try_log_raise body s
  = (Raise e, with_events (events s' ++ [EvLogError e]) s').
Proof. intros H. unfold try_log_raise. now rewrite H. Qed.

Lemma read_file_ok (p : path) (c : text) (s : state) :
  lookup_node (fs s) p = Some (File c) -> read_file p s = (Ok c, s).
Proof. intros H. unfold read_file. now rewrite H. Qed.

Lemma path_exists_true (p : path) (n : node) (s : state) :
  lookup_node (fs s) p = Some n -> path_exists p s = (Ok true, s).
Proof.
  intros H. unfold path_exists. rewrite H.
  rewrite bool_decide_eq_true_2 by eauto. reflexivity.
Qed.

Lemma path_exists_false (p : path) (s : state) :
  lookup_node (fs s) p = None -> path_exists p s = (Ok false, s).
Proof.
  intros H. unfold path_exists. rewrite H.
  rewrite bool_decide_eq_false_2 by (intros [? ?]; discriminate). reflexivity.
Qed.

Lemma json_dump_to_ok (p : path) (v : pyval) (s : state) :
  lookup_node (fs s) p <> Some Dir ->
  lookup_node (fs s) (parent p) = Some Dir ->
  json_dump_to p v s
  = (Ok tt, {| self := self s;
               fs := <[p := File (json_dumps v)]> (fs s);
               remote := remote s;
               events := events s ++ [EvJsonDump p v] |}).
Proof.
  intros H1 H2. rewrite json_dump_to_eq, write_file_ok by assumption.
  reflexivity.
Qed.

(** One statement that returns: run it and go on with the rest. *)
Tactic Notation "mstep_by" tactic(tac) :=
  rewrite ?bind_assoc; erewrite bind_ok by tac; cbv beta.
Ltac mstep := rewrite ?bind_assoc; erewrite bind_ok by reflexivity; cbv beta.

(** ** C7: the cached profile id *)

(** C7.  When the profile-id file holds an id that differs from the one
    the provider gives, [check_and_update_profile_id] returns without an
    exception and leaves the file holding the provider's id; nothing else
    on disk changes. *)
Theorem check_and_update_profile_id_mismatch (s : state) (c : text)
        (loaded stored : pyval) :
  let u := profile_username (self s) in
  let current := Profile.userid (from_username (remote s) u) in
  let saved := PyDict [ (str "profile_id", PyInt current) ] in
  lookup_node (fs s) (profile_id_file u) = Some (File c) ->
  json_loads c = Ok loaded ->
  subscript_profile_id loaded = Ok stored ->
  py_eq stored (PyInt current) = false ->
  check_and_update_profile_id s
  = (Ok tt,
     {| self := self s;
        fs := <[profile_id_file u := File (json_dumps saved)]> (fs s);
        remote := remote s;
        events := events s ++ [ EvLogInfo LogProfileIdChanged;
                                EvJsonDump (profile_id_file u) saved;
                                EvLogInfo LogProfileIdUpToDate ] |}).
Proof.
  intros u current saved Hfile Hload Hsub Hne.
  apply try_log_raise_ok.
  mstep. fold u.
  mstep_by (eapply path_exists_true; exact Hfile). cbn [negb].
  mstep.
  mstep_by (apply read_file_ok; exact Hfile).
  mstep_by (unfold lift; rewrite Hload; reflexivity).
  mstep_by (unfold lift; rewrite Hsub; reflexivity).
  mstep. fold u current. rewrite Hne. cbn [negb].
  unfold fetch_or_save_profile_id.
  mstep. mstep. mstep.
  cbn [with_events self remote profile_username]. fold u current saved.
  mstep_by (apply json_dump_to_ok; cbn [fs with_events];
            [rewrite Hfile; discriminate|reflexivity]).
  mstep. mstep.
  unfold emit. cbn. rewrite <- !app_assoc. reflexivity.
Qed.

Lemma check_and_update_profile_id_mismatch_witness :
  check_and_update_profile_id
    (with_fs (<[profile_id_file ex_user := File (jtext "{'profile_id': 5}")]> ∅)
       (ex_start []))
  = (Ok tt,
     {| self := fresh_monitor ex_user;
        fs := <[profile_id_file ex_user :=
                  File (json_dumps (PyDict [ (str "profile_id", PyInt 7) ]))]>
                (<[profile_id_file ex_user := File (jtext "{'profile_id': 5}")]> ∅);
        remote := ex_remote [];
        events := [ EvLogInfo LogProfileIdChanged;
                    EvJsonDump (profile_id_file ex_user)
                      (PyDict [ (str "profile_id", PyInt 7) ]);
                    EvLogInfo LogProfileIdUpToDate ] |}).
Proof.
  refine (check_and_update_profile_id_mismatch
            (with_fs (<[profile_id_file ex_user := File (jtext "{'profile_id': 5}")]> ∅)
               (ex_start []))
            (jtext "{'profile_id': 5}")
            (PyDict [ (str "profile_id", PyInt 5) ]) (PyInt 5) _ _ _ _);
    vm_compute; reflexivity.
Defined.

(** ** C3: the metadata log *)

Lemma update_metadata_file_eq (category_key : text) (new_metadata : pydict)
      (timestamp : text) (s : state) :
  let mf := metadata_file (profile_username (self s)) in
  update_metadata_file category_key new_metadata timestamp s
  = match lookup_node (fs s) mf with
    | Some (File old) =>
        match json_loads old with
        | Ok metadata =>
            match merge_metadata metadata category_key new_metadata timestamp with
            | Ok metadata' =>
                (Ok tt,
                 {| self := self s;
                    fs := <[mf := File (overwrite_from_start old
                                          (json_dumps metadata'))]> (fs s);
                    remote := remote s;
                    events := events s ++ [EvJsonDump mf metadata'] |})
            | Raise e => (Raise e, s)
            end
        | Raise e => (Raise e, s)
        end
    | Some Dir => (Raise IsADirectoryError, s)
    | None => (Raise FileNotFoundError, s)
    end.
Proof.
  intros mf. unfold update_metadata_file.
  mstep. fold mf. unfold bind at 1. unfold read_file.
  destruct (lookup_node (fs s) mf) as [[|old]|]; reflexivity.
Qed.

Lemma overwrite_from_start_ge (old new : text) :
  (length old <= length new)%nat -> overwrite_from_start old new = new.
Proof.
  intros H. unfold overwrite_from_start.
  rewrite drop_ge by assumption. apply app_nil_r.
Qed.

(** Where the new text is at least as long as the old one, the file holds
    exactly the new text. *)
Lemma update_metadata_file_exact (category_key : text) (new_metadata : pydict)
      (timestamp : text) (s : state) (old : text) (metadata metadata' : pyval) :
  let mf := metadata_file (profile_username (self s)) in
  lookup_node (fs s) mf = Some (File old) ->
  json_loads old = Ok metadata ->
  merge_metadata metadata category_key new_metadata timestamp = Ok metadata' ->
  (length old <= length (json_dumps metadata'))%nat ->
  fst (update_metadata_file category_key new_metadata timestamp s) = Ok tt
  /\ file_text (snd (update_metadata_file category_key new_metadata timestamp s)) mf
     = json_dumps metadata'.
Proof.
  intros mf Hf Hl Hm Hlen. rewrite update_metadata_file_eq. fold mf.
  rewrite Hf, Hl, Hm. cbn [fst snd]. split; [reflexivity|].
  unfold file_text. cbn [fs].
  rewrite lookup_node_insert_eq by discriminate.
  now apply overwrite_from_start_ge.
Qed.

(** Last write wins: after [d.update(e)] every key of [e] has the value
    [e] gives it (the keys of a dictionary are distinct). *)
Lemma dict_get_update_notin (e : pydict) :
  forall d k, ~ In k (map fst e) -> dict_get (dict_update d e) k = dict_get d k.
Proof.
  unfold dict_update.
  induction e as [|[k0 v0] e IH]; intros d k Hk; [reflexivity|].
  cbn [fold_left fst snd]. cbn [map fst In] in Hk.
  rewrite IH by tauto. apply dict_get_set_ne. intros ->. tauto.
Qed.

Lemma dict_get_update_in (e : pydict) :
  forall d k v,
    NoDup (map fst e) -> In (k, v) e -> dict_get (dict_update d e) k = Some v.
Proof.
  induction e as [|[k0 v0] e IH]; intros d k v Hnd Hin; [destruct Hin|].
  cbn [map fst] in Hnd. apply NoDup_cons in Hnd as [Hk0 Hnd].
  rewrite list_elem_of_In in Hk0.
  change (dict_update d ((k0, v0) :: e))
    with (dict_update (dict_set d k0 v0) e).
  destruct Hin as [Heq|Hin].
  - inversion Heq; subst.
    rewrite dict_get_update_notin by assumption. apply dict_get_set_eq.
  - now apply IH.
Qed.

(** Keys that [d.update(e)] adds go after the keys [d] had. *)
Lemma dict_update_keys_disjoint (e : pydict) :
  forall d,
    NoDup (map fst e) ->
    (forall k, In k (map fst e) -> ~ In k (map fst d)) ->
    map fst (dict_update d e) = map fst d ++ map fst e.
Proof.
  intros d Hnd Hdisj. rewrite dict_update_fresh by assumption.
  apply map_app.
Qed.

Lemma merge_metadata_entry (metadata metadata' : pyval) (category_key : text)
      (new_metadata : pydict) (timestamp : text) :
  merge_metadata metadata category_key new_metadata timestamp = Ok metadata' ->
  NoDup (map fst new_metadata) ->
  exists entry,
    get_in metadata' category_key timestamp = Some (PyDict entry)
    /\ forall k v, In (k, v) new_metadata -> dict_get entry k = Some v.
Proof.
  unfold merge_metadata. intros H Hnd.
  destruct metadata as [| | | | | |md]; try discriminate.
  destruct (dict_get md category_key) as [[| | | | | |cat]|] eqn:Hcat;
    try discriminate.
  destruct (dict_get cat timestamp) as [[| | | | | |entry]|] eqn:Hts;
    try discriminate; inversion H; subst; clear H;
    eexists; (split;
      [unfold get_in; rewrite dict_get_set_eq, dict_get_set_eq; reflexivity
      |intros k v Hin; now apply dict_get_update_in]).
Qed.

(** C3, where the code departs from the specification.  The metadata log holds
    the entry of a highlight with one item; a highlight with an empty
    reel is then logged under the same timestamp.  The call returns, the
    merged log is shorter than the text in the file, and the file is left
    holding the merged log followed by the end of the old text: it is not
    the serialization of the merged log, and it is no longer JSON. *)
Theorem update_metadata_file_leaves_stale_tail :
  exists merged,
    ex_merged = Ok merged
    /\ fst (update_metadata_file (str "highlights")
             (highlights_metadata ex_h3 []) ex_time ex_after_h1) = Ok tt
    /\ file_text
         (snd (update_metadata_file (str "highlights")
                 (highlights_metadata ex_h3 []) ex_time ex_after_h1))
         (metadata_file ex_user)
       = json_dumps merged
           ++ drop (length (json_dumps merged))
                (file_text ex_after_h1 (metadata_file ex_user))
    /\ file_text
         (snd (update_metadata_file (str "highlights")
                 (highlights_metadata ex_h3 []) ex_time ex_after_h1))
         (metadata_file ex_user)
       <> json_dumps merged
    /\ json_loads
         (file_text
            (snd (update_metadata_file (str "highlights")
                    (highlights_metadata ex_h3 []) ex_time ex_after_h1))
            (metadata_file ex_user))
       = Raise JSONDecodeError.
Proof.
  destruct ex_merged as [merged|e] eqn:E; [|vm_compute in E; discriminate].
  exists merged. split; [reflexivity|].
  vm_compute in E. inversion E; subst merged. clear E.
  vm_compute. repeat split; try reflexivity. discriminate.
Qed.

(** The same defect seen from [run_monitor]: with these two highlights
    the run itself ends in a parse error, when the stories phase reads
    the log back. *)
Example run_monitor_fails_on_stale_tail :
  fst (run_monitor ex_time (ex_ready [ex_h1; ex_h3])) = Raise JSONDecodeError.
Proof. vm_compute. reflexivity. Qed.

(** ** C6: the layout *)

Lemma mkdir_from_preserves (rest : path) :
  forall pre f r f' q n,
    mkdir_from pre rest f = (r, f') -> f !! q = Some n -> f' !! q = Some n.
Proof.
  induction rest as [|c rest IH]; intros pre f r f' q n Hm Hq.
  - cbn in Hm. congruence.
  - cbn [mkdir_from] in Hm.
    destruct (f !! (pre ++ [c])) as [[|c0]|] eqn:Hp.
    + eapply IH; eassumption.
    + inversion Hm; subst. assumption.
    + eapply IH; [eassumption|].
      rewrite lookup_insert_ne; [assumption|].
      intros E. subst q. congruence.
Qed.

Lemma mkdir_from_frame (rest : path) :
  forall pre f r f' q,
    mkdir_from pre rest f = (r, f') ->
    ~ In q (prefixes_from pre rest) -> f' !! q = f !! q.
Proof.
  induction rest as [|c rest IH]; intros pre f r f' q Hm Hq.
  - cbn in Hm. congruence.
  - cbn [mkdir_from] in Hm. cbn [prefixes_from In] in Hq.
    destruct (f !! (pre ++ [c])) as [[|c0]|] eqn:Hp.
    + eapply IH; [eassumption|tauto].
    + congruence.
    + erewrite IH; [|eassumption|tauto].
      apply lookup_insert_ne. tauto.
Qed.

Lemma mkdir_from_ok_dirs (rest : path) :
  forall pre f f',
    mkdir_from pre rest f = (Ok tt, f') ->
    Forall (fun q => f' !! q = Some Dir) (prefixes_from pre rest).
Proof.
  induction rest as [|c rest IH]; intros pre f f' Hm.
  - constructor.
  - cbn [mkdir_from] in Hm. cbn [prefixes_from].
    destruct (f !! (pre ++ [c])) as [[|c0]|] eqn:Hp.
    + constructor; [|eapply IH; eassumption].
      eapply mkdir_from_preserves; eassumption.
    + discriminate.
    + constructor; [|eapply IH; eassumption].
      eapply mkdir_from_preserves; [eassumption|]. apply lookup_insert_eq.
Qed.

Lemma mkdir_from_all_dirs (rest : path) :
  forall pre f,
    Forall (fun q => f !! q = Some Dir) (prefixes_from pre rest) ->
    mkdir_from pre rest f = (Ok tt, f).
Proof.
  induction rest as [|c rest IH]; intros pre f Hall; [reflexivity|].
  cbn [prefixes_from] in Hall. apply Forall_cons in Hall as [Hp Hall].
  cbn [mkdir_from]. rewrite Hp. now apply IH.
Qed.

Lemma mkdir_from_idem (rest : path) :
  forall pre f r f',
    mkdir_from pre rest f = (r, f') -> mkdir_from pre rest f' = (r, f').
Proof.
  induction rest as [|c rest IH]; intros pre f r f' Hm.
  - cbn in *. congruence.
  - cbn [mkdir_from] in Hm |- *.
    destruct (f !! (pre ++ [c])) as [[|c0]|] eqn:Hp.
    + rewrite (mkdir_from_preserves _ _ _ _ _ _ _ Hm Hp).
      eapply IH; eassumption.
    + inversion Hm; subst. now rewrite Hp.
    + rewrite (mkdir_from_preserves _ _ _ _ _ (pre ++ [c]) Dir Hm)
        by apply lookup_insert_eq.
      eapply IH; eassumption.
Qed.

Lemma mkdir_from_no_file (rest : path) :
  forall pre f,
    Forall (fun q => forall c, f !! q <> Some (File c)) (prefixes_from pre rest) ->
    fst (mkdir_from pre rest f) = Ok tt.
Proof.
  induction rest as [|c rest IH]; intros pre f Hall; [reflexivity|].
  cbn [prefixes_from] in Hall. apply Forall_cons in Hall as [Hp Hall].
  cbn [mkdir_from].
  destruct (f !! (pre ++ [c])) as [[|c0]|] eqn:E.
  - now apply IH.
  - exfalso. now apply (Hp c0).
  - apply IH. eapply Forall_impl; [exact Hall|]. cbn. intros q Hq c1.
    destruct (decide (q = pre ++ [c])) as [->|Hne].
    + rewrite lookup_insert_eq. discriminate.
    + rewrite lookup_insert_ne by congruence. apply Hq.
Qed.

(** Paths of the layout. *)
Lemma prefixes_highlights_dir (u : string) :
  prefixes_from [] (highlights_dir u)
  = [ ["output"]; data_dir u; highlights_dir u ].
Proof. reflexivity. Qed.

Lemma prefixes_stories_dir (u : string) :
  prefixes_from [] (stories_dir u) = [ ["output"]; data_dir u; stories_dir u ].
Proof. reflexivity. Qed.

Lemma metadata_file_not_dir (u : string) :
  In (metadata_file u) (prefixes_from [] (highlights_dir u))
  \/ In (metadata_file u) (prefixes_from [] (stories_dir u)) -> False.
Proof.
  rewrite prefixes_highlights_dir, prefixes_stories_dir.
  unfold metadata_file, highlights_dir, stories_dir, data_dir. cbn.
  intros [[H|[H|[H|[]]]]|[H|[H|[H|[]]]]]; discriminate.
Qed.

(** [__init__] acts on the disk as [layout_after] says. *)
Lemma init_fs (u : string) (s : state) :
  fs (snd (init u s)) = layout_after u (fs s).
Proof.
  unfold init, layout_after. mstep.
  unfold setup_dirs. mstep. cbn [with_self self fresh_monitor profile_username].
  rewrite bind_assoc. unfold bind at 1. unfold makedirs at 1.
  cbn [with_self fs put_self]. unfold put_self. cbn [snd fs with_self].
  destruct (mkdir_p (highlights_dir u) (fs s)) as [[[]|e] f1] eqn:H1;
    [|reflexivity].
  unfold bind at 1. unfold makedirs at 1. cbn [with_fs fs].
  destruct (mkdir_p (stories_dir u) f1) as [[[]|e] f2] eqn:H2; [|reflexivity].
  unfold setup_metadata_file. mstep.
  cbn [with_fs with_self self fresh_monitor profile_username].
  destruct (f2 !! metadata_file u) as [n|] eqn:Hm.
  - mstep_by (eapply path_exists_true; cbn; exact Hm). reflexivity.
  - mstep_by (eapply path_exists_false; cbn; exact Hm). cbn [negb].
    rewrite json_dump_to_ok; [reflexivity| |].
    + change (f2 !! metadata_file u <> Some Dir). rewrite Hm. discriminate.
    + change (f2 !! data_dir u = Some Dir). unfold mkdir_p in H2. apply mkdir_from_ok_dirs in H2.
      rewrite prefixes_stories_dir in H2.
      apply Forall_cons in H2 as [_ H2]. apply Forall_cons in H2 as [H2 _].
      exact H2.
Qed.

Lemma layout_after_idem (u : string) (f : gmap path node) :
  layout_after u (layout_after u f) = layout_after u f.
Proof.
  remember (layout_after u f) as g eqn:Hg.
  unfold layout_after, mkdir_p in Hg.
  destruct (mkdir_from [] (highlights_dir u) f) as [[[]|e] f1] eqn:H1.
  2:{ subst g. unfold layout_after, mkdir_p.
      now rewrite (mkdir_from_idem _ _ _ _ _ H1). }
  pose proof (mkdir_from_ok_dirs _ _ _ _ H1) as D1.
  destruct (mkdir_from [] (stories_dir u) f1) as [[[]|e] f2] eqn:H2.
  2:{ subst g. unfold layout_after, mkdir_p.
      rewrite (mkdir_from_all_dirs (highlights_dir u) [] f2).
      - now rewrite (mkdir_from_idem _ _ _ _ _ H2).
      - eapply Forall_impl; [exact D1|]. cbn. intros q Hq.
        eapply mkdir_from_preserves; eassumption. }
  pose proof (mkdir_from_ok_dirs _ _ _ _ H2) as D2.
  assert (D1' : Forall (fun q => f2 !! q = Some Dir)
                  (prefixes_from [] (highlights_dir u))).
  { eapply Forall_impl; [exact D1|]. cbn. intros q Hq.
    eapply mkdir_from_preserves; eassumption. }
  destruct (f2 !! metadata_file u) as [n|] eqn:Hm.
  - subst g. unfold layout_after, mkdir_p.
    rewrite (mkdir_from_all_dirs _ _ _ D1'), (mkdir_from_all_dirs _ _ _ D2).
    now rewrite Hm.
  - assert (D13 : Forall (fun q => g !! q = Some Dir)
                    (prefixes_from [] (highlights_dir u))).
    { eapply Forall_impl; [exact D1'|]. cbn. intros q Hq. subst g.
      rewrite lookup_insert_ne; [assumption|]. intros E. subst q. congruence. }
    assert (D23 : Forall (fun q => g !! q = Some Dir)
                    (prefixes_from [] (stories_dir u))).
    { eapply Forall_impl; [exact D2|]. cbn. intros q Hq. subst g.
      rewrite lookup_insert_ne; [assumption|]. intros E. subst q. congruence. }
    unfold layout_after, mkdir_p.
    rewrite (mkdir_from_all_dirs _ _ _ D13), (mkdir_from_all_dirs _ _ _ D23).
    subst g. now rewrite lookup_insert_eq.
Qed.

Lemma layout_after_keeps_files (u : string) (f : gmap path node) (p : path)
      (c : text) :
  f !! p = Some (File c) -> layout_after u f !! p = Some (File c).
Proof.
  intros Hp. unfold layout_after, mkdir_p.
  destruct (mkdir_from [] (highlights_dir u) f) as [[[]|e] f1] eqn:H1.
  2:{ eapply mkdir_from_preserves; eassumption. }
  pose proof (mkdir_from_preserves _ _ _ _ _ _ _ H1 Hp) as Hp1.
  destruct (mkdir_from [] (stories_dir u) f1) as [[[]|e] f2] eqn:H2.
  2:{ eapply mkdir_from_preserves; eassumption. }
  pose proof (mkdir_from_preserves _ _ _ _ _ _ _ H2 Hp1) as Hp2.
  destruct (f2 !! metadata_file u) as [n|] eqn:Hm; [assumption|].
  rewrite lookup_insert_ne; [assumption|].
  intros E. subst p. congruence.
Qed.

Lemma layout_after_creates_metadata (u : string) (f : gmap path node) :
  f !! metadata_file u = None ->
  Forall (fun q => forall c, f !! q <> Some (File c)) (layout_dirs u) ->
  layout_after u f !! metadata_file u
  = Some (File (json_dumps initial_metadata)).
Proof.
  intros Hm Hdirs. unfold layout_dirs in Hdirs.
  apply Forall_cons in Hdirs as [Ho Hdirs].
  apply Forall_cons in Hdirs as [Hd Hdirs].
  apply Forall_cons in Hdirs as [Hh Hdirs].
  apply Forall_cons in Hdirs as [Hs _].
  unfold layout_after, mkdir_p.
  pose proof (mkdir_from_no_file (highlights_dir u) [] f) as N1.
  rewrite prefixes_highlights_dir in N1.
  specialize (N1 ltac:(repeat constructor; assumption)).
  destruct (mkdir_from [] (highlights_dir u) f) as [[[]|e] f1] eqn:H1;
    [|discriminate].
  pose proof (mkdir_from_no_file (stories_dir u) [] f1) as N2.
  rewrite prefixes_stories_dir in N2.
  assert (Hs1 : forall c, f1 !! stories_dir u <> Some (File c)).
  { intros c. erewrite mkdir_from_frame; [apply Hs|exact H1|].
    rewrite prefixes_highlights_dir.
    unfold stories_dir, highlights_dir, data_dir. cbn.
    intros [H|[H|[H|[]]]]; discriminate. }
  pose proof (mkdir_from_ok_dirs _ _ _ _ H1) as D1.
  rewrite prefixes_highlights_dir in D1.
  apply Forall_cons in D1 as [Do D1]. apply Forall_cons in D1 as [Dd _].
  specialize (N2 ltac:(repeat constructor;
                       [intros c; rewrite Do; discriminate
                       |intros c; rewrite Dd; discriminate
                       |assumption])).
  destruct (mkdir_from [] (stories_dir u) f1) as [[[]|e] f2] eqn:H2;
    [|discriminate].
  assert (Hm2 : f2 !! metadata_file u = None).
  { erewrite mkdir_from_frame; [|exact H2|].
    - erewrite mkdir_from_frame; [exact Hm|exact H1|].
      intros H. apply (metadata_file_not_dir u). now left.
    - intros H. apply (metadata_file_not_dir u). now right. }
  rewrite Hm2. apply lookup_insert_eq.
Qed.

(** The skeleton is the JSON object of the two empty categories. *)
Lemma initial_metadata_text :
  json_loads (json_dumps initial_metadata) = Ok initial_metadata.
Proof. vm_compute. reflexivity. Qed.

(** C6.  Building the object any number of times leaves the disk as
    building it once does; a file that exists keeps its content; and where
    [metadata.json] is absent and no regular file stands in the place of
    a directory of the layout, it is created holding the two empty
    categories. *)
Theorem init_idempotent (u : string) (s : state) (n : nat) :
  (1 <= n)%nat ->
  fs (Nat.iter n (fun s => snd (init u s)) s) = fs (snd (init u s))
  /\ (forall p c, fs s !! p = Some (File c) ->
                  fs (snd (init u s)) !! p = Some (File c))
  /\ (fs s !! metadata_file u = None ->
      Forall (fun q => forall c, fs s !! q <> Some (File c)) (layout_dirs u) ->
      fs (snd (init u s)) !! metadata_file u
      = Some (File (json_dumps initial_metadata))
      /\ json_loads (json_dumps initial_metadata)
         = Ok (PyDict [ (str "highlights", PyDict []);
                        (str "stories", PyDict []) ])).
Proof.
  intros Hn. split; [|split].
  - destruct n as [|n]; [lia|]. clear Hn.
    induction n as [|n IH].
    + reflexivity.
    + change (Nat.iter (S (S n)) (fun s => snd (init u s)) s)
        with (snd (init u (Nat.iter (S n) (fun s => snd (init u s)) s))).
      rewrite init_fs, IH, init_fs. apply layout_after_idem.
  - intros p c Hp. rewrite init_fs. now apply layout_after_keeps_files.
  - intros Hm Hdirs. split; [|apply initial_metadata_text].
    rewrite init_fs. now apply layout_after_creates_metadata.
Qed.

Lemma init_idempotent_witness :
  fs (Nat.iter 3 (fun s => snd (init ex_user s)) (ex_start []))
  = fs (snd (init ex_user (ex_start [])))
  /\ (forall p c, fs (ex_start []) !! p = Some (File c) ->
                  fs (snd (init ex_user (ex_start []))) !! p = Some (File c))
  /\ (fs (ex_start []) !! metadata_file ex_user = None ->
      Forall (fun q => forall c, fs (ex_start []) !! q <> Some (File c))
        (layout_dirs ex_user) ->
      fs (snd (init ex_user (ex_start []))) !! metadata_file ex_user
      = Some (File (json_dumps initial_metadata))
      /\ json_loads (json_dumps initial_metadata)
         = Ok (PyDict [ (str "highlights", PyDict []);
                        (str "stories", PyDict []) ])).
Proof.
  refine (init_idempotent ex_user (ex_start []) 3 _). lia.
Defined.

(* ================================================================== *)
(** * Reasoning about runs *)

Lemma triple_ret {A} (P : state -> Prop) (a : A) (Q : A -> state -> Prop)
      (E : state -> Prop) :
  (forall s, P s -> Q a s) -> triple P (ret a) Q E.
Proof. intros H s Hs. now apply H. Qed.

Lemma triple_raise {A} (P : state -> Prop) (e : exn) (Q : A -> state -> Prop)
      (E : state -> Prop) :
  (forall s, P s -> E s) -> triple P (raise e) Q E.
Proof. intros H s Hs. now apply H. Qed.

Lemma triple_bind {A B} (P : state -> Prop) (m : M A) (k : A -> M B)
      (Q1 : A -> state -> Prop) (Q : B -> state -> Prop) (E : state -> Prop) :
  triple P m Q1 E ->
  (forall a, triple (Q1 a) (k a) Q E) ->
  triple P (bind m k) Q E.
Proof.
  intros Hm Hk s Hs. specialize (Hm s Hs). unfold bind.
  destruct (m s) as [[a|e] s1]; [|assumption]. now apply Hk.
Qed.

Lemma triple_conseq {A} (P P' : state -> Prop) (m : M A)
      (Q Q' : A -> state -> Prop) (E E' : state -> Prop) :
  triple P' m Q' E' ->
  (forall s, P s -> P' s) ->
  (forall a s, Q' a s -> Q a s) ->
  (forall s, E' s -> E s) ->
  triple P m Q E.
Proof.
  intros Hm HP HQ HE s Hs. specialize (Hm s (HP s Hs)).
  destruct (m s) as [[a|e] s1]; auto.
Qed.

(** A fact that the precondition implies may be used on the way. *)
Lemma triple_fact {A} (P : state -> Prop) (fact : Prop) (m : M A)
      (Q : A -> state -> Prop) (E : state -> Prop) :
  (forall s, P s -> fact) ->
  (fact -> triple P m Q E) ->
  triple P m Q E.
Proof. intros Hf Hm s Hs. exact (Hm (Hf s Hs) s Hs). Qed.

Lemma triple_for_each {A B} (I : state -> Prop) (E : state -> Prop)
      (body : B -> A -> M B) (l : list A) :
  (forall acc x, triple I (body acc x) (fun _ => I) E) ->
  forall acc, triple I (for_each l acc body) (fun _ => I) E.
Proof.
  intros Hb. induction l as [|x l IH]; intros acc.
  - now apply triple_ret.
  - cbn [for_each]. eapply triple_bind; [apply Hb|]. intros a. apply IH.
Qed.

Lemma triple_try_log_raise {A} (P : state -> Prop) (body : M A)
      (Q : A -> state -> Prop) (E E' : state -> Prop) :
  triple P body Q E' ->
  (forall s e, E' s -> E (with_events (events s ++ [EvLogError e]) s)) ->
  triple P (try_log_raise body) Q E.
Proof.
  intros Hb HE s Hs. specialize (Hb s Hs). unfold try_log_raise.
  destruct (body s) as [[a|e] s1]; auto.
Qed.

(** Statements that read and change nothing. *)
Lemma triple_get_self (P : state -> Prop) (E : state -> Prop) :
  triple P get_self (fun m s => P s /\ m = self s) E.
Proof. intros s Hs. cbn. auto. Qed.

Lemma triple_get_remote (P : state -> Prop) (E : state -> Prop) :
  triple P get_remote (fun L s => P s /\ L = remote s) E.
Proof. intros s Hs. cbn. auto. Qed.

Lemma triple_username (P : state -> Prop) (E : state -> Prop) :
  triple P username (fun u s => P s /\ u = profile_username (self s)) E.
Proof. intros s Hs. cbn. auto. Qed.

Lemma triple_lift {A} (P : state -> Prop) (r : result A) :
  triple P (lift r) (fun a s => P s /\ r = Ok a) P.
Proof. intros s Hs. unfold lift. destruct r; auto. Qed.

Lemma triple_load_json (P : state -> Prop) (filename : path) :
  triple P (load_json filename)
    (fun v s => P s /\ loaded_from (lookup_node (fs s) filename) = Ok v) P.
Proof.
  intros s Hs. rewrite load_json_eq. unfold loaded_from.
  destruct (lookup_node (fs s) filename) as [[|c]|]; auto.
  destruct (json_loads c); auto.
Qed.

Lemma triple_emit (P Q : state -> Prop) (E : state -> Prop) (e : event) :
  (forall s, P s -> Q (with_events (events s ++ [e]) s)) ->
  triple P (emit e) (fun _ => Q) E.
Proof. intros H s Hs. cbn. auto. Qed.

Lemma triple_modify_self (P Q : state -> Prop) (E : state -> Prop)
      (f : InstagramMonitor -> InstagramMonitor) :
  (forall s, P s -> Q (with_self (f (self s)) s)) ->
  triple P (modify_self f) (fun _ => Q) E.
Proof. intros H s Hs. cbn. auto. Qed.

(** Writing a file: either nothing happened, or the file holds the text. *)
Lemma triple_json_dump_to (P Q : state -> Prop) (p : path) (v : pyval) :
  (forall s, P s ->
     Q {| self := self s;
          fs := <[p := File (json_dumps v)]> (fs s);
          remote := remote s;
          events := events s ++ [EvJsonDump p v] |}) ->
  triple P (json_dump_to p v) (fun _ => Q) P.
Proof.
  intros H s Hs. rewrite json_dump_to_eq.
  destruct (write_file p (json_dumps v) s) as [[[]|e] s1] eqn:Hw.
  - apply write_file_inv in Hw as [_ ->]. exact (H s Hs).
  - now apply write_file_fail in Hw as ->.
Qed.

Lemma triple_makedirs (P : state -> Prop) (p : path) :
  (forall s f, P s ->
     (forall q, ~ In q (prefixes_from [] p) -> f !! q = fs s !! q) ->
     P (with_fs f s)) ->
  triple P (makedirs p) (fun _ => P) P.
Proof.
  intros H s Hs. unfold makedirs, mkdir_p.
  destruct (mkdir_from [] p (fs s)) as [[[]|e] f] eqn:Hm;
    (apply H; [assumption|]; intros q Hq;
     eapply mkdir_from_frame; eassumption).
Qed.

Lemma triple_pre {A} (P P' : state -> Prop) (m : M A)
      (Q : A -> state -> Prop) (E : state -> Prop) :
  (forall s, P s -> P' s) -> triple P' m Q E -> triple P m Q E.
Proof. intros HP Hm. eapply triple_conseq; eauto. Qed.

Lemma triple_bind_username {B} (P : state -> Prop) (u : string)
      (k : string -> M B) (Q : B -> state -> Prop) (E : state -> Prop) :
  (forall s, P s -> profile_username (self s) = u) ->
  triple P (k u) Q E ->
  triple P (bind username k) Q E.
Proof.
  intros Hu Hk s Hs. unfold bind, username, get_self, ret. cbn.
  rewrite (Hu s Hs). now apply Hk.
Qed.

Lemma triple_bind_get_self {B} (P : state -> Prop)
      (k : InstagramMonitor -> M B) (Q : B -> state -> Prop)
      (E : state -> Prop) :
  (forall m, triple (fun s => P s /\ self s = m) (k m) Q E) ->
  triple P (bind get_self k) Q E.
Proof. intros Hk s Hs. unfold bind, get_self. now apply Hk. Qed.

Lemma triple_bind_get_remote {B} (P : state -> Prop)
      (k : Instaloader -> M B) (Q : B -> state -> Prop) (E : state -> Prop) :
  (forall L, triple P (k L) Q E) ->
  triple P (bind get_remote k) Q E.
Proof. intros Hk s Hs. unfold bind, get_remote. now apply Hk. Qed.

Lemma triple_bind_emit {B} (P : state -> Prop) (e : event)
      (k : M B) (Q : B -> state -> Prop) (E : state -> Prop) :
  (forall s, P s -> P (with_events (events s ++ [e]) s)) ->
  triple P k Q E ->
  triple P (bind (emit e) (fun _ => k)) Q E.
Proof. intros He Hk s Hs. unfold bind, emit. apply Hk. now apply He. Qed.

Lemma triple_bind_ret {A B} (P : state -> Prop) (a : A) (k : A -> M B)
      (Q : B -> state -> Prop) (E : state -> Prop) :
  triple P (k a) Q E -> triple P (bind (ret a) k) Q E.
Proof. intros Hk s Hs. unfold bind, ret. now apply Hk. Qed.

(** ** C5: no story id is ever recorded *)

Ltac paths_differ :=
  unfold stories_file, highlights_file, data_file, metadata_file,
    highlights_dir, stories_dir, data_dir; cbn [app]; congruence.

Section StoriesKept.
Variable u : string.
Variable ids : list text.
Variable n : option node.
Variable v : pyval.

Let J := stories_as_loaded u ids n v.

Lemma stories_as_loaded_events (s : state) (evs : list event) :
  J s -> J (with_events evs s).
Proof. intros H. exact H. Qed.

Lemma stories_as_loaded_write_other (s : state) (p : path) (x : node)
      (evs : list event) :
  J s -> p <> stories_file u ->
  J {| self := self s; fs := <[p := x]> (fs s); remote := remote s;
       events := evs |}.
Proof.
  intros (Hu & Hl & Ha & Hf) Hp. repeat split; try assumption.
  cbn [fs]. now rewrite lookup_insert_ne.
Qed.

Lemma stories_as_loaded_write_stories (s : state) (evs : list event) :
  J s ->
  J {| self := self s;
       fs := <[stories_file u := File (json_dumps v)]> (fs s);
       remote := remote s; events := evs |}.
Proof.
  intros (Hu & Hl & Ha & Hf). repeat split; try assumption.
  right. cbn [fs]. apply lookup_insert_eq.
Qed.

Lemma stories_as_loaded_set_data (s : state) (d : pyval) :
  J s -> J (with_self (set_data d (self s)) s).
Proof. intros H. exact H. Qed.

Lemma save_data_stories_kept : triple J save_data (fun _ => J) J.
Proof.
  unfold save_data, save_json.
  apply (triple_bind_username _ u); [intros s Hs; apply Hs|].
  apply triple_bind_get_self. intros m.
  eapply triple_bind.
  { apply (triple_pre _ J); [tauto|].
    apply triple_json_dump_to. intros s Hs.
    apply stories_as_loaded_write_other; [assumption|paths_differ]. }
  intros []. apply triple_bind_get_self. intros m1.
  destruct (downloaded_highlights m1) as [hv|]; cbn [attribute].
  2:{ apply triple_raise. tauto. }
  apply triple_bind_ret.
  eapply triple_bind.
  { apply (triple_pre _ J); [tauto|].
    apply triple_json_dump_to. intros s Hs.
    apply stories_as_loaded_write_other; [assumption|paths_differ]. }
  intros []. apply triple_bind_get_self. intros m2.
  apply (triple_fact _ (downloaded_stories m2 = Some v)).
  { intros s [(_ & _ & Ha & _) Hm]. now rewrite <- Hm. }
  intros Hv. rewrite Hv. cbn [attribute].
  apply triple_bind_ret.
  apply (triple_pre _ J); [tauto|].
  apply triple_json_dump_to. intros s Hs.
  now apply stories_as_loaded_write_stories.
Qed.

Lemma update_metadata_file_stories_kept (category_key : text)
      (new_metadata : pydict) (timestamp : text) :
  triple J (update_metadata_file category_key new_metadata timestamp)
    (fun _ => J) J.
Proof.
  intros s Hs. rewrite update_metadata_file_eq. cbv zeta.
  destruct (lookup_node (fs s) (metadata_file (profile_username (self s))))
    as [[|old]|]; try exact Hs.
  destruct (json_loads old) as [metadata|e]; [|exact Hs].
  destruct (merge_metadata metadata category_key new_metadata timestamp)
    as [metadata'|e]; [|exact Hs].
  apply stories_as_loaded_write_other; [assumption|].
  destruct Hs as (-> & _). paths_differ.
Qed.

Lemma download_items_stories_kept (items : list StoryItem.t) (target : path)
      (f : StoryItem.t -> pyval) (acc : list pyval) :
  triple J
    (for_each items acc
       (fun stories item =>
          emit (EvDownloadStoryItem item target) >> ret (stories ++ [f item])))
    (fun _ => J) J.
Proof.
  apply triple_for_each. intros acc' item.
  apply triple_bind_emit; [intros s Hs; exact Hs|].
  apply triple_ret. auto.
Qed.

Lemma download_highlights_with_metadata_stories_kept (highlight : Highlight.t)
      (timestamp : text) :
  triple J (download_highlights_with_metadata highlight timestamp)
    (fun _ => J) J.
Proof.
  unfold download_highlights_with_metadata.
  apply (triple_bind_username _ u); [intros s Hs; apply Hs|].
  eapply triple_bind; [apply download_items_stories_kept|].
  intros stories. apply update_metadata_file_stories_kept.
Qed.

Lemma download_stories_with_metadata_stories_kept (story : Story.t)
      (timestamp : text) :
  triple J (download_stories_with_metadata story timestamp) (fun _ => J) J.
Proof.
  unfold download_stories_with_metadata.
  apply (triple_bind_username _ u); [intros s Hs; apply Hs|].
  eapply triple_bind; [apply download_items_stories_kept|].
  intros stories. apply update_metadata_file_stories_kept.
Qed.

Lemma download_new_highlights_stories_kept (target_profile : Profile.t)
      (timestamp : text) :
  triple J (download_new_highlights target_profile timestamp) (fun _ => J) J.
Proof.
  unfold download_new_highlights.
  apply triple_bind_get_self. intros m. cbv zeta.
  apply (triple_pre _ J); [tauto|].
  apply triple_bind_get_remote. intros L.
  apply triple_for_each. intros acc highlight.
  destruct (negb _).
  - apply triple_bind_emit; [intros s Hs; exact Hs|].
    eapply triple_bind;
      [apply download_highlights_with_metadata_stories_kept|].
    intros []. apply triple_ret. auto.
  - apply triple_ret. auto.
Qed.

Lemma download_new_stories_stories_kept (target_profile : Profile.t)
      (timestamp : text) :
  triple J (download_new_stories target_profile timestamp)
    (fun new_downloads s => new_downloads = [] /\ J s) J.
Proof.
  unfold download_new_stories. cbv zeta.
  apply triple_bind_get_self. intros m.
  apply (triple_pre _ J); [tauto|].
  apply triple_bind_get_remote. intros L.
  eapply triple_bind.
  - apply triple_for_each. intros acc story.
    apply triple_bind_emit; [intros s Hs; exact Hs|].
    apply download_stories_with_metadata_stories_kept.
  - intros []. apply triple_ret. auto.
Qed.

Lemma update_profile_info_stories_kept (profile : Profile.t)
      (timestamp : text) :
  triple J (update_profile_info profile timestamp) (fun _ => J) J.
Proof.
  unfold update_profile_info.
  apply triple_bind_get_self. intros m.
  apply (triple_pre _ J); [tauto|].
  eapply triple_bind; [apply triple_lift|]. intros data'. cbv beta.
  apply (triple_pre _ J); [tauto|].
  eapply triple_bind.
  - apply (triple_modify_self _ J). intros s Hs. exact Hs.
  - intros []. apply save_data_stories_kept.
Qed.

(** Everything [run_monitor] does after [setup]. *)
Lemma run_after_setup_stories_kept (now : text) :
  triple J
    (let* u := username in
     let* L := get_remote in
     let target_profile := from_username L u in
     let timestamp := now in
     let* new_downloaded_highlights :=
       download_new_highlights target_profile timestamp in
     modify_self (fun m =>
       set_downloaded_highlights_list
         (downloaded_highlights_list m ++ new_downloaded_highlights) m) >>
     save_data >>
     let* new_downloaded_stories :=
       download_new_stories target_profile timestamp in
     modify_self (fun m =>
       set_downloaded_stories_list
         (downloaded_stories_list m ++ new_downloaded_stories) m) >>
     save_data >>
     update_profile_info target_profile timestamp >>
     emit (EvDownloadProfile u))
    (fun _ => J) J.
Proof.
  apply (triple_bind_username _ u); [intros s Hs; apply Hs|].
  apply triple_bind_get_remote. intros L. cbv zeta.
  eapply triple_bind; [apply download_new_highlights_stories_kept|].
  intros new_h. cbv beta.
  eapply triple_bind;
    [apply (triple_modify_self _ J); intros s Hs; exact Hs|].
  intros [].
  eapply triple_bind; [apply save_data_stories_kept|]. intros [].
  eapply triple_bind; [apply download_new_stories_stories_kept|].
  intros new_s. cbv beta.
  apply (triple_fact _ (new_s = [])); [tauto|]. intros ->.
  apply (triple_pre _ J); [tauto|].
  eapply triple_bind.
  { apply (triple_modify_self _ J). intros s (Hu & Hl & Ha & Hf).
    repeat split; try assumption.
    cbn [self with_self set_downloaded_stories_list downloaded_stories_list].
    now rewrite app_nil_r. }
  intros [].
  eapply triple_bind; [apply save_data_stories_kept|]. intros [].
  eapply triple_bind; [apply update_profile_info_stories_kept|]. intros [].
  apply triple_emit. intros s Hs. exact Hs.
Qed.

End StoriesKept.

Lemma triple_exists {A X} (P : X -> state -> Prop) (m : M A)
      (Q : A -> state -> Prop) (E : state -> Prop) :
  (forall x, triple (P x) m Q E) ->
  triple (fun s => exists x, P x s) m Q E.
Proof. intros H s [x Hx]. now apply (H x). Qed.

Lemma stories_file_not_under_data_dir (u : string) :
  ~ In (stories_file u) (prefixes_from [] (data_dir u)).
Proof.
  unfold stories_file, data_dir. cbn. intros [H|[H|[]]]; discriminate.
Qed.

Lemma setup_stories_loaded (u : string) (ids : list text) (n : option node) :
  triple (stories_as_found u ids n) setup
    (fun _ s => exists v, loaded_from n = Ok v
                          /\ stories_as_loaded u ids n v s)
    (stories_as_found u ids n).
Proof.
  set (P0 := stories_as_found u ids n). unfold setup.
  apply (triple_bind_username _ u); [intros s Hs; apply Hs|].
  eapply triple_bind.
  { apply triple_makedirs. intros s f (Hu & Hl & Hf) Hframe.
    repeat split; try assumption. cbn [fs with_fs].
    rewrite Hframe; [assumption|apply stories_file_not_under_data_dir]. }
  intros []. unfold load_data.
  apply (triple_bind_username _ u); [intros s Hs; apply Hs|].
  eapply triple_bind; [apply triple_load_json|]. intros v1. cbv beta.
  apply (triple_pre _ P0); [tauto|].
  eapply triple_bind;
    [apply (triple_modify_self _ P0); intros s Hs; exact Hs|].
  intros [].
  eapply triple_bind; [apply triple_load_json|]. intros v2. cbv beta.
  apply (triple_pre _ P0); [tauto|].
  eapply triple_bind;
    [apply (triple_modify_self _ P0); intros s Hs; exact Hs|].
  intros [].
  eapply triple_bind; [apply triple_load_json|]. intros v3. cbv beta.
  apply triple_modify_self. intros s ((Hu & Hl & Hf) & Hload).
  change (lookup_node (fs s) (stories_file u)) with (fs s !! stories_file u)
    in Hload.
  rewrite Hf in Hload. exists v3. split; [assumption|].
  repeat split; try assumption. left. assumption.
Qed.

(** Whatever [run_monitor] does, the id list in memory is as it was and
    the stories file is as it was or holds again what was loaded from
    it. *)
Lemma run_monitor_stories_kept (u : string) (ids : list text)
      (n : option node) (now : text) :
  triple (stories_as_found u ids n) (run_monitor now)
    (fun _ => stories_kept u ids n) (stories_kept u ids n).
Proof.
  unfold run_monitor.
  eapply triple_try_log_raise with (E' := stories_kept u ids n).
  - eapply triple_bind.
    + eapply triple_conseq; [apply (setup_stories_loaded u ids n)| | |].
      * auto.
      * intros a s Hs. exact Hs.
      * intros s (Hu & Hl & Hf). split; [assumption|now left].
    + intros []. apply triple_exists. intros v.
      apply (triple_fact _ (loaded_from n = Ok v)); [tauto|]. intros Hv.
      eapply triple_conseq;
        [apply (run_after_setup_stories_kept u ids n v)| | |].
      * tauto.
      * intros a s (Hu & Hl & Ha & [Hf|Hf]); (split; [assumption|]);
          [now left|right; eauto].
      * intros s (Hu & Hl & Ha & [Hf|Hf]); (split; [assumption|]);
          [now left|right; eauto].
  - intros s e Hs. exact Hs.
Qed.

Lemma download_new_stories_result (target_profile : Profile.t)
      (timestamp : text) (s : state) :
  match fst (download_new_stories target_profile timestamp s) with
  | Ok new_downloads => new_downloads = []
  | Raise _ => True
  end.
Proof.
  unfold download_new_stories. cbv zeta. mstep. mstep.
  unfold bind.
  destruct (for_each _ _ _ _) as [[[]|e] s1]; cbn; auto.
Qed.

(** C5.  [download_new_stories] returns the empty list whenever it
    returns; so a run, however it ends, leaves the id list in memory as
    it was, and leaves [downloaded_stories.json] untouched or rewritten
    with the very value that was loaded from it: what can be read from
    the file after the run is what could be read before. *)
Theorem run_monitor_records_no_story_id (now : text) (s : state)
        (target_profile : Profile.t) (timestamp : text) (s0 : state) :
  let u := profile_username (self s) in
  let s' := snd (run_monitor now s) in
  match fst (download_new_stories target_profile timestamp s0) with
  | Ok new_downloads => new_downloads = []
  | Raise _ => True
  end
  /\ downloaded_stories_list (self s') = downloaded_stories_list (self s)
  /\ (fs s' !! stories_file u = fs s !! stories_file u
      \/ exists v, fst (load_json (stories_file u) s) = Ok v
                   /\ fs s' !! stories_file u = Some (File (json_dumps v)))
  /\ (forall v, fst (load_json (stories_file u) s) = Ok v ->
                wf_py v = true -> has_tuple v = false ->
                fst (load_json (stories_file u) s') = Ok v).
Proof.
  intros u s'.
  split; [apply download_new_stories_result|].
  pose proof (run_monitor_stories_kept u
                (downloaded_stories_list (self s)) (fs s !! stories_file u)
                now s ltac:(repeat split)) as H.
  fold s' in H. unfold s' in *.
  destruct (run_monitor now s) as [[[]|e] s1]; cbn [snd] in *;
    destruct H as (Hl & Hf);
    (split; [exact Hl|]); (split;
      [destruct Hf as [Hf|(v & Hv & Hf)]; [now left|right; exists v;
         rewrite load_json_eq; split; assumption]
      |intros v Hv Hwf Hnt; rewrite load_json_eq in Hv |- *; cbn [fst] in *;
       change (lookup_node (fs s1) (stories_file u))
         with (fs s1 !! stories_file u);
       change (lookup_node (fs s) (stories_file u))
         with (fs s !! stories_file u) in Hv;
       destruct Hf as [Hf|(v' & Hv' & Hf)];
       [rewrite Hf; exact Hv
       |rewrite Hf; unfold loaded_from in Hv';
        assert (v' = v) by congruence; subst v';
        rewrite json_loads_dumps by assumption;
        now rewrite as_loaded_no_tuple]]).
Qed.

Lemma run_monitor_records_no_story_id_witness :
  fst (download_new_stories ex_profile ex_time (ex_ready [ex_h1; ex_h2]))
  = Ok []
  /\ downloaded_stories_list
       (self (snd (run_monitor ex_time (ex_ready [ex_h1; ex_h2])))) = []
  /\ fst (load_json (stories_file ex_user)
            (snd (run_monitor ex_time (ex_ready [ex_h1; ex_h2]))))
     = Ok (PyDict []).
Proof.
  destruct (run_monitor_records_no_story_id ex_time (ex_ready [ex_h1; ex_h2])
              ex_profile ex_time (ex_ready [ex_h1; ex_h2]))
    as (_ & Hl & _ & Hf).
  split; [vm_compute; reflexivity|]. split; [exact Hl|].
  apply Hf; vm_compute; reflexivity.
Defined.

(** ** Traces of the download loops *)

Lemma with_events_same (s : state) : with_events (events s) s = s.
Proof. destruct s. reflexivity. Qed.

Lemma for_each_download_items {X} (target : path) (f : StoryItem.t -> X)
      (items : list StoryItem.t) :
  forall acc s,
    for_each items acc
      (fun stories item =>
         emit (EvDownloadStoryItem item target) >> ret (stories ++ [f item])) s
    = (Ok (acc ++ map f items),
       with_events
         (events s ++ map (fun item => EvDownloadStoryItem item target) items) s).
Proof.
  induction items as [|x items IH]; intros acc s.
  - cbn. now rewrite !app_nil_r, with_events_same.
  - cbn [for_each map]. mstep. mstep. rewrite IH. cbn.
    now rewrite <- !app_assoc.
Qed.

Lemma download_highlights_with_metadata_eq (highlight : Highlight.t)
      (timestamp : text) (s : state) :
  download_highlights_with_metadata highlight timestamp s
  = update_metadata_file (str "highlights")
      (highlights_metadata highlight
         (map highlight_item_metadata (Highlight.get_items highlight)))
      timestamp
      (with_events
         (events s
            ++ map (fun item =>
                      EvDownloadStoryItem item
                        (highlights_dir (profile_username (self s))))
                 (Highlight.get_items highlight)) s).
Proof.
  unfold download_highlights_with_metadata. mstep.
  mstep_by (apply for_each_download_items). reflexivity.
Qed.

Lemma download_stories_with_metadata_eq (story : Story.t) (timestamp : text)
      (s : state) :
  download_stories_with_metadata story timestamp s
  = update_metadata_file (str "stories")
      (stories_metadata story
         (map story_item_metadata (Story.get_items story)))
      timestamp
      (with_events
         (events s
            ++ map (fun item =>
                      EvDownloadStoryItem item
                        (stories_dir (profile_username (self s))))
                 (Story.get_items story)) s).
Proof.
  unfold download_stories_with_metadata. mstep.
  mstep_by (apply for_each_download_items). reflexivity.
Qed.

(** A call of [update_metadata_file] that returns has handed one object
    to [json.dump] and touched nothing but the log file. *)
Lemma update_metadata_file_ok (category_key : text) (new_metadata : pydict)
      (timestamp : text) (s s' : state) :
  update_metadata_file category_key new_metadata timestamp s = (Ok tt, s') ->
  exists old metadata metadata',
    lookup_node (fs s) (metadata_file (profile_username (self s)))
    = Some (File old)
    /\ json_loads old = Ok metadata
    /\ merge_metadata metadata category_key new_metadata timestamp
       = Ok metadata'
    /\ s' = {| self := self s;
               fs := <[metadata_file (profile_username (self s)) :=
                         File (overwrite_from_start old (json_dumps metadata'))]>
                       (fs s);
               remote := remote s;
               events := events s
                           ++ [EvJsonDump
                                 (metadata_file (profile_username (self s)))
                                 metadata'] |}.
Proof.
  rewrite update_metadata_file_eq. cbv zeta. intros H.
  destruct (lookup_node _ _) as [[|old]|]; try discriminate.
  destruct (json_loads old) as [metadata|] eqn:Hl; [|discriminate].
  destruct (merge_metadata _ _ _ _) as [metadata'|] eqn:Hm; [|discriminate].
  inversion H. exists old, metadata, metadata'. auto.
Qed.

Lemma downloads_into_app (target : path) (a b : list event) :
  downloads_into target (a ++ b)
  = downloads_into target a ++ downloads_into target b.
Proof. unfold downloads_into. apply flat_map_app. Qed.

Lemma downloads_into_items (target : path) (items : list StoryItem.t) :
  downloads_into target (map (fun item => EvDownloadStoryItem item target) items)
  = items.
Proof.
  induction items as [|x items IH]; [reflexivity|].
  cbn. rewrite bool_decide_eq_true_2 by reflexivity.
  cbn. f_equal. exact IH.
Qed.

Lemma new_highlight_logs_app (a b : list event) :
  new_highlight_logs (a ++ b) = new_highlight_logs a ++ new_highlight_logs b.
Proof. unfold new_highlight_logs. apply flat_map_app. Qed.

Lemma new_highlight_logs_items (target : path) (items : list StoryItem.t) :
  new_highlight_logs (map (fun item => EvDownloadStoryItem item target) items)
  = [].
Proof. induction items; [reflexivity|assumption]. Qed.

Lemma dumps_to_app (file : path) (a b : list event) :
  dumps_to file (a ++ b) = dumps_to file a ++ dumps_to file b.
Proof. unfold dumps_to. apply flat_map_app. Qed.

Lemma dumps_to_items (file target : path) (items : list StoryItem.t) :
  dumps_to file (map (fun item => EvDownloadStoryItem item target) items) = [].
Proof. induction items; [reflexivity|assumption]. Qed.

(** ** C2: the highlight reconciler *)

Lemma is_new_gset (known : list Z) (h : Highlight.t) :
  negb (bool_decide (Highlight.unique_id h ∈ (list_to_set known : gset Z)))
  = is_new known h.
Proof.
  unfold is_new. f_equal. apply bool_decide_ext. apply elem_of_list_to_set.
Qed.

Lemma download_new_highlights_loop (known : list Z) (timestamp : text)
      (candidates : list Highlight.t) :
  forall acc s ids s',
    for_each candidates acc
      (fun new_downloads highlight =>
         if negb (bool_decide
                    (Highlight.unique_id highlight
                       ∈ (list_to_set known : gset Z)))
         then
           emit (EvLogInfo (LogNewHighlight (Highlight.title highlight)
                              (Highlight.itemcount highlight))) >>
           download_highlights_with_metadata highlight timestamp >>
           ret (new_downloads ++ [Highlight.unique_id highlight])
         else ret new_downloads) s
    = (Ok ids, s') ->
    let delta := reconciler_delta_spec known candidates in
    let u := profile_username (self s) in
    ids = acc ++ map Highlight.unique_id delta
    /\ self s' = self s /\ remote s' = remote s
    /\ exists evs,
        events s' = events s ++ evs
        /\ downloads_into (highlights_dir u) evs
           = flat_map Highlight.get_items delta
        /\ new_highlight_logs evs
           = map (fun h => (Highlight.title h, Highlight.itemcount h)) delta
        /\ length (dumps_to (metadata_file u) evs) = length delta.
Proof.
  induction candidates as [|h candidates IH]; intros acc s ids s' Hrun.
  - cbn in Hrun. inversion Hrun; subst. cbn.
    rewrite app_nil_r. repeat split. exists []. now rewrite app_nil_r.
  - cbn [for_each] in Hrun. rewrite is_new_gset in Hrun.
    unfold reconciler_delta_spec. cbn [List.filter].
    destruct (is_new known h) eqn:Hnew.
    + rewrite !bind_assoc in Hrun.
      erewrite bind_ok in Hrun by reflexivity.
      rewrite bind_assoc in Hrun. unfold bind at 1 in Hrun.
      destruct (download_highlights_with_metadata h timestamp _)
        as [[[]|e] s1] eqn:Hdl; [|discriminate].
      erewrite bind_ok in Hrun by reflexivity.
      rewrite download_highlights_with_metadata_eq in Hdl.
      apply update_metadata_file_ok in Hdl
        as (old & md & md' & _ & _ & _ & ->).
      cbn [self with_events emit snd remote events] in *.
      apply IH in Hrun as (Hids & Hself & Hrem & evs & Hev & Hdown & Hlog & Hd).
      cbn [self remote events] in *.
      split; [rewrite Hids, <- app_assoc; reflexivity|].
      split; [assumption|]. split; [assumption|].
      eexists. split; [rewrite Hev, <- !app_assoc; reflexivity|].
      cbn [map flat_map length].
      split; [|split].
      * rewrite !downloads_into_app, downloads_into_items, Hdown.
        cbn. reflexivity.
      * rewrite !new_highlight_logs_app, new_highlight_logs_items.
        cbn. now rewrite Hlog.
      * rewrite !dumps_to_app, dumps_to_items. cbn.
        rewrite bool_decide_eq_true_2 by reflexivity. cbn.
        f_equal. exact Hd.
    + erewrite bind_ok in Hrun by reflexivity.
      apply IH in Hrun. exact Hrun.
Qed.

(** C2.  When [download_new_highlights] returns, what it returns are the
    identifiers of the delta of the specification, in order: the
    candidates whose identifier is not among the known ones and no other;
    and the items it had the provider download, the highlights it
    announced and the log entries it wrote are those of the delta, in the
    same order. *)
Theorem download_new_highlights_delta (target_profile : Profile.t)
        (timestamp : text) (s s' : state) (ids : list Z) :
  download_new_highlights target_profile timestamp s = (Ok ids, s') ->
  let known := downloaded_highlights_list (self s) in
  let candidates := get_highlights (remote s) (Profile.userid target_profile) in
  let delta := reconciler_delta_spec known candidates in
  let u := profile_username (self s) in
  ids = map Highlight.unique_id delta
  /\ (forall h, In h delta
                <-> In h candidates /\ ~ In (Highlight.unique_id h) known)
  /\ exists evs,
      events s' = events s ++ evs
      /\ downloads_into (highlights_dir u) evs
         = flat_map Highlight.get_items delta
      /\ new_highlight_logs evs
         = map (fun h => (Highlight.title h, Highlight.itemcount h)) delta
      /\ length (dumps_to (metadata_file u) evs) = length delta.
Proof.
  intros Hrun known candidates delta u.
  unfold download_new_highlights in Hrun. cbv zeta in Hrun.
  erewrite bind_ok in Hrun by reflexivity.
  erewrite bind_ok in Hrun by reflexivity.
  apply download_new_highlights_loop in Hrun
    as (Hids & _ & _ & evs & Hev & Hdown & Hlog & Hd).
  split; [exact Hids|]. split; [|eauto].
  intros h. unfold delta, reconciler_delta_spec.
  rewrite filter_In. unfold is_new.
  rewrite negb_true_iff, bool_decide_eq_false, list_elem_of_In. reflexivity.
Qed.

Lemma download_new_highlights_delta_witness :
  [102] = map Highlight.unique_id (reconciler_delta_spec [101] [ex_h1; ex_h2])
  /\ (forall h, In h (reconciler_delta_spec [101] [ex_h1; ex_h2])
                <-> In h [ex_h1; ex_h2] /\ ~ In (Highlight.unique_id h) [101])
  /\ exists evs,
      events (snd (download_new_highlights ex_profile ex_time ex_known_h1))
      = events ex_known_h1 ++ evs
      /\ downloads_into (highlights_dir ex_user) evs
         = flat_map Highlight.get_items
             (reconciler_delta_spec [101] [ex_h1; ex_h2])
      /\ new_highlight_logs evs
         = map (fun h => (Highlight.title h, Highlight.itemcount h))
             (reconciler_delta_spec [101] [ex_h1; ex_h2])
      /\ length (dumps_to (metadata_file ex_user) evs)
         = length (reconciler_delta_spec [101] [ex_h1; ex_h2]).
Proof.
  refine (download_new_highlights_delta ex_profile ex_time ex_known_h1
            (snd (download_new_highlights ex_profile ex_time ex_known_h1))
            [102] _).
  vm_compute. reflexivity.
Defined.

(** ** C4: stories are not deduplicated *)

Lemma stories_metadata_keys (story : Story.t) (stories : list pyval) :
  NoDup (map fst (stories_metadata story stories)).
Proof.
  cbn [stories_metadata map fst].
  refine (bool_decide_unpack _ _). vm_compute. exact I.
Qed.

Lemma download_new_stories_loop (timestamp : text) (stories : list Story.t) :
  forall s s',
    for_each stories tt
      (fun _ story =>
         emit (EvLogInfo (LogNewStory (Story.latest_media_utc story))) >>
         download_stories_with_metadata story timestamp) s
    = (Ok tt, s') ->
    let u := profile_username (self s) in
    self s' = self s /\ remote s' = remote s
    /\ exists logs,
        Forall2 (logs_story timestamp) stories logs
        /\ events s' = events s ++ concat (zip_with (story_events u) stories logs).
Proof.
  induction stories as [|story stories IH]; intros s s' Hrun.
  - cbn in Hrun. inversion Hrun; subst. cbn. repeat split.
    exists []. split; [constructor|]. cbn. now rewrite app_nil_r.
  - cbn [for_each] in Hrun. rewrite !bind_assoc in Hrun.
    erewrite bind_ok in Hrun by reflexivity.
    unfold bind at 1 in Hrun.
    destruct (download_stories_with_metadata story timestamp _)
      as [[[]|e] s1] eqn:Hdl; [|discriminate].
    rewrite download_stories_with_metadata_eq in Hdl.
    apply update_metadata_file_ok in Hdl
      as (old & md & md' & _ & _ & Hmerge & ->).
    cbn [self with_events emit snd remote events] in *.
    apply IH in Hrun as (Hself & Hrem & logs & Hlogs & Hev).
    cbn [self remote events] in *.
    split; [assumption|]. split; [assumption|].
    exists (md' :: logs). split.
    + constructor; [|assumption].
      apply merge_metadata_entry in Hmerge as (entry & Hentry & Hkeys);
        [|apply stories_metadata_keys].
      exists entry. split; assumption.
    + rewrite Hev. cbn [zip_with concat]. unfold story_events at 2.
      cbn [app]. rewrite <- !app_assoc. reflexivity.
Qed.

Lemma update_metadata_file_with_stories_list (category_key : text)
      (new_metadata : pydict) (timestamp : text) (l : list text) (s : state) :
  update_metadata_file category_key new_metadata timestamp
    (with_stories_list l s)
  = (fst (update_metadata_file category_key new_metadata timestamp s),
     with_stories_list l
       (snd (update_metadata_file category_key new_metadata timestamp s))).
Proof.
  rewrite !update_metadata_file_eq. cbv zeta.
  cbn [with_stories_list with_self self fs set_downloaded_stories_list
         profile_username].
  destruct (lookup_node _ _) as [[|old]|]; try reflexivity.
  destruct (json_loads old) as [metadata|]; [|reflexivity].
  destruct (merge_metadata _ _ _ _) as [metadata'|]; reflexivity.
Qed.

Lemma for_each_commutes {A B} (T : state -> state) (body : B -> A -> M B)
      (l : list A) :
  (forall acc x s,
     body acc x (T s) = (fst (body acc x s), T (snd (body acc x s)))) ->
  forall acc s,
    for_each l acc body (T s)
    = (fst (for_each l acc body s), T (snd (for_each l acc body s))).
Proof.
  intros Hstep. induction l as [|x l IH]; intros acc s; [reflexivity|].
  cbn [for_each]. unfold bind. rewrite Hstep.
  destruct (body acc x s) as [[a|e] s1]; cbn [fst snd]; [apply IH|reflexivity].
Qed.

Lemma download_new_stories_eq (target_profile : Profile.t) (timestamp : text)
      (s : state) :
  download_new_stories target_profile timestamp s
  = match for_each (get_stories (remote s) [Profile.userid target_profile]) tt
            (fun _ story =>
               emit (EvLogInfo (LogNewStory (Story.latest_media_utc story))) >>
               download_stories_with_metadata story timestamp) s with
    | (Ok _, s1) => (Ok [], s1)
    | (Raise e, s1) => (Raise e, s1)
    end.
Proof.
  unfold download_new_stories. cbv zeta. mstep. mstep. reflexivity.
Qed.

Lemma download_new_stories_with_stories_list (target_profile : Profile.t)
      (timestamp : text) (l : list text) (s : state) :
  download_new_stories target_profile timestamp (with_stories_list l s)
  = (fst (download_new_stories target_profile timestamp s),
     with_stories_list l
       (snd (download_new_stories target_profile timestamp s))).
Proof.
  rewrite !download_new_stories_eq.
  change (remote (with_stories_list l s)) with (remote s).
  rewrite (for_each_commutes (with_stories_list l)).
  - destruct (for_each _ _ _ s) as [[[]|e] s1]; reflexivity.
  - intros [] story s0. unfold bind, emit.
    rewrite !download_stories_with_metadata_eq.
    apply (update_metadata_file_with_stories_list _ _ _ l
             (with_events _ (with_events _ s0))).
Qed.

(** C4.  When [download_new_stories] returns, every story the provider
    enumerated was announced, had each of its items downloaded into the
    stories directory and had its metadata written into the log under
    [stories] and the run's timestamp, in the order of enumeration; and
    the call does the same whatever the downloaded-stories id list
    holds. *)
Theorem download_new_stories_all (target_profile : Profile.t)
        (timestamp : text) (s s' : state) (r : list text) :
  download_new_stories target_profile timestamp s = (Ok r, s') ->
  let u := profile_username (self s) in
  let stories := get_stories (remote s) [Profile.userid target_profile] in
  (exists logs,
     Forall2 (logs_story timestamp) stories logs
     /\ events s' = events s ++ concat (zip_with (story_events u) stories logs)
     /\ downloads_into (stories_dir u)
          (concat (zip_with (story_events u) stories logs))
        = flat_map Story.get_items stories)
  /\ (forall l,
        download_new_stories target_profile timestamp (with_stories_list l s)
        = (Ok r, with_stories_list l s')).
Proof.
  intros Hrun u stories. split.
  - rewrite download_new_stories_eq in Hrun. fold stories in Hrun.
    destruct (for_each stories tt _ s) as [[[]|e] s1] eqn:Hloop;
      [|discriminate].
    inversion Hrun; subst r s1. clear Hrun.
    apply download_new_stories_loop in Hloop as (_ & _ & logs & Hlogs & Hev).
    exists logs. split; [assumption|]. split; [assumption|].
    fold u. clear Hev. induction Hlogs as [|story log stories' logs' _ _ IH].
    + reflexivity.
    + cbn [zip_with concat flat_map]. unfold story_events at 1.
      change (EvLogInfo ?m :: ?a ++ ?b) with ([EvLogInfo m] ++ a ++ b).
      rewrite !downloads_into_app, downloads_into_items, IH.
      cbn. now rewrite app_nil_r.
  - intros l. rewrite download_new_stories_with_stories_list, Hrun.
    reflexivity.
Qed.

Lemma download_new_stories_all_witness :
  (exists logs,
     Forall2 (logs_story ex_time) [ex_story] logs
     /\ events (snd (download_new_stories ex_profile ex_time ex_story_known))
        = events ex_story_known
            ++ concat (zip_with (story_events ex_user) [ex_story] logs)
     /\ downloads_into (stories_dir ex_user)
          (concat (zip_with (story_events ex_user) [ex_story] logs))
        = flat_map Story.get_items [ex_story])
  /\ (forall l,
        download_new_stories ex_profile ex_time
          (with_stories_list l ex_story_known)
        = (Ok [],
           with_stories_list l
             (snd (download_new_stories ex_profile ex_time ex_story_known)))).
Proof.
  refine (download_new_stories_all ex_profile ex_time ex_story_known
            (snd (download_new_stories ex_profile ex_time ex_story_known))
            [] _).
  vm_compute. reflexivity.
Defined.

(** ** C1: highlights across runs *)

Lemma triple_put_self (P Q : state -> Prop) (E : state -> Prop)
      (m : InstagramMonitor) :
  (forall s, P s -> Q (with_self m s)) ->
  triple P (put_self m) (fun _ => Q) E.
Proof. intros H s Hs. cbn. auto. Qed.

Lemma init_knows_nothing (u : string) :
  triple (fun _ => True) (init u) (fun _ => knows u []) (knows u []).
Proof.
  unfold init.
  eapply triple_bind.
  { apply (triple_put_self _ (knows u [])). intros s _. split; reflexivity. }
  intros []. eapply triple_bind.
  { unfold setup_dirs.
    apply (triple_bind_username _ u); [intros s Hs; apply Hs|].
    eapply triple_bind.
    - apply triple_makedirs. intros s f Hs _. exact Hs.
    - intros []. apply triple_makedirs. intros s f Hs _. exact Hs. }
  intros []. unfold setup_metadata_file.
  apply (triple_bind_username _ u); [intros s Hs; apply Hs|].
  apply (triple_bind _ _ _ (fun _ => knows u [])).
  { intros s Hs. exact Hs. }
  intros present. cbv beta. destruct (negb present).
  - apply triple_json_dump_to. intros s Hs. exact Hs.
  - apply triple_ret. auto.
Qed.

Lemma setup_knows (u : string) (l : list Z) :
  triple (knows u l) setup (fun _ => knows u l) (knows u l).
Proof.
  unfold setup.
  apply (triple_bind_username _ u); [intros s Hs; apply Hs|].
  eapply triple_bind.
  { apply triple_makedirs. intros s f Hs _. exact Hs. }
  intros []. unfold load_data.
  apply (triple_bind_username _ u); [intros s Hs; apply Hs|].
  eapply triple_bind; [apply triple_load_json|]. intros v1. cbv beta.
  apply (triple_pre _ (knows u l)); [tauto|].
  eapply triple_bind;
    [apply (triple_modify_self _ (knows u l)); intros s Hs; exact Hs|].
  intros [].
  eapply triple_bind; [apply triple_load_json|]. intros v2. cbv beta.
  apply (triple_pre _ (knows u l)); [tauto|].
  eapply triple_bind;
    [apply (triple_modify_self _ (knows u l)); intros s Hs; exact Hs|].
  intros [].
  eapply triple_bind; [apply triple_load_json|]. intros v3. cbv beta.
  apply (triple_pre _ (knows u l)); [tauto|].
  apply triple_modify_self. intros s Hs. exact Hs.
Qed.

(** Whatever the disk holds, a newly built object reaches the highlight
    phase of its run knowing no highlight: nothing that [__init__] and
    [setup] do assigns [downloaded_highlights_list]. *)
Lemma fresh_instance_knows_nothing (u : string) (s : state) :
  downloaded_highlights_list (self (snd ((init u >> setup) s))) = [].
Proof.
  assert (H : triple (fun _ => True) (init u >> setup)
                (fun _ => knows u []) (knows u [])).
  { eapply triple_bind; [apply init_knows_nothing|].
    intros []. apply setup_knows. }
  specialize (H s I).
  destruct ((init u >> setup) s) as [[[]|e] s1]; apply H.
Qed.

Lemma reconciler_delta_spec_nil (candidates : list Highlight.t) :
  reconciler_delta_spec [] candidates = candidates.
Proof.
  unfold reconciler_delta_spec.
  induction candidates as [|h l IH]; [reflexivity|].
  cbn [List.filter]. unfold is_new at 1.
  rewrite bool_decide_eq_false_2 by apply not_elem_of_nil.
  cbn [negb]. now rewrite IH.
Qed.

(** C1, where the code departs from the specification.  First run on an empty
    disk, two highlights: it ends well, the object's list of known
    highlights is [101; 102], and what [save_data] wrote into
    [downloaded_highlights.json] is the empty mapping [load_data] had put
    in the attribute [downloaded_highlights] (the list lives in
    [downloaded_highlights_list]).  Second run of a newly built object on
    that disk, same two highlights: both are downloaded again, and the
    log is written for both again. *)
Theorem fresh_instance_downloads_known_highlights_again :
  fst ex_run1 = Ok tt
  /\ downloaded_highlights_list (self (snd ex_run1)) = [101; 102]
  /\ file_text (snd ex_run1) (highlights_file ex_user) = json_dumps (PyDict [])
  /\ fst ex_run2 = Ok tt
  /\ downloads_into (highlights_dir ex_user) ex_run2_events
     = [ex_item 11; ex_item 12]
  /\ new_highlight_logs ex_run2_events
     = [ (Highlight.title ex_h1, 1); (Highlight.title ex_h2, 1) ]
  /\ downloaded_highlights_list (self (snd ex_run2)) = [101; 102]
  /\ (exists entry,
        get_in (default PyNone (last (dumps_to (metadata_file ex_user)
                                        ex_run2_events)))
          (str "highlights") ex_later = Some (PyDict entry)
        /\ dict_get entry (str "id") = Some (PyInt 102)).
Proof.
  vm_compute. repeat split; try reflexivity.
  eexists. split; reflexivity.
Qed.

(* ================================================================== *)
(** * Comparing two lists *)

Section CompareFacts.
Context {K : Type} `{Countable K}.

(** X1.  [compare_and_log_changes] logs nothing exactly when the two
    lists have the same elements, whatever their order and however often
    an element is repeated. *)
Theorem compare_and_log_changes_silent (old_list new_list : list K)
        (list_name : text) :
  compare_and_log_changes old_list new_list list_name = []
  <-> (forall x, x ∈ old_list <-> x ∈ new_list).
Proof.
  unfold compare_and_log_changes. cbv zeta. split.
  - intros Hnil. apply app_eq_nil in Hnil as [Ha Hr].
    destruct (bool_decide _) eqn:Ea in Ha; [discriminate|].
    destruct (bool_decide _) eqn:Er in Hr; [discriminate|].
    apply bool_decide_eq_false in Ea, Er.
    apply dec_stable in Ea, Er.
    intros x. split; intros Hx.
    + destruct (decide (x ∈ new_list)) as [|Hn]; [assumption|].
      assert (x ∈ (list_to_set old_list ∖ list_to_set new_list : gset K))
        as Hin by (rewrite elem_of_difference, !elem_of_list_to_set; tauto).
      rewrite Er in Hin. now apply elem_of_empty in Hin.
    + destruct (decide (x ∈ old_list)) as [|Hn]; [assumption|].
      assert (x ∈ (list_to_set new_list ∖ list_to_set old_list : gset K))
        as Hin by (rewrite elem_of_difference, !elem_of_list_to_set; tauto).
      rewrite Ea in Hin. now apply elem_of_empty in Hin.
  - intros Hsame.
    rewrite !bool_decide_eq_false_2; [reflexivity| |].
    + intros Hne. apply Hne. apply set_eq. intros x.
      rewrite elem_of_difference, !elem_of_list_to_set.
      rewrite elem_of_empty. specialize (Hsame x). tauto.
    + intros Hne. apply Hne. apply set_eq. intros x.
      rewrite elem_of_difference, !elem_of_list_to_set.
      rewrite elem_of_empty. specialize (Hsame x). tauto.
Qed.

(** X2.  Comparing the lists the other way round logs the same sets with
    the roles exchanged: what was new is removed, what was removed is
    new. *)
Theorem compare_and_log_changes_swap (old_list new_list : list K)
        (list_name : text) :
  compare_and_log_changes new_list old_list list_name
  = rev (map mirrored (compare_and_log_changes old_list new_list list_name)).
Proof.
  unfold compare_and_log_changes. cbv zeta.
  destruct (bool_decide (list_to_set new_list ∖ list_to_set old_list ≠ ∅));
    destruct (bool_decide (list_to_set old_list ∖ list_to_set new_list ≠ ∅));
    reflexivity.
Qed.

End CompareFacts.

(* ================================================================== *)
(** * The cached profile id *)

(** A result is told by its first component: enough to evaluate it. *)
Lemma pair_fst_snd {A B} (p : A * B) (a : A) : fst p = a -> p = (a, snd p).
Proof. destruct p. cbn. now intros ->. Qed.

Lemma profile_id_record_text (n : Z) :
  json_loads (json_dumps (profile_id_record n)) = Ok (profile_id_record n).
Proof.
  rewrite json_loads_dumps; [reflexivity|].
  vm_compute. reflexivity.
Qed.

Lemma fetch_or_save_profile_id_return (s : state) :
  fetch_or_save_profile_id true s = (Ok (PyInt (current_profile_id s)), s).
Proof. reflexivity. Qed.

Lemma fetch_or_save_profile_id_save (s : state) :
  lookup_node (fs s) (profile_id_file (profile_username (self s)))
  <> Some Dir ->
  fetch_or_save_profile_id false s
  = (Ok PyNone,
     {| self := self s;
        fs := <[profile_id_file (profile_username (self s)) :=
                  File (json_dumps (profile_id_record (current_profile_id s)))]>
                (fs s);
        remote := remote s;
        events := events s
                    ++ [EvJsonDump (profile_id_file (profile_username (self s)))
                          (profile_id_record (current_profile_id s))] |}).
Proof.
  intros Hp. unfold fetch_or_save_profile_id.
  mstep. mstep. cbv zeta.
  mstep_by (apply json_dump_to_ok; [exact Hp|reflexivity]).
  reflexivity.
Qed.

(** Every path through [check_and_update_profile_id]. *)
Lemma check_and_update_profile_id_eq (s : state) :
  let u := profile_username (self s) in
  let saved := profile_id_record (current_profile_id s) in
  let written evs :=
    {| self := self s;
       fs := <[profile_id_file u := File (json_dumps saved)]> (fs s);
       remote := remote s;
       events := events s ++ evs |} in
  let failed e := (Raise e, with_events (events s ++ [EvLogError e]) s) in
  check_and_update_profile_id s
  = match lookup_node (fs s) (profile_id_file u) with
    | None =>
        (Ok tt, written [ EvLogInfo LogProfileIdNotFound;
                          EvJsonDump (profile_id_file u) saved;
                          EvLogInfo LogProfileIdUpToDate ])
    | Some Dir => failed IsADirectoryError
    | Some (File c) =>
        match json_loads c with
        | Raise e => failed e
        | Ok loaded =>
            match subscript_profile_id loaded with
            | Raise e => failed e
            | Ok stored =>
                if py_eq stored (PyInt (current_profile_id s))
                then (Ok tt,
                      with_events
                        (events s ++ [EvLogInfo LogProfileIdUpToDate]) s)
                else (Ok tt, written [ EvLogInfo LogProfileIdChanged;
                                       EvJsonDump (profile_id_file u) saved;
                                       EvLogInfo LogProfileIdUpToDate ])
            end
        end
    end.
Proof.
  intros u saved written failed.
  destruct (lookup_node (fs s) (profile_id_file u)) as [[|c]|] eqn:Hfile.
  - (* a directory *)
    apply try_log_raise_raise.
    mstep. fold u.
    mstep_by (eapply path_exists_true; exact Hfile). cbn [negb].
    mstep.
    erewrite bind_raise; [reflexivity|].
    unfold read_file. now rewrite Hfile.
  - (* a file *)
    destruct (json_loads c) as [loaded|e] eqn:Hload.
    2:{ apply try_log_raise_raise.
        mstep. fold u.
        mstep_by (eapply path_exists_true; exact Hfile). cbn [negb].
        mstep.
        mstep_by (apply read_file_ok; exact Hfile).
        erewrite bind_raise; [reflexivity|].
        unfold lift. now rewrite Hload. }
    destruct (subscript_profile_id loaded) as [stored|e] eqn:Hsub.
    2:{ apply try_log_raise_raise.
        mstep. fold u.
        mstep_by (eapply path_exists_true; exact Hfile). cbn [negb].
        mstep.
        mstep_by (apply read_file_ok; exact Hfile).
        mstep_by (unfold lift; rewrite Hload; reflexivity).
        erewrite bind_raise; [reflexivity|].
        unfold lift. now rewrite Hsub. }
    destruct (py_eq stored (PyInt (current_profile_id s))) eqn:Heq.
    + apply try_log_raise_ok.
      mstep. fold u.
      mstep_by (eapply path_exists_true; exact Hfile). cbn [negb].
      mstep.
      mstep_by (apply read_file_ok; exact Hfile).
      mstep_by (unfold lift; rewrite Hload; reflexivity).
      mstep_by (unfold lift; rewrite Hsub; reflexivity).
      mstep_by (apply fetch_or_save_profile_id_return).
      rewrite Heq. cbn [negb]. mstep. reflexivity.
    + apply try_log_raise_ok.
      mstep. fold u.
      mstep_by (eapply path_exists_true; exact Hfile). cbn [negb].
      mstep.
      mstep_by (apply read_file_ok; exact Hfile).
      mstep_by (unfold lift; rewrite Hload; reflexivity).
      mstep_by (unfold lift; rewrite Hsub; reflexivity).
      mstep_by (apply fetch_or_save_profile_id_return).
      rewrite Heq. cbn [negb]. mstep.
      mstep_by (apply fetch_or_save_profile_id_save; cbn [fs self with_events];
                fold u; rewrite Hfile; discriminate).
      mstep. unfold emit, written, saved, with_events, current_profile_id.
      cbn [self fs remote events]. rewrite <- !app_assoc. reflexivity.
  - (* no file *)
    apply try_log_raise_ok.
    mstep. fold u.
    mstep_by (apply path_exists_false; exact Hfile). cbn [negb].
    mstep.
    mstep_by (apply fetch_or_save_profile_id_save; cbn [fs self with_events];
              fold u; rewrite Hfile; discriminate).
    mstep.
    mstep_by (apply read_file_ok; cbn [fs]; apply lookup_node_insert_eq;
              discriminate).
    mstep_by (unfold lift; cbn [self with_events];
              rewrite profile_id_record_text; reflexivity).
    mstep.
    mstep_by (apply fetch_or_save_profile_id_return).
    unfold current_profile_id. cbn [py_eq self remote with_events].
    rewrite Z.eqb_refl. cbn [negb]. mstep.
    unfold emit, written, saved, with_events, current_profile_id.
    cbn [self fs remote events]. rewrite <- !app_assoc. reflexivity.
Qed.

Lemma check_and_update_profile_id_when_agreeing (s : state) :
  profile_id_agrees s ->
  check_and_update_profile_id s
  = (Ok tt, with_events (events s ++ [EvLogInfo LogProfileIdUpToDate]) s).
Proof.
  intros (c & loaded & stored & Hfile & Hload & Hsub & Heq).
  rewrite check_and_update_profile_id_eq. cbv zeta.
  now rewrite Hfile, Hload, Hsub, Heq.
Qed.

Lemma profile_id_agrees_written (s : state) (evs : list event) :
  profile_id_agrees
    {| self := self s;
       fs := <[profile_id_file (profile_username (self s)) :=
                 File (json_dumps (profile_id_record (current_profile_id s)))]>
               (fs s);
       remote := remote s;
       events := evs |}.
Proof.
  exists (json_dumps (profile_id_record (current_profile_id s))),
         (profile_id_record (current_profile_id s)),
         (PyInt (current_profile_id s)).
  split; [|split; [|split]].
  - cbn [fs self]. apply lookup_node_insert_eq. discriminate.
  - apply profile_id_record_text.
  - reflexivity.
  - unfold current_profile_id. cbn [py_eq self remote]. apply Z.eqb_refl.
Qed.

(** X3.  With no profile-id file on disk, [check_and_update_profile_id]
    says so in the log, saves the provider's id, finds it up to date and
    returns: the file then holds the record of that id and nothing else
    on disk has changed. *)
Theorem check_and_update_profile_id_creates (s : state) :
  let u := profile_username (self s) in
  let saved := profile_id_record (current_profile_id s) in
  lookup_node (fs s) (profile_id_file u) = None ->
  check_and_update_profile_id s
  = (Ok tt,
     {| self := self s;
        fs := <[profile_id_file u := File (json_dumps saved)]> (fs s);
        remote := remote s;
        events := events s ++ [ EvLogInfo LogProfileIdNotFound;
                                EvJsonDump (profile_id_file u) saved;
                                EvLogInfo LogProfileIdUpToDate ] |}).
Proof.
  intros u saved Hfile.
  rewrite check_and_update_profile_id_eq. cbv zeta.
  fold u. now rewrite Hfile.
Qed.

Lemma check_and_update_profile_id_creates_witness :
  check_and_update_profile_id (ex_start [])
  = (Ok tt,
     {| self := fresh_monitor ex_user;
        fs := <[profile_id_file ex_user :=
                  File (json_dumps (profile_id_record 7))]> ∅;
        remote := ex_remote [];
        events := [ EvLogInfo LogProfileIdNotFound;
                    EvJsonDump (profile_id_file ex_user) (profile_id_record 7);
                    EvLogInfo LogProfileIdUpToDate ] |}).
Proof.
  refine (check_and_update_profile_id_creates (ex_start []) _).
  vm_compute. reflexivity.
Defined.

(** X4.  When the profile-id file holds an id equal to the provider's,
    [check_and_update_profile_id] writes nothing: it returns with the
    object, the disk and the provider as they were and one line, "up to
    date", added to the log. *)
Theorem check_and_update_profile_id_unchanged (s : state) (c : text)
        (loaded stored : pyval) :
  lookup_node (fs s) (profile_id_file (profile_username (self s)))
  = Some (File c) ->
  json_loads c = Ok loaded ->
  subscript_profile_id loaded = Ok stored ->
  py_eq stored (PyInt (current_profile_id s)) = true ->
  check_and_update_profile_id s
  = (Ok tt, with_events (events s ++ [EvLogInfo LogProfileIdUpToDate]) s).
Proof.
  intros Hfile Hload Hsub Heq.
  apply check_and_update_profile_id_when_agreeing.
  now exists c, loaded, stored.
Qed.

Lemma check_and_update_profile_id_unchanged_witness :
  check_and_update_profile_id
    (ex_cached (jtext "{'profile_id': 7, 'seen': true}"))
  = (Ok tt,
     with_events [EvLogInfo LogProfileIdUpToDate]
       (ex_cached (jtext "{'profile_id': 7, 'seen': true}"))).
Proof.
  refine (check_and_update_profile_id_unchanged
            (ex_cached (jtext "{'profile_id': 7, 'seen': true}"))
            (jtext "{'profile_id': 7, 'seen': true}")
            (PyDict [ (str "profile_id", PyInt 7);
                      (str "seen", PyBool true) ])
            (PyInt 7) _ _ _ _);
    vm_compute; reflexivity.
Defined.

(** X5.  Whenever [check_and_update_profile_id] returns, the cached id
    agrees with the provider's: the file can be read back and holds an
    equal id under [profile_id]; and calling it again then changes
    nothing on disk and only logs "up to date". *)
Theorem check_and_update_profile_id_settles (s s' : state) :
  check_and_update_profile_id s = (Ok tt, s') ->
  profile_id_agrees s'
  /\ check_and_update_profile_id s'
     = (Ok tt, with_events (events s' ++ [EvLogInfo LogProfileIdUpToDate]) s').
Proof.
  intros Hrun.
  assert (Hagree : profile_id_agrees s').
  { rewrite check_and_update_profile_id_eq in Hrun. cbv zeta in Hrun.
    destruct (lookup_node (fs s) (profile_id_file (profile_username (self s))))
      as [[|c]|] eqn:Hfile.
    - discriminate.
    - destruct (json_loads c) as [loaded|e] eqn:Hload; [|discriminate].
      destruct (subscript_profile_id loaded) as [stored|e] eqn:Hsub;
        [|discriminate].
      destruct (py_eq stored (PyInt (current_profile_id s))) eqn:Heq.
      + inversion Hrun; subst s'. now exists c, loaded, stored.
      + inversion Hrun; subst s'. apply profile_id_agrees_written.
    - inversion Hrun; subst s'. apply profile_id_agrees_written. }
  split; [exact Hagree|].
  now apply check_and_update_profile_id_when_agreeing.
Qed.

Lemma check_and_update_profile_id_settles_witness :
  profile_id_agrees (snd (check_and_update_profile_id
                            (ex_cached (jtext "{'profile_id': 5}"))))
  /\ check_and_update_profile_id
       (snd (check_and_update_profile_id
               (ex_cached (jtext "{'profile_id': 5}"))))
     = (Ok tt,
        with_events
          (events (snd (check_and_update_profile_id
                          (ex_cached (jtext "{'profile_id': 5}"))))
             ++ [EvLogInfo LogProfileIdUpToDate])
          (snd (check_and_update_profile_id
                  (ex_cached (jtext "{'profile_id': 5}"))))).
Proof.
  refine (check_and_update_profile_id_settles
            (ex_cached (jtext "{'profile_id': 5}"))
            (snd (check_and_update_profile_id
                    (ex_cached (jtext "{'profile_id': 5}"))))
            (pair_fst_snd _ _ _)).
  vm_compute. reflexivity.
Defined.



(* ================================================================== *)
(** * The metadata log *)

(** X7.  A call of [update_metadata_file] that raises has changed
    nothing: the log file, the rest of the disk, the object and the trace
    are as they were (the file is written only after the merge went
    through). *)
Theorem update_metadata_file_failure (category_key : text)
        (new_metadata : pydict) (timestamp : text) (s s' : state) (e : exn) :
  update_metadata_file category_key new_metadata timestamp s = (Raise e, s') ->
  s' = s.
Proof.
  rewrite update_metadata_file_eq. cbv zeta. intros Hrun.
  destruct (lookup_node _ _) as [[|old]|]; [congruence| |congruence].
  destruct (json_loads old) as [metadata|e0]; [|congruence].
  destruct (merge_metadata _ _ _ _) as [metadata'|e0]; [discriminate|].
  congruence.
Qed.

Lemma update_metadata_file_failure_witness :
  snd (update_metadata_file (str "highlights") (highlights_metadata ex_h1 [])
         ex_time ex_bare_log)
  = ex_bare_log.
Proof.
  refine (update_metadata_file_failure (str "highlights")
            (highlights_metadata ex_h1 []) ex_time ex_bare_log
            (snd (update_metadata_file (str "highlights")
                    (highlights_metadata ex_h1 []) ex_time ex_bare_log))
            KeyError (pair_fst_snd _ _ _)).
  vm_compute. reflexivity.
Defined.

(** X8.  [update_metadata_file] does not create a category: when the log
    is a JSON object that lacks the category key, the call raises
    [KeyError] and leaves everything as it was. *)
Theorem update_metadata_file_missing_category (category_key : text)
        (new_metadata : pydict) (timestamp : text) (s : state)
        (old : text) (md : pydict) :
  lookup_node (fs s) (metadata_file (profile_username (self s)))
  = Some (File old) ->
  json_loads old = Ok (PyDict md) ->
  dict_get md category_key = None ->
  update_metadata_file category_key new_metadata timestamp s
  = (Raise KeyError, s).
Proof.
  intros Hf Hl Hk. rewrite update_metadata_file_eq. cbv zeta.
  rewrite Hf, Hl. unfold merge_metadata. now rewrite Hk.
Qed.

Lemma update_metadata_file_missing_category_witness :
  update_metadata_file (str "stories") (stories_metadata ex_story [])
    ex_time ex_bare_log
  = (Raise KeyError, ex_bare_log).
Proof.
  refine (update_metadata_file_missing_category (str "stories")
            (stories_metadata ex_story []) ex_time ex_bare_log
            (jtext "{}") [] _ _ _);
    vm_compute; reflexivity.
Defined.

Lemma highlights_metadata_keys (highlight : Highlight.t) (stories : list pyval) :
  NoDup (map fst (highlights_metadata highlight stories)).
Proof.
  cbn [highlights_metadata map fst].
  refine (bool_decide_unpack _ _). vm_compute. exact I.
Qed.

Lemma download_new_highlights_loop_last (known : list Z) (timestamp : text)
      (candidates : list Highlight.t) :
  forall acc s ids s' h,
    for_each candidates acc
      (fun new_downloads highlight =>
         if negb (bool_decide
                    (Highlight.unique_id highlight
                       ∈ (list_to_set known : gset Z)))
         then
           emit (EvLogInfo (LogNewHighlight (Highlight.title highlight)
                              (Highlight.itemcount highlight))) >>
           download_highlights_with_metadata highlight timestamp >>
           ret (new_downloads ++ [Highlight.unique_id highlight])
         else ret new_downloads) s
    = (Ok ids, s') ->
    last (reconciler_delta_spec known candidates) = Some h ->
    exists evs log,
      events s' = events s ++ evs
      /\ last (dumps_to (metadata_file (profile_username (self s))) evs)
         = Some log
      /\ logs_highlight timestamp h log.
Proof.
  induction candidates as [|h0 candidates IH]; intros acc s ids s' h Hrun Hlast.
  - discriminate.
  - cbn [for_each] in Hrun. rewrite is_new_gset in Hrun.
    unfold reconciler_delta_spec in Hlast. cbn [List.filter] in Hlast.
    destruct (is_new known h0) eqn:Hnew.
    + rewrite !bind_assoc in Hrun.
      erewrite bind_ok in Hrun by reflexivity.
      rewrite bind_assoc in Hrun. unfold bind at 1 in Hrun.
      destruct (download_highlights_with_metadata h0 timestamp _)
        as [[[]|e] s1] eqn:Hdl; [|discriminate].
      erewrite bind_ok in Hrun by reflexivity.
      rewrite download_highlights_with_metadata_eq in Hdl.
      apply update_metadata_file_ok in Hdl
        as (old & md & md' & _ & _ & Hmerge & ->).
      cbn [self with_events emit snd remote events] in *.
      fold (reconciler_delta_spec known candidates) in Hlast.
      destruct (reconciler_delta_spec known candidates) as [|h1 rest] eqn:Hd.
      * (* the last new highlight *)
        cbn in Hlast. inversion Hlast; subst h0. clear Hlast.
        apply download_new_highlights_loop in Hrun
          as (_ & _ & _ & evs & Hev & _ & _ & Hlen).
        cbn [self remote events] in *. rewrite Hd in Hlen.
        destruct (dumps_to _ evs) eqn:Hdumps; [|discriminate].
        eexists. exists md'.
        split; [rewrite Hev, <- !app_assoc; reflexivity|].
        split.
        -- rewrite !dumps_to_app, dumps_to_items, Hdumps. cbn.
           now rewrite bool_decide_eq_true_2.
        -- apply merge_metadata_entry in Hmerge as (entry & Hentry & Hkeys);
             [|apply highlights_metadata_keys].
           exists entry. split; assumption.
      * rewrite last_cons_cons in Hlast.
        eapply IH in Hrun as (evs & log & Hev & Hdumps & Hlog);
          [|exact Hlast].
        cbn [self remote events] in *.
        eexists. exists log.
        split; [rewrite Hev, <- !app_assoc; reflexivity|].
        split; [|exact Hlog].
        rewrite !dumps_to_app, !last_app, Hdumps. reflexivity.
    + erewrite bind_ok in Hrun by reflexivity.
      eapply IH in Hrun; eassumption.
Qed.

(** X9.  Every new highlight of a run is logged under the run's one
    timestamp, with the same keys: the log that the last
    [update_metadata_file] of [download_new_highlights] hands to
    [json.dump] has, under [highlights] and the timestamp, the id, title,
    cover, count and items of the last new highlight, whatever was put
    there for the new highlights before it. *)
Theorem download_new_highlights_logs_last (target_profile : Profile.t)
        (timestamp : text) (s s' : state) (ids : list Z) (h : Highlight.t) :
  download_new_highlights target_profile timestamp s = (Ok ids, s') ->
  last (reconciler_delta_spec (downloaded_highlights_list (self s))
          (get_highlights (remote s) (Profile.userid target_profile)))
  = Some h ->
  exists evs log,
    events s' = events s ++ evs
    /\ last (dumps_to (metadata_file (profile_username (self s))) evs)
       = Some log
    /\ logs_highlight timestamp h log.
Proof.
  intros Hrun Hlast.
  unfold download_new_highlights in Hrun. cbv zeta in Hrun.
  erewrite bind_ok in Hrun by reflexivity.
  erewrite bind_ok in Hrun by reflexivity.
  eapply download_new_highlights_loop_last in Hrun; eassumption.
Qed.

Lemma download_new_highlights_logs_last_witness :
  exists evs log,
    events (snd (download_new_highlights ex_profile ex_time
                   (ex_ready [ex_h1; ex_h2])))
    = events (ex_ready [ex_h1; ex_h2]) ++ evs
    /\ last (dumps_to (metadata_file ex_user) evs) = Some log
    /\ logs_highlight ex_time ex_h2 log.
Proof.
  refine (download_new_highlights_logs_last ex_profile ex_time
            (ex_ready [ex_h1; ex_h2])
            (snd (download_new_highlights ex_profile ex_time
                    (ex_ready [ex_h1; ex_h2])))
            [101; 102] ex_h2 (pair_fst_snd _ _ _) _);
    vm_compute; reflexivity.
Defined.

(* ================================================================== *)
(** * What a run keeps

    A property of the state that the statements of a run keep, each under
    the condition it needs, is kept by the methods built from them. *)

Lemma triple_ok {A} (P : state -> Prop) (m : M A) (Q : A -> state -> Prop)
      (E : state -> Prop) (s s' : state) (a : A) :
  triple P m Q E -> P s -> m s = (Ok a, s') -> Q a s'.
Proof. intros H Hs Hm. specialize (H s Hs). now rewrite Hm in H. Qed.

Lemma triple_makedirs_kept (P : state -> Prop) (p : path) :
  (forall s f, P s ->
     (forall q, ~ In q (prefixes_from [] p) -> f !! q = fs s !! q) ->
     (forall q n, fs s !! q = Some n -> f !! q = Some n) ->
     P (with_fs f s)) ->
  triple P (makedirs p) (fun _ => P) P.
Proof.
  intros H s Hs. unfold makedirs, mkdir_p.
  destruct (mkdir_from [] p (fs s)) as [[[]|e] f] eqn:Hm;
    (apply H; [assumption| |];
     [intros q Hq; eapply mkdir_from_frame; eassumption
     |intros q n Hq; eapply mkdir_from_preserves; eassumption]).
Qed.

Section Keeps.
Variable u : string.
Variable Inv : state -> Prop.

Hypothesis Inv_user : forall s, Inv s -> profile_username (self s) = u.
Hypothesis Inv_event :
  forall s e, Inv s -> quiet e -> Inv (with_events (events s ++ [e]) s).
Hypothesis Inv_write_data :
  forall s c, Inv s -> lookup_node (fs s) (data_file u) <> Some Dir ->
              Inv (with_fs (<[data_file u := File c]> (fs s)) s).
Hypothesis Inv_write_log :
  forall s c, Inv s -> lookup_node (fs s) (metadata_file u) <> Some Dir ->
              Inv (with_fs (<[metadata_file u := File c]> (fs s)) s).
Hypothesis Inv_write_highlights :
  forall s v, Inv s -> downloaded_highlights (self s) = Some v ->
              lookup_node (fs s) (highlights_file u) <> Some Dir ->
              Inv (with_fs (<[highlights_file u := File (json_dumps v)]> (fs s)) s).
Hypothesis Inv_write_stories :
  forall s v, Inv s -> downloaded_stories (self s) = Some v ->
              lookup_node (fs s) (stories_file u) <> Some Dir ->
              Inv (with_fs (<[stories_file u := File (json_dumps v)]> (fs s)) s).
Hypothesis Inv_set_data :
  forall s d, Inv s -> Inv (with_self (set_data d (self s)) s).
Hypothesis Inv_more_highlights :
  forall s l, Inv s ->
    Inv (with_self (set_downloaded_highlights_list
                      (downloaded_highlights_list (self s) ++ l) (self s)) s).
Hypothesis Inv_more_stories :
  forall s l, Inv s ->
    Inv (with_self (set_downloaded_stories_list
                      (downloaded_stories_list (self s) ++ l) (self s)) s).
Hypothesis Inv_mkdir :
  forall s f, Inv s ->
    (forall q, ~ In q (prefixes_from [] (data_dir u)) -> f !! q = fs s !! q) ->
    (forall q n, fs s !! q = Some n -> f !! q = Some n) ->
    Inv (with_fs f s).
Hypothesis Inv_load_highlights :
  forall s v, Inv s -> Inv (with_self (set_downloaded_highlights v (self s)) s).
Hypothesis Inv_load_stories :
  forall s v, Inv s -> Inv (with_self (set_downloaded_stories v (self s)) s).

Lemma json_dump_to_keeps (p : path) (v : pyval) (P : state -> Prop) :
  (forall s, P s -> Inv s) ->
  (forall s, P s -> lookup_node (fs s) p <> Some Dir ->
             Inv (with_fs (<[p := File (json_dumps v)]> (fs s)) s)) ->
  triple P (json_dump_to p v) (fun _ => Inv) Inv.
Proof.
  intros HP Hw s Hs. rewrite json_dump_to_eq. unfold write_file.
  destruct (lookup_node (fs s) p) as [[|c0]|] eqn:Hp.
  - now apply HP.
  - destruct (lookup_node (fs s) (parent p)) as [[|c1]|]; try now apply HP.
    apply (Inv_event (with_fs _ s)); [|exact Logic.I].
    apply Hw; [assumption|]. rewrite Hp. discriminate.
  - destruct (lookup_node (fs s) (parent p)) as [[|c1]|]; try now apply HP.
    apply (Inv_event (with_fs _ s)); [|exact Logic.I].
    apply Hw; [assumption|]. rewrite Hp. discriminate.
Qed.

Lemma save_data_keeps : triple Inv save_data (fun _ => Inv) Inv.
Proof.
  unfold save_data, save_json.
  apply (triple_bind_username _ u); [exact Inv_user|].
  apply triple_bind_get_self. intros m.
  eapply triple_bind.
  { apply json_dump_to_keeps; [tauto|].
    intros s [Hs _] Hd. now apply Inv_write_data. }
  intros []. apply triple_bind_get_self. intros m1.
  destruct (downloaded_highlights m1) as [hv|] eqn:Hhv; cbn [attribute].
  2:{ apply triple_raise. tauto. }
  apply triple_bind_ret.
  eapply triple_bind.
  { apply json_dump_to_keeps; [tauto|].
    intros s [Hs Hm] Hd. apply Inv_write_highlights; [assumption| |assumption].
    now rewrite Hm. }
  intros []. apply triple_bind_get_self. intros m2.
  destruct (downloaded_stories m2) as [sv|] eqn:Hsv; cbn [attribute].
  2:{ apply triple_raise. tauto. }
  apply triple_bind_ret.
  apply json_dump_to_keeps; [tauto|].
  intros s [Hs Hm] Hd. apply Inv_write_stories; [assumption| |assumption].
  now rewrite Hm.
Qed.

Lemma update_metadata_file_keeps (category_key : text)
      (new_metadata : pydict) (timestamp : text) :
  triple Inv (update_metadata_file category_key new_metadata timestamp)
    (fun _ => Inv) Inv.
Proof.
  intros s Hs. rewrite update_metadata_file_eq. cbv zeta.
  rewrite (Inv_user s Hs).
  destruct (lookup_node (fs s) (metadata_file u)) as [[|old]|] eqn:Hf;
    try exact Hs.
  destruct (json_loads old) as [metadata|e]; [|exact Hs].
  destruct (merge_metadata metadata category_key new_metadata timestamp)
    as [metadata'|e]; [|exact Hs].
  apply (Inv_event (with_fs _ s)); [|exact Logic.I].
  apply Inv_write_log; [assumption|]. rewrite Hf. discriminate.
Qed.

Lemma download_items_keeps (items : list StoryItem.t) (target : path)
      (f : StoryItem.t -> pyval) (acc : list pyval) :
  triple Inv
    (for_each items acc
       (fun stories item =>
          emit (EvDownloadStoryItem item target) >> ret (stories ++ [f item])))
    (fun _ => Inv) Inv.
Proof.
  apply triple_for_each. intros acc' item.
  apply triple_bind_emit;
    [intros s Hs; apply Inv_event; [assumption|exact Logic.I]|].
  apply triple_ret. auto.
Qed.

Lemma download_highlights_with_metadata_keeps (highlight : Highlight.t)
      (timestamp : text) :
  triple Inv (download_highlights_with_metadata highlight timestamp)
    (fun _ => Inv) Inv.
Proof.
  unfold download_highlights_with_metadata.
  apply (triple_bind_username _ u); [exact Inv_user|].
  eapply triple_bind; [apply download_items_keeps|].
  intros stories. apply update_metadata_file_keeps.
Qed.

Lemma download_stories_with_metadata_keeps (story : Story.t)
      (timestamp : text) :
  triple Inv (download_stories_with_metadata story timestamp)
    (fun _ => Inv) Inv.
Proof.
  unfold download_stories_with_metadata.
  apply (triple_bind_username _ u); [exact Inv_user|].
  eapply triple_bind; [apply download_items_keeps|].
  intros stories. apply update_metadata_file_keeps.
Qed.

Lemma download_new_highlights_keeps (target_profile : Profile.t)
      (timestamp : text) :
  triple Inv (download_new_highlights target_profile timestamp)
    (fun _ => Inv) Inv.
Proof.
  unfold download_new_highlights.
  apply triple_bind_get_self. intros m. cbv zeta.
  apply (triple_pre _ Inv); [tauto|].
  apply triple_bind_get_remote. intros L.
  apply triple_for_each. intros acc highlight.
  destruct (negb _).
  - apply triple_bind_emit;
      [intros s Hs; apply Inv_event; [assumption|exact Logic.I]|].
    eapply triple_bind; [apply download_highlights_with_metadata_keeps|].
    intros []. apply triple_ret. auto.
  - apply triple_ret. auto.
Qed.

Lemma download_new_stories_keeps (target_profile : Profile.t)
      (timestamp : text) :
  triple Inv (download_new_stories target_profile timestamp)
    (fun _ => Inv) Inv.
Proof.
  unfold download_new_stories. cbv zeta.
  apply triple_bind_get_self. intros m.
  apply (triple_pre _ Inv); [tauto|].
  apply triple_bind_get_remote. intros L.
  eapply triple_bind.
  - apply triple_for_each. intros acc story.
    apply triple_bind_emit;
      [intros s Hs; apply Inv_event; [assumption|exact Logic.I]|].
    apply download_stories_with_metadata_keeps.
  - intros []. apply triple_ret. auto.
Qed.

Lemma update_profile_info_keeps (profile : Profile.t) (timestamp : text) :
  triple Inv (update_profile_info profile timestamp) (fun _ => Inv) Inv.
Proof.
  unfold update_profile_info.
  apply triple_bind_get_self. intros m.
  apply (triple_pre _ Inv); [tauto|].
  eapply triple_bind; [apply triple_lift|]. intros data'. cbv beta.
  apply (triple_pre _ Inv); [tauto|].
  eapply triple_bind.
  - apply (triple_modify_self _ Inv). intros s Hs. now apply Inv_set_data.
  - intros []. apply save_data_keeps.
Qed.

Lemma setup_keeps : triple Inv setup (fun _ => Inv) Inv.
Proof.
  unfold setup.
  apply (triple_bind_username _ u); [exact Inv_user|].
  eapply triple_bind.
  { apply triple_makedirs_kept. intros s f Hs Hframe Hkeep.
    now apply Inv_mkdir. }
  intros []. unfold load_data.
  apply (triple_bind_username _ u); [exact Inv_user|].
  eapply triple_bind; [apply triple_load_json|]. intros v1. cbv beta.
  apply (triple_pre _ Inv); [tauto|].
  eapply triple_bind;
    [apply (triple_modify_self _ Inv); intros s Hs; now apply Inv_set_data|].
  intros [].
  eapply triple_bind; [apply triple_load_json|]. intros v2. cbv beta.
  apply (triple_pre _ Inv); [tauto|].
  eapply triple_bind;
    [apply (triple_modify_self _ Inv); intros s Hs;
     now apply Inv_load_highlights|].
  intros [].
  eapply triple_bind; [apply triple_load_json|]. intros v3. cbv beta.
  apply (triple_pre _ Inv); [tauto|].
  apply triple_modify_self. intros s Hs. now apply Inv_load_stories.
Qed.

Lemma run_after_setup_keeps (now : text) :
  triple Inv (run_after_setup now)
    (fun _ s => exists s1,
                  Inv s1
                  /\ s = with_events (events s1 ++ [EvDownloadProfile u]) s1)
    Inv.
Proof.
  unfold run_after_setup.
  apply (triple_bind_username _ u); [exact Inv_user|].
  apply triple_bind_get_remote. intros L. cbv zeta.
  eapply triple_bind; [apply download_new_highlights_keeps|].
  intros new_h. cbv beta.
  eapply triple_bind;
    [apply (triple_modify_self _ Inv); intros s0 Hs0;
     now apply Inv_more_highlights|].
  intros [].
  eapply triple_bind; [apply save_data_keeps|]. intros [].
  eapply triple_bind; [apply download_new_stories_keeps|].
  intros new_s. cbv beta.
  eapply triple_bind;
    [apply (triple_modify_self _ Inv); intros s0 Hs0;
     now apply Inv_more_stories|].
  intros [].
  eapply triple_bind; [apply save_data_keeps|]. intros [].
  eapply triple_bind; [apply update_profile_info_keeps|]. intros [].
  intros s0 Hs0. cbn. exists s0. split; [assumption|reflexivity].
Qed.

(** A whole run: it ends with the call of [download_profile], or with
    the error line of the exception it raises again, and up to there the
    property is kept. *)
Lemma run_monitor_keeps (now : text) (s : state) :
  Inv s ->
  exists s1,
    Inv s1
    /\ snd (run_monitor now s)
       = with_events
           (events s1
              ++ [match fst (run_monitor now s) with
                  | Ok _ => EvDownloadProfile u
                  | Raise e => EvLogError e
                  end]) s1.
Proof.
  change (run_monitor now) with (try_log_raise (setup >> run_after_setup now)).
  intros Hs. unfold try_log_raise.
  assert (Hb : triple Inv (setup >> run_after_setup now)
                 (fun _ s' =>
                    exists s1,
                      Inv s1
                      /\ s' = with_events
                                (events s1 ++ [EvDownloadProfile u]) s1)
                 Inv).
  { eapply triple_bind; [apply setup_keeps|]. intros [].
    apply run_after_setup_keeps. }
  specialize (Hb s Hs).
  destruct ((setup >> run_after_setup now) s) as [[[]|e] s1]; cbn [fst snd].
  - exact Hb.
  - exists s1. split; [assumption|reflexivity].
Qed.

End Keeps.

(* ================================================================== *)
(** * A run as a whole *)

Lemma trace_grown_event (s0 s : state) (e : event) :
  trace_grown s0 s -> quiet e ->
  trace_grown s0 (with_events (events s ++ [e]) s).
Proof.
  intros (Hu & evs & Hev & Hq) He. split; [exact Hu|].
  exists (evs ++ [e]). cbn [events with_events]. split.
  - now rewrite Hev, app_assoc.
  - apply Forall_app. split; [assumption|]. now constructor.
Qed.

(** X10.  The trace of a run.  Whatever the disk and the provider hold,
    [run_monitor] calls [download_profile] only as its very last act and
    only when everything before went through, and logs an error only as
    its very last act, for the exception it raises again: the events of
    the run are downloads, "new highlight" and "new story" lines and
    [json.dump]s, followed by exactly one of the two. *)
Theorem run_monitor_trace (now : text) (s : state) :
  exists evs,
    Forall quiet evs
    /\ events (snd (run_monitor now s))
       = events s ++ evs
           ++ [match fst (run_monitor now s) with
               | Ok _ => EvDownloadProfile (profile_username (self s))
               | Raise e => EvLogError e
               end].
Proof.
  pose proof (run_monitor_keeps (profile_username (self s)) (trace_grown s))
    as H.
  assert (Hkeep : forall s1 s2, trace_grown s s1 ->
            profile_username (self s2) = profile_username (self s1) ->
            events s2 = events s1 -> trace_grown s s2).
  { intros s1 s2 (Hu & Hev) Hu2 He2. split; [congruence|].
    now rewrite He2. }
  specialize (H ltac:(intros s1 Hs1; apply Hs1)
                (trace_grown_event s)
                ltac:(intros s1 c Hs1 _; now apply (Hkeep s1))
                ltac:(intros s1 c Hs1 _; now apply (Hkeep s1))
                ltac:(intros s1 v Hs1 _ _; now apply (Hkeep s1))
                ltac:(intros s1 v Hs1 _ _; now apply (Hkeep s1))
                ltac:(intros s1 d Hs1; now apply (Hkeep s1))
                ltac:(intros s1 l Hs1; now apply (Hkeep s1))
                ltac:(intros s1 l Hs1; now apply (Hkeep s1))
                ltac:(intros s1 f Hs1 _ _; now apply (Hkeep s1))
                ltac:(intros s1 v Hs1; now apply (Hkeep s1))
                ltac:(intros s1 v Hs1; now apply (Hkeep s1))
                now s).
  assert (H0 : trace_grown s s).
  { split; [reflexivity|]. exists []. now rewrite app_nil_r. }
  destruct (H H0) as (s1 & (_ & evs & Hev & Hq) & Hs').
  exists evs. split; [assumption|].
  rewrite Hs'. cbn [events with_events]. now rewrite Hev, app_assoc.
Qed.

Lemma disk_kept_same (s0 s1 s2 : state) :
  disk_kept s0 s1 ->
  profile_username (self s2) = profile_username (self s1) ->
  fs s2 = fs s1 ->
  disk_kept s0 s2.
Proof.
  intros (Hu & Hframe & Hdir & Hfile) Hu2 Hfs.
  split; [congruence|]. now rewrite Hfs.
Qed.

Lemma disk_kept_write (s0 s : state) (p : path) (c : text) :
  disk_kept s0 s ->
  In p (run_files (profile_username (self s0))) ->
  lookup_node (fs s) p <> Some Dir ->
  disk_kept s0 (with_fs (<[p := File c]> (fs s)) s).
Proof.
  intros (Hu & Hframe & Hdir & Hfile) Hp Hnd.
  assert (Hlook : lookup_node (fs s) p = fs s !! p).
  { destruct Hp as [<-|[<-|[<-|[<-|[]]]]]; reflexivity. }
  rewrite Hlook in Hnd.
  split; [exact Hu|]. cbn [fs with_fs]. split; [|split].
  - intros q Hq. rewrite lookup_insert_ne; [now apply Hframe|].
    intros <-. apply Hq. unfold run_paths. apply in_or_app. now right.
  - intros q Hq. destruct (decide (p = q)) as [<-|Hne].
    + exfalso. apply Hnd. now apply Hdir.
    + rewrite lookup_insert_ne by assumption. now apply Hdir.
  - intros q c0 Hq. destruct (decide (p = q)) as [<-|Hne].
    + rewrite lookup_insert_eq. eauto.
    + rewrite lookup_insert_ne by assumption. eapply Hfile; eassumption.
Qed.

(** X11.  The footprint of a run on the disk, the files the provider
    library writes while it downloads apart (those are calls in the
    trace).  Whatever happens, the statements of [run_monitor] leave
    every path other than [output], the data directory, [data.json],
    [metadata.json] and the two id files exactly as it was, the
    profile-id file among them; and no directory or regular file that
    existed is gone or has become the other kind. *)
Theorem run_monitor_footprint (now : text) (s : state) :
  (forall q, ~ In q (run_paths (profile_username (self s))) ->
             fs (snd (run_monitor now s)) !! q = fs s !! q)
  /\ (forall q, fs s !! q = Some Dir ->
                fs (snd (run_monitor now s)) !! q = Some Dir)
  /\ (forall q c, fs s !! q = Some (File c) ->
                  exists c', fs (snd (run_monitor now s)) !! q
                             = Some (File c')).
Proof.
  set (u := profile_username (self s)).
  pose proof (run_monitor_keeps u (disk_kept s)) as H.
  specialize (H ltac:(intros s1 Hs1; apply Hs1)
                ltac:(intros s1 e Hs1 _; now apply (disk_kept_same s s1))
                ltac:(intros s1 c Hs1 Hd; apply disk_kept_write;
                      [assumption|cbn; tauto|assumption])
                ltac:(intros s1 c Hs1 Hd; apply disk_kept_write;
                      [assumption|cbn; tauto|assumption])
                ltac:(intros s1 v Hs1 _ Hd; apply disk_kept_write;
                      [assumption|cbn; tauto|assumption])
                ltac:(intros s1 v Hs1 _ Hd; apply disk_kept_write;
                      [assumption|cbn; tauto|assumption])
                ltac:(intros s1 d Hs1; now apply (disk_kept_same s s1))
                ltac:(intros s1 l Hs1; now apply (disk_kept_same s s1))
                ltac:(intros s1 l Hs1; now apply (disk_kept_same s s1))).
  assert (Hmk : forall s1 f, disk_kept s s1 ->
            (forall q, ~ In q (prefixes_from [] (data_dir u)) ->
                       f !! q = fs s1 !! q) ->
            (forall q n, fs s1 !! q = Some n -> f !! q = Some n) ->
            disk_kept s (with_fs f s1)).
  { intros s1 f (Hu & Hframe & Hdir & Hfile) Hfr Hkeep.
    split; [exact Hu|]. cbn [fs with_fs]. split; [|split].
    - intros q Hq. rewrite Hfr; [now apply Hframe|].
      intros Hin. apply Hq. unfold run_paths. apply in_or_app. now left.
    - intros q Hq. apply Hkeep. now apply Hdir.
    - intros q c Hq. destruct (Hfile q c Hq) as [c' Hc'].
      exists c'. now apply Hkeep. }
  specialize (H Hmk
                ltac:(intros s1 v Hs1; now apply (disk_kept_same s s1))
                ltac:(intros s1 v Hs1; now apply (disk_kept_same s s1))
                now s).
  assert (H0 : disk_kept s s).
  { split; [reflexivity|]. split; [reflexivity|]. split; [tauto|eauto]. }
  destruct (H H0) as (s1 & (_ & Hframe & Hdir & Hfile) & Hs').
  rewrite Hs'. cbn [fs with_events]. auto.
Qed.

Lemma triple_raising {A} (P : state -> Prop) (m : M A)
      (Q : A -> state -> Prop) (E E' : state -> Prop) :
  triple P m Q E -> (forall s, E s -> E' s) -> triple P m Q E'.
Proof. intros Hm HE. eapply triple_conseq; eauto. Qed.

Lemma highlights_file_not_under_data_dir (u : string) :
  ~ In (highlights_file u) (prefixes_from [] (data_dir u)).
Proof.
  unfold highlights_file, data_dir. cbn. intros [H|[H|[]]]; discriminate.
Qed.

Lemma highlights_as_found_kept (u : string) (n : option node) (s : state) :
  highlights_as_found u n s -> highlights_kept u n s.
Proof. intros (_ & Hf). now left. Qed.

Lemma highlights_as_loaded_kept (u : string) (n : option node) (v : pyval)
      (s : state) :
  loaded_from n = Ok v -> highlights_as_loaded u n v s -> highlights_kept u n s.
Proof. intros Hv (_ & _ & [Hf|Hf]); [now left|right; eauto]. Qed.

Lemma setup_highlights_loaded (u : string) (n : option node) :
  triple (highlights_as_found u n) setup
    (fun _ s => exists v, loaded_from n = Ok v
                          /\ highlights_as_loaded u n v s)
    (highlights_kept u n).
Proof.
  set (P0 := highlights_as_found u n). unfold setup.
  apply (triple_bind_username _ u); [intros s Hs; apply Hs|].
  eapply triple_bind.
  { eapply triple_raising; [|apply highlights_as_found_kept].
    apply triple_makedirs. intros s f (Hu & Hf) Hframe.
    split; [assumption|]. cbn [fs with_fs].
    rewrite Hframe; [assumption|apply highlights_file_not_under_data_dir]. }
  intros []. unfold load_data.
  apply (triple_bind_username _ u); [intros s Hs; apply Hs|].
  eapply triple_bind.
  { eapply triple_raising; [apply triple_load_json|].
    apply highlights_as_found_kept. }
  intros v1. cbv beta.
  apply (triple_pre _ P0); [tauto|].
  eapply triple_bind;
    [apply (triple_modify_self _ P0); intros s Hs; exact Hs|].
  intros [].
  eapply triple_bind.
  { eapply triple_raising; [apply triple_load_json|].
    apply highlights_as_found_kept. }
  intros v2. cbv beta.
  eapply triple_bind.
  { apply (triple_modify_self _
             (fun s => loaded_from n = Ok v2 /\ highlights_as_loaded u n v2 s)).
    intros s ((Hu & Hf) & Hload).
    change (lookup_node (fs s) (highlights_file u))
      with (fs s !! highlights_file u) in Hload.
    rewrite Hf in Hload. split; [assumption|].
    repeat split; try assumption. now left. }
  intros [].
  eapply triple_bind.
  { eapply triple_raising; [apply triple_load_json|].
    intros s (Hl & Hs). eapply highlights_as_loaded_kept; eassumption. }
  intros v3. cbv beta.
  apply triple_modify_self. intros s ((Hl & Hs) & _).
  exists v2. split; [assumption|exact Hs].
Qed.

Lemma run_after_setup_highlights_kept (u : string) (n : option node)
      (v : pyval) (now : text) :
  triple (highlights_as_loaded u n v) (run_after_setup now)
    (fun _ => highlights_as_loaded u n v) (highlights_as_loaded u n v).
Proof.
  assert (Hsame : forall s1 s2, highlights_as_loaded u n v s1 ->
            profile_username (self s2) = profile_username (self s1) ->
            downloaded_highlights (self s2) = downloaded_highlights (self s1) ->
            fs s2 = fs s1 -> highlights_as_loaded u n v s2).
  { intros s1 s2 (Hu & Ha & Hf) Hu2 Ha2 Hfs.
    split; [congruence|]. split; [congruence|]. now rewrite Hfs. }
  assert (Hother : forall s1 p c, highlights_as_loaded u n v s1 ->
            p <> highlights_file u ->
            highlights_as_loaded u n v (with_fs (<[p := File c]> (fs s1)) s1)).
  { intros s1 p c (Hu & Ha & Hf) Hp. repeat split; try assumption.
    cbn [fs with_fs]. now rewrite lookup_insert_ne. }
  pose proof (run_after_setup_keeps u (highlights_as_loaded u n v)) as H.
  eapply triple_conseq; [apply H| | |]; clear H.
  - intros s1 Hs1. apply Hs1.
  - intros s1 e Hs1 _. now apply (Hsame s1).
  - intros s1 c Hs1 _. apply Hother; [assumption|paths_differ].
  - intros s1 c Hs1 _. apply Hother; [assumption|paths_differ].
  - intros s1 v' (Hu & Ha & Hf) Hv' _.
    assert (v' = v) as -> by congruence.
    repeat split; try assumption. right. cbn [fs with_fs].
    apply lookup_insert_eq.
  - intros s1 v' Hs1 _ _. apply Hother; [assumption|paths_differ].
  - intros s1 d Hs1. now apply (Hsame s1).
  - intros s1 l Hs1. now apply (Hsame s1).
  - intros s1 l Hs1. now apply (Hsame s1).
  - auto.
  - intros [] s' (s1 & Hs1 & ->). now apply (Hsame s1).
  - auto.
Qed.

(** X12.  Nothing a run learns about highlights reaches
    [downloaded_highlights.json]: however the run ends, the file is as
    it was, or holds again the value [load_data] read from it at the
    start of the run (the ids gathered in [downloaded_highlights_list]
    are in another attribute, which [save_data] does not write). *)
Theorem run_monitor_records_no_highlight_id (now : text) (s : state) :
  let u := profile_username (self s) in
  let s' := snd (run_monitor now s) in
  fs s' !! highlights_file u = fs s !! highlights_file u
  \/ exists v, fst (load_json (highlights_file u) s) = Ok v
               /\ fs s' !! highlights_file u = Some (File (json_dumps v)).
Proof.
  intros u s'.
  assert (H : triple (highlights_as_found u (fs s !! highlights_file u))
                (setup >> run_after_setup now)
                (fun _ => highlights_kept u (fs s !! highlights_file u))
                (highlights_kept u (fs s !! highlights_file u))).
  { eapply triple_bind; [apply setup_highlights_loaded|].
    intros []. apply triple_exists. intros v.
    apply (triple_fact _ (loaded_from (fs s !! highlights_file u) = Ok v));
      [tauto|].
    intros Hv.
    eapply triple_conseq;
      [apply (run_after_setup_highlights_kept u (fs s !! highlights_file u) v)
      | | |].
    - tauto.
    - intros a s1 Hs1. eapply highlights_as_loaded_kept; eassumption.
    - intros s1 Hs1. eapply highlights_as_loaded_kept; eassumption. }
  specialize (H s ltac:(split; reflexivity)).
  assert (Hk : highlights_kept u (fs s !! highlights_file u) s').
  { unfold s'.
    change (run_monitor now)
      with (try_log_raise (setup >> run_after_setup now)).
    unfold try_log_raise.
    destruct ((setup >> run_after_setup now) s) as [[[]|e] s1]; exact H. }
  destruct Hk as [Hk|(v & Hv & Hk)]; [now left|].
  right. exists v. split; [|exact Hk].
  rewrite load_json_eq. exact Hv.
Qed.

(* ================================================================== *)
(** * Highlights the object knows *)

Lemma download_new_highlights_loop_known (known : list Z) (timestamp : text)
      (candidates : list Highlight.t) :
  (forall h, In h candidates -> In (Highlight.unique_id h) known) ->
  forall acc s,
    for_each candidates acc
      (fun new_downloads highlight =>
         if negb (bool_decide
                    (Highlight.unique_id highlight
                       ∈ (list_to_set known : gset Z)))
         then
           emit (EvLogInfo (LogNewHighlight (Highlight.title highlight)
                              (Highlight.itemcount highlight))) >>
           download_highlights_with_metadata highlight timestamp >>
           ret (new_downloads ++ [Highlight.unique_id highlight])
         else ret new_downloads) s
    = (Ok acc, s).
Proof.
  induction candidates as [|h candidates IH]; intros Hknown acc s.
  - reflexivity.
  - cbn [for_each].
    rewrite bool_decide_eq_true_2.
    2:{ apply elem_of_list_to_set, list_elem_of_In, Hknown. now left. }
    cbn [negb]. mstep. apply IH. intros h' Hh'. apply Hknown. now right.
Qed.

(** X13.  When the object already knows the identifier of every highlight
    the provider enumerates, [download_new_highlights] returns the empty
    list and does nothing at all: no download, no log line, and the
    metadata log is not even opened (the call returns on a disk without
    one). *)
Theorem download_new_highlights_nothing_new (target_profile : Profile.t)
        (timestamp : text) (s : state) :
  (forall h, In h (get_highlights (remote s) (Profile.userid target_profile)) ->
             In (Highlight.unique_id h) (downloaded_highlights_list (self s))) ->
  download_new_highlights target_profile timestamp s = (Ok [], s).
Proof.
  intros Hknown. unfold download_new_highlights. cbv zeta.
  mstep. mstep. now apply download_new_highlights_loop_known.
Qed.

Lemma download_new_highlights_nothing_new_witness :
  download_new_highlights ex_profile ex_time ex_all_known
  = (Ok [], ex_all_known).
Proof.
  refine (download_new_highlights_nothing_new ex_profile ex_time
            ex_all_known _).
  intros h [<-|[<-|[]]]; cbn; tauto.
Defined.

Lemma bind_ok_inv {A B} (m : M A) (k : A -> M B) (s s' : state) (b : B) :
  bind m k s = (Ok b, s') ->
  exists a s1, m s = (Ok a, s1) /\ k a s1 = (Ok b, s').
Proof.
  unfold bind. destruct (m s) as [[a|e] s1]; [|discriminate].
  intros H. now exists a, s1.
Qed.

Lemma try_log_raise_ok_inv {A} (body : M A) (s s' : state) (a : A) :
  try_log_raise body s = (Ok a, s') -> body s = (Ok a, s').
Proof.
  unfold try_log_raise. destruct (body s) as [[a0|e] s1]; [|discriminate].
  intros H. exact H.
Qed.

Ltac keep_learnt :=
  intros;
  repeat match goal with
         | H : learnt _ _ _ _ |- _ => destruct H as (? & ? & ?)
         end;
  repeat split; cbn; assumption.

Lemma in_delta_or_known (known : list Z) (candidates : list Highlight.t)
      (h : Highlight.t) :
  In h candidates ->
  In (Highlight.unique_id h)
     (known ++ map Highlight.unique_id (reconciler_delta_spec known candidates)).
Proof.
  intros Hin. apply in_or_app.
  destruct (is_new known h) eqn:Hnew.
  - right. apply in_map. unfold reconciler_delta_spec.
    apply filter_In. now split.
  - left. unfold is_new in Hnew. apply negb_false_iff in Hnew.
    apply bool_decide_eq_true in Hnew. now apply list_elem_of_In.
Qed.

(** X14.  A run that ends well leaves the object knowing every highlight
    the provider enumerated: its list has grown by the identifiers of
    the new ones, in order, so that the same object, asked again while
    the provider enumerates the same highlights, finds nothing new. *)
Theorem run_monitor_learns_highlights (now : text) (s s' : state) :
  run_monitor now s = (Ok tt, s') ->
  let u := profile_username (self s) in
  let target_profile := from_username (remote s) u in
  let known := downloaded_highlights_list (self s) in
  let candidates :=
    get_highlights (remote s) (Profile.userid target_profile) in
  profile_username (self s') = u
  /\ remote s' = remote s
  /\ downloaded_highlights_list (self s')
     = known ++ map Highlight.unique_id (reconciler_delta_spec known candidates)
  /\ (forall timestamp,
        download_new_highlights target_profile timestamp s' = (Ok [], s')).
Proof.
  intros Hrun u target_profile known candidates.
  set (L := remote s).
  set (delta := reconciler_delta_spec known candidates).
  assert (Hend : learnt u L (known ++ map Highlight.unique_id delta) s').
  { apply try_log_raise_ok_inv in Hrun.
    apply bind_ok_inv in Hrun as ([] & s1 & Hsetup & Hrun).
    (* setup *)
    assert (H1 : learnt u L known s1).
    { apply (triple_ok (learnt u L known) setup
               (fun _ => learnt u L known) (learnt u L known) s s1 tt);
        [|split; [|split]; reflexivity|exact Hsetup].
      apply (setup_keeps u); keep_learnt. }
    destruct H1 as (Hu1 & HL1 & Hl1).
    (* the highlights *)
    unfold run_after_setup in Hrun.
    erewrite bind_ok in Hrun by reflexivity.
    erewrite bind_ok in Hrun by reflexivity.
    cbv zeta in Hrun.
    apply bind_ok_inv in Hrun as (ids & s2 & Hdl & Hrun).
    unfold download_new_highlights in Hdl. cbv zeta in Hdl.
    erewrite bind_ok in Hdl by reflexivity.
    erewrite bind_ok in Hdl by reflexivity.
    apply download_new_highlights_loop in Hdl
      as (Hids & Hself & Hrem & _).
    cbn [app] in Hids. rewrite Hu1, HL1, Hl1 in Hids.
    fold target_profile candidates delta in Hids.
    erewrite bind_ok in Hrun by reflexivity.
    set (s3 := with_self _ s2) in Hrun.
    assert (H3 : learnt u L (known ++ ids) s3).
    { unfold s3. repeat split; cbn; congruence. }
    clearbody s3. subst ids.
    (* the rest of the run *)
    match type of Hrun with
    | ?rest s3 = _ =>
        assert (Hrest : triple
                  (learnt u L (known ++ map Highlight.unique_id delta))
                  rest
                  (fun _ => learnt u L (known ++ map Highlight.unique_id delta))
                  (learnt u L (known ++ map Highlight.unique_id delta)))
    end.
    { eapply triple_bind; [apply (save_data_keeps u); keep_learnt|].
      intros [].
      eapply triple_bind;
        [apply (download_new_stories_keeps u); keep_learnt|].
      intros new_s. cbv beta.
      eapply triple_bind;
        [apply (triple_modify_self _
                  (learnt u L (known ++ map Highlight.unique_id delta)));
         keep_learnt|].
      intros [].
      eapply triple_bind; [apply (save_data_keeps u); keep_learnt|].
      intros [].
      eapply triple_bind;
        [apply (update_profile_info_keeps u); keep_learnt|].
      intros []. apply triple_emit. keep_learnt. }
    exact (triple_ok _ _ (fun _ => _) _ s3 s' tt Hrest H3 Hrun). }
  destruct Hend as (Hu & HL & Hl).
  split; [exact Hu|]. split; [exact HL|]. split; [exact Hl|].
  intros timestamp. unfold download_new_highlights. cbv zeta.
  mstep. mstep. apply download_new_highlights_loop_known.
  intros h Hh. rewrite Hl. rewrite HL in Hh.
  now apply in_delta_or_known.
Qed.

Lemma run_monitor_learns_highlights_witness :
  profile_username
    (self (snd (run_monitor ex_time (ex_ready [ex_h1; ex_h2])))) = ex_user
  /\ remote (snd (run_monitor ex_time (ex_ready [ex_h1; ex_h2])))
     = ex_remote [ex_h1; ex_h2]
  /\ downloaded_highlights_list
       (self (snd (run_monitor ex_time (ex_ready [ex_h1; ex_h2]))))
     = [] ++ map Highlight.unique_id
               (reconciler_delta_spec [] [ex_h1; ex_h2])
  /\ (forall timestamp,
        download_new_highlights ex_profile timestamp
          (snd (run_monitor ex_time (ex_ready [ex_h1; ex_h2])))
        = (Ok [], snd (run_monitor ex_time (ex_ready [ex_h1; ex_h2])))).
Proof.
  refine (run_monitor_learns_highlights ex_time (ex_ready [ex_h1; ex_h2])
            (snd (run_monitor ex_time (ex_ready [ex_h1; ex_h2])))
            (pair_fst_snd _ _ _)).
  vm_compute. reflexivity.
Defined.

(* ================================================================== *)
(** * Saving and loading the three files *)

Lemma save_json_raise (filename : path) (v : pyval) (s s' : state) (e : exn) :
  save_json filename v s = (Raise e, s') -> s' = s.
Proof.
  unfold save_json. rewrite json_dump_to_eq.
  destruct (write_file filename (json_dumps v) s) as [[[]|e0] s1] eqn:Hw;
    [discriminate|].
  apply write_file_fail in Hw as ->. congruence.
Qed.

Lemma save_json_state (filename : path) (v : pyval) (s s' : state) :
  save_json filename v s = (Ok tt, s') ->
  s' = {| self := self s;
          fs := <[filename := File (json_dumps v)]> (fs s);
          remote := remote s;
          events := events s ++ [EvJsonDump filename v] |}.
Proof.
  intros H. apply save_json_inv in H as (_ & Hfs & Hself & Hrem & Hev).
  destruct s'. cbn in *. congruence.
Qed.

(** A [save_data] that returns has written the three attributes, in the
    order of [data_file_mapping]. *)
Lemma save_data_ok (s s' : state) :
  save_data s = (Ok tt, s') ->
  let u := profile_username (self s) in
  exists hv sv,
    downloaded_highlights (self s) = Some hv
    /\ downloaded_stories (self s) = Some sv
    /\ s' = {| self := self s;
               fs := <[stories_file u := File (json_dumps sv)]>
                       (<[highlights_file u := File (json_dumps hv)]>
                          (<[data_file u := File (json_dumps (data (self s)))]>
                             (fs s)));
               remote := remote s;
               events := events s
                           ++ [ EvJsonDump (data_file u) (data (self s));
                                EvJsonDump (highlights_file u) hv;
                                EvJsonDump (stories_file u) sv ] |}.
Proof.
  intros Hrun u. unfold save_data in Hrun.
  erewrite bind_ok in Hrun by reflexivity.
  erewrite bind_ok in Hrun by reflexivity. fold u in Hrun.
  apply bind_ok_inv in Hrun as ([] & s1 & H1 & Hrun).
  apply save_json_state in H1. subst s1.
  erewrite bind_ok in Hrun by reflexivity. cbn [self] in Hrun.
  destruct (downloaded_highlights (self s)) as [hv|]; [|discriminate].
  cbn [attribute] in Hrun. erewrite bind_ok in Hrun by reflexivity.
  apply bind_ok_inv in Hrun as ([] & s2 & H2 & Hrun).
  apply save_json_state in H2. subst s2. cbn [self fs remote events] in Hrun.
  erewrite bind_ok in Hrun by reflexivity. cbn [self] in Hrun.
  destruct (downloaded_stories (self s)) as [sv|]; [|discriminate].
  cbn [attribute] in Hrun. erewrite bind_ok in Hrun by reflexivity.
  apply save_json_state in Hrun. subst s'. cbn [self fs remote events].
  exists hv, sv. split; [reflexivity|]. split; [reflexivity|].
  now rewrite <- !app_assoc.
Qed.

(** X15.  [save_data] needs [load_data] to have run.  On an object whose
    attribute [downloaded_highlights] was never created, it writes
    [data.json] and then raises [KeyError]; whatever happens, it does not
    return and the two id files are not touched. *)
Theorem save_data_before_load_data (s : state) :
  downloaded_highlights (self s) = None ->
  let u := profile_username (self s) in
  let s' := snd (save_data s) in
  (exists e, fst (save_data s) = Raise e)
  /\ fs s' !! highlights_file u = fs s !! highlights_file u
  /\ fs s' !! stories_file u = fs s !! stories_file u
  /\ (fst (save_json (data_file u) (data (self s)) s) = Ok tt ->
      fst (save_data s) = Raise KeyError
      /\ fs s' !! data_file u
         = Some (File (json_dumps (data (self s))))).
Proof.
  intros Hnone u s'. unfold s'. clear s'. unfold save_data.
  erewrite bind_ok by reflexivity.
  erewrite bind_ok by reflexivity. fold u.
  destruct (save_json (data_file u) (data (self s)) s) as [[[]|e] s1] eqn:H1.
  - erewrite bind_ok by exact H1.
    apply save_json_state in H1. subst s1.
    erewrite bind_ok by reflexivity. cbn [self]. rewrite Hnone.
    cbn [attribute]. erewrite bind_raise by reflexivity.
    cbn [fst snd fs].
    split; [eauto|].
    split; [apply lookup_insert_ne; paths_differ|].
    split; [apply lookup_insert_ne; paths_differ|].
    intros _. split; [reflexivity|apply lookup_insert_eq].
  - erewrite bind_raise by exact H1.
    apply save_json_raise in H1. subst s1. cbn [fst snd].
    split; [eauto|]. split; [reflexivity|]. split; [reflexivity|].
    discriminate.
Qed.

Lemma save_data_before_load_data_witness :
  (exists e, fst (save_data (ex_ready [])) = Raise e)
  /\ fs (snd (save_data (ex_ready []))) !! highlights_file ex_user
     = fs (ex_ready []) !! highlights_file ex_user
  /\ fs (snd (save_data (ex_ready []))) !! stories_file ex_user
     = fs (ex_ready []) !! stories_file ex_user
  /\ (fst (save_json (data_file ex_user) (PyDict []) (ex_ready [])) = Ok tt ->
      fst (save_data (ex_ready [])) = Raise KeyError
      /\ fs (snd (save_data (ex_ready []))) !! data_file ex_user
         = Some (File (json_dumps (PyDict [])))).
Proof.
  refine (save_data_before_load_data (ex_ready []) _).
  vm_compute. reflexivity.
Defined.

(** X16.  Loading a file that [save_json] wrote and saving what was
    loaded puts the very same text back: the disk is unchanged.  (What
    [json.dump] writes is a fixed point of load-then-dump, tuples
    included: they are written as arrays in the first place.) *)
Theorem load_json_save_json (filename : path) (v : pyval) (s : state) :
  lookup_node (fs s) filename = Some (File (json_dumps v)) ->
  wf_py v = true ->
  lookup_node (fs s) (parent filename) = Some Dir ->
  exists v',
    load_json filename s = (Ok v', s)
    /\ save_json filename v' s
       = (Ok tt, with_events (events s ++ [EvJsonDump filename v']) s).
Proof.
  intros Hfile Hwf Hparent. exists (as_loaded v). split.
  - rewrite load_json_eq, Hfile. now rewrite json_loads_dumps.
  - unfold save_json. rewrite json_dump_to_ok;
      [|rewrite Hfile; discriminate|assumption].
    unfold with_events. do 2 f_equal.
    unfold json_dumps. rewrite dumps_at_as_loaded.
    apply insert_id.
    destruct filename as [|c p]; [discriminate|exact Hfile].
Qed.

Lemma load_json_save_json_witness :
  exists v',
    load_json (data_file ex_user) ex_after_run1 = (Ok v', ex_after_run1)
    /\ save_json (data_file ex_user) v' ex_after_run1
       = (Ok tt,
          with_events
            (events ex_after_run1 ++ [EvJsonDump (data_file ex_user) v'])
            ex_after_run1).
Proof.
  refine (load_json_save_json (data_file ex_user)
            (PyDict [ (ex_time, profile_snapshot ex_profile) ])
            ex_after_run1 _ _ _);
    vm_compute; reflexivity.
Defined.

(* ================================================================== *)
(** * The snapshot of a run *)

Ltac keep_store :=
  intros;
  repeat match goal with
         | H : holds_store _ _ _ _ |- _ => destruct H as (? & ? & ?)
         end;
  repeat split; cbn; assumption.

Lemma data_file_not_under_data_dir (u : string) :
  ~ In (data_file u) (prefixes_from [] (data_dir u)).
Proof.
  unfold data_file, data_dir. cbn. intros [H|[H|[]]]; discriminate.
Qed.

(** [setup] puts in [data] what [load_json] makes of [data.json]. *)
Lemma setup_loads_data (s s1 : state) :
  setup s = (Ok tt, s1) ->
  profile_username (self s1) = profile_username (self s)
  /\ remote s1 = remote s
  /\ fst (load_json (data_file (profile_username (self s))) s)
     = Ok (data (self s1)).
Proof.
  intros Hrun. unfold setup in Hrun.
  erewrite bind_ok in Hrun by reflexivity.
  set (u := profile_username (self s)) in *.
  apply bind_ok_inv in Hrun as ([] & sa & Hmk & Hrun).
  assert (Ha : self sa = self s /\ remote sa = remote s
               /\ fs sa !! data_file u = fs s !! data_file u).
  { unfold makedirs, mkdir_p in Hmk.
    destruct (mkdir_from [] (data_dir u) (fs s)) as [r f] eqn:Hm.
    inversion Hmk; subst. cbn [self remote fs with_fs].
    repeat split.
    eapply mkdir_from_frame; [exact Hm|apply data_file_not_under_data_dir]. }
  destruct Ha as (Hself & Hrem & Hfile).
  unfold load_data in Hrun.
  erewrite bind_ok in Hrun by reflexivity.
  rewrite Hself in Hrun. fold u in Hrun.
  apply bind_ok_inv in Hrun as (v1 & sb & Hl1 & Hrun).
  rewrite load_json_eq in Hl1.
  assert (Hv1 : fst (load_json (data_file u) s) = Ok v1 /\ sb = sa).
  { rewrite load_json_eq. cbn [fst].
    change (lookup_node (fs s) (data_file u)) with (fs s !! data_file u).
    change (lookup_node (fs sa) (data_file u)) with (fs sa !! data_file u)
      in Hl1.
    rewrite Hfile in Hl1. inversion Hl1. split; reflexivity. }
  destruct Hv1 as (Hv1 & ->).
  erewrite bind_ok in Hrun by reflexivity.
  apply bind_ok_inv in Hrun as (v2 & sc & Hl2 & Hrun).
  rewrite load_json_eq in Hl2. inversion Hl2; subst sc. clear Hl2.
  erewrite bind_ok in Hrun by reflexivity.
  apply bind_ok_inv in Hrun as (v3 & sd & Hl3 & Hrun).
  rewrite load_json_eq in Hl3. inversion Hl3; subst sd. clear Hl3.
  inversion Hrun; subst s1. cbn. rewrite Hself, Hrem.
  repeat split. exact Hv1.
Qed.

(** A call of [update_profile_info] that returns has put the snapshot
    into the store and the store into [data.json]. *)
Lemma update_profile_info_ok (profile : Profile.t) (timestamp : text)
      (s s' : state) :
  update_profile_info profile timestamp s = (Ok tt, s') ->
  exists d,
    data (self s) = PyDict d
    /\ profile_username (self s') = profile_username (self s)
    /\ remote s' = remote s
    /\ data (self s') = PyDict (dict_set d timestamp (profile_snapshot profile))
    /\ fs s' !! data_file (profile_username (self s))
       = Some (File (json_dumps
                       (PyDict (dict_set d timestamp
                                  (profile_snapshot profile))))).
Proof.
  intros Hrun. unfold update_profile_info in Hrun.
  erewrite bind_ok in Hrun by reflexivity.
  apply bind_ok_inv in Hrun as (data' & sa & Hset & Hrun).
  unfold lift in Hset.
  destruct (data (self s)) as [| | | | | |d] eqn:Hd; try discriminate.
  cbn [setitem] in Hset. inversion Hset; subst data' sa. clear Hset.
  erewrite bind_ok in Hrun by reflexivity.
  apply save_data_ok in Hrun as (hv & sv & _ & _ & ->).
  exists d. cbn [self fs remote with_self set_data profile_username data].
  repeat split.
  rewrite lookup_insert_ne by paths_differ.
  rewrite lookup_insert_ne by paths_differ.
  apply lookup_insert_eq.
Qed.

(** X17.  A run that ends well has persisted its snapshot: [data.json]
    was absent or held a JSON object at the start, and at the end the
    store in memory and the text of [data.json] are that object with the
    snapshot of the profile set under the run's timestamp. *)
Theorem run_monitor_persists_snapshot (now : text) (s s' : state) :
  run_monitor now s = (Ok tt, s') ->
  let u := profile_username (self s) in
  let snapshot := profile_snapshot (from_username (remote s) u) in
  exists d,
    fst (load_json (data_file u) s) = Ok (PyDict d)
    /\ data (self s') = PyDict (dict_set d now snapshot)
    /\ fs s' !! data_file u
       = Some (File (json_dumps (PyDict (dict_set d now snapshot)))).
Proof.
  intros Hrun u snapshot.
  apply try_log_raise_ok_inv in Hrun.
  apply bind_ok_inv in Hrun as ([] & s1 & Hsetup & Hrun).
  apply setup_loads_data in Hsetup as (Hu1 & HL1 & Hload).
  fold u in Hu1, Hload.
  set (L := remote s) in *. set (v := data (self s1)) in *.
  assert (H1 : holds_store u L v s1) by (repeat split; assumption).
  unfold run_after_setup in Hrun.
  erewrite bind_ok in Hrun by reflexivity.
  erewrite bind_ok in Hrun by reflexivity.
  cbv zeta in Hrun. rewrite Hu1, HL1 in Hrun.
  match type of Hrun with
  | ?rest s1 = _ =>
      assert (Hrest : triple (holds_store u L v) rest
                (fun _ s2 =>
                   exists d,
                     v = PyDict d
                     /\ data (self s2) = PyDict (dict_set d now snapshot)
                     /\ fs s2 !! data_file u
                        = Some (File (json_dumps
                                        (PyDict (dict_set d now snapshot)))))
                (fun _ => True))
  end.
  { eapply triple_bind.
    { eapply triple_raising;
        [apply (download_new_highlights_keeps u); keep_store|auto]. }
    intros new_h. cbv beta.
    eapply triple_bind;
      [apply (triple_modify_self _ (holds_store u L v)); keep_store|].
    intros [].
    eapply triple_bind.
    { eapply triple_raising; [apply (save_data_keeps u); keep_store|auto]. }
    intros [].
    eapply triple_bind.
    { eapply triple_raising;
        [apply (download_new_stories_keeps u); keep_store|auto]. }
    intros new_s. cbv beta.
    eapply triple_bind;
      [apply (triple_modify_self _ (holds_store u L v)); keep_store|].
    intros [].
    eapply triple_bind.
    { eapply triple_raising; [apply (save_data_keeps u); keep_store|auto]. }
    intros [].
    eapply triple_bind.
    { intros s7 (Hu7 & HL7 & Hv7).
      destruct (update_profile_info (from_username L u) now s7)
        as [[[]|e] s8] eqn:Hup; [|exact Logic.I].
      apply update_profile_info_ok in Hup as (d & Hd & _ & _ & Hd8 & Hf8).
      rewrite Hu7 in Hf8.
      instantiate (1 := fun _ s8 =>
                          exists d,
                            v = PyDict d
                            /\ data (self s8)
                               = PyDict (dict_set d now snapshot)
                            /\ fs s8 !! data_file u
                               = Some (File (json_dumps
                                               (PyDict (dict_set d now
                                                          snapshot))))).
      cbv beta. exists d. split; [congruence|]. split; assumption. }
    intros []. apply triple_emit. intros s8 Hs8. exact Hs8. }
  pose proof (triple_ok _ _ _ _ s1 s' tt Hrest H1 Hrun) as (d & Hd & Hd' & Hf).
  exists d. split; [|split; assumption]. now rewrite Hload, Hd.
Qed.

Lemma run_monitor_persists_snapshot_witness :
  exists d,
    fst (load_json (data_file (profile_username (self ex_one))) ex_one)
    = Ok (PyDict d)
    /\ data (self (snd (run_monitor ex_time ex_one)))
       = PyDict (dict_set d ex_time
                   (profile_snapshot
                      (from_username (remote ex_one)
                         (profile_username (self ex_one)))))
    /\ fs (snd (run_monitor ex_time ex_one))
         !! data_file (profile_username (self ex_one))
       = Some (File (json_dumps
                       (PyDict (dict_set d ex_time
                                  (profile_snapshot
                                     (from_username (remote ex_one)
                                        (profile_username (self ex_one)))))))).
Proof.
  refine (run_monitor_persists_snapshot ex_time ex_one
            (snd (run_monitor ex_time ex_one)) (pair_fst_snd _ _ _)).
  vm_compute. reflexivity.
Defined.

(* ================================================================== *)
(** * The text of the files *)

Lemma hexdigit_plain (n : Z) : plain (hexdigit (Z.land n 15)).
Proof.
  rewrite land_15. pose proof (Z.mod_pos_bound n 16 ltac:(lia)) as Hb.
  unfold hexdigit, plain. destruct (n mod 16 <? 10) eqn:E; lia.
Qed.

Ltac plain_chars :=
  repeat (apply Forall_cons_2;
          [first [apply hexdigit_plain | unfold plain; lia]|]);
  try apply Forall_nil_2.

Lemma uescape_plain (n : Z) : Forall plain (uescape n).
Proof. unfold uescape, hex4. plain_chars. Qed.

Lemma escape_char_plain (c : Z) : Forall plain (escape_char c).
Proof.
  unfold escape_char.
  do 7 (match goal with
        | |- Forall plain (if ?b then _ else _) => destruct b; [plain_chars|]
        end).
  destruct ((32 <=? c) && (c <=? 126)) eqn:E.
  { apply andb_true_iff in E as [E1 E2]. apply Z.leb_le in E1, E2.
    plain_chars. }
  destruct (c <? 65536); [apply uescape_plain|].
  cbv zeta. apply Forall_app. split; apply uescape_plain.
Qed.

Lemma escape_chars_plain (s : text) : Forall plain (escape_chars s).
Proof.
  induction s as [|c r IH]; [constructor|].
  cbn [escape_chars]. apply Forall_app. split; [apply escape_char_plain|exact IH].
Qed.

Lemma encode_basestring_ascii_plain (s : text) :
  Forall plain (encode_basestring_ascii s).
Proof.
  unfold encode_basestring_ascii.
  constructor; [unfold plain; lia|].
  apply Forall_app. split; [apply escape_chars_plain|].
  constructor; [unfold plain; lia|constructor].
Qed.

Lemma digits_plain (f : nat) : forall n, 0 <= n -> Forall plain (digits f n).
Proof.
  induction f as [|f IH]; intros n Hn; [constructor|].
  cbn [digits]. destruct (n <? 10) eqn:E.
  - constructor; [unfold plain; lia|constructor].
  - apply Forall_app. split.
    + apply IH. apply Z.div_pos; lia.
    + pose proof (Z.mod_pos_bound n 10 ltac:(lia)).
      constructor; [unfold plain; lia|constructor].
Qed.

Lemma int_repr_plain (z : Z) : Forall plain (int_repr z).
Proof.
  unfold int_repr, nat_repr. destruct (z <? 0) eqn:E.
  - constructor; [unfold plain; lia|]. apply digits_plain. lia.
  - apply digits_plain. lia.
Qed.

Lemma newline_indent_plain (level : nat) : Forall plain (newline_indent level).
Proof.
  unfold newline_indent. constructor; [now left|].
  apply Forall_forall. intros c Hc. apply list_elem_of_In in Hc.
  apply repeat_spec in Hc as ->. unfold plain. lia.
Qed.

Lemma join_items_plain (level : nat) (items : list text) :
  Forall (Forall plain) items -> Forall plain (join_items level items).
Proof.
  intros Hall. destruct Hall as [|x xs Hx Hxs]; [constructor|].
  cbn [join_items].
  apply Forall_app. split; [apply newline_indent_plain|].
  apply Forall_app. split; [exact Hx|].
  apply Forall_app. split; [|apply newline_indent_plain].
  induction Hxs as [|y ys Hy Hys IH]; [constructor|].
  cbn [map concat]. apply Forall_app. split; [|exact IH].
  constructor; [unfold plain; lia|].
  apply Forall_app. split; [apply newline_indent_plain|exact Hy].
Qed.

Lemma dumps_at_plain (v : pyval) :
  forall level, Forall plain (dumps_at level v).
Proof.
  induction v as [| b | n | s | l IH | l IH | d IH] using pyval_nested_ind;
    intros level; cbn [dumps_at].
  - unfold lit_null. plain_chars.
  - destruct b; [unfold lit_true|unfold lit_false]; plain_chars.
  - apply int_repr_plain.
  - apply encode_basestring_ascii_plain.
  - constructor; [unfold plain; lia|].
    apply Forall_app. split; [|constructor; [unfold plain; lia|constructor]].
    apply join_items_plain. apply Forall_map.
    eapply Forall_impl; [exact IH|]. cbn. auto.
  - constructor; [unfold plain; lia|].
    apply Forall_app. split; [|constructor; [unfold plain; lia|constructor]].
    apply join_items_plain. apply Forall_map.
    eapply Forall_impl; [exact IH|]. cbn. auto.
  - constructor; [unfold plain; lia|].
    apply Forall_app. split; [|constructor; [unfold plain; lia|constructor]].
    apply join_items_plain. apply Forall_map.
    eapply Forall_impl; [exact IH|]. intros kv Hkv. cbv beta.
    apply Forall_app. split; [apply encode_basestring_ascii_plain|].
    constructor; [unfold plain; lia|].
    constructor; [unfold plain; lia|]. apply Hkv.
Qed.

(** X18.  Every file [save_json] writes is plain ASCII text, whatever
    the strings of the value hold (a biography, a caption, a user name
    in any script): [json.dump] is called with [ensure_ascii] left on,
    so the file has nothing but line feeds and printable ASCII
    characters. *)
Theorem save_json_writes_ascii (filename : path) (v : pyval) (s : state) :
  fst (save_json filename v s) = Ok tt ->
  lookup_node (fs (snd (save_json filename v s))) filename
  = Some (File (file_text (snd (save_json filename v s)) filename))
  /\ Forall plain (file_text (snd (save_json filename v s)) filename).
Proof.
  intros Hok.
  destruct (save_json filename v s) as [[[]|e] s'] eqn:Hs; [|discriminate].
  apply save_json_inv in Hs as (Hne & Hfs & _).
  cbn [snd]. unfold file_text. rewrite Hfs.
  rewrite lookup_node_insert_eq by assumption.
  split; [reflexivity|]. apply dumps_at_plain.
Qed.

Lemma save_json_writes_ascii_witness :
  lookup_node (fs (snd (save_json (data_file ex_user) ex_store (ex_ready []))))
    (data_file ex_user)
  = Some (File (file_text
                  (snd (save_json (data_file ex_user) ex_store (ex_ready [])))
                  (data_file ex_user)))
  /\ Forall plain
       (file_text (snd (save_json (data_file ex_user) ex_store (ex_ready [])))
          (data_file ex_user)).
Proof.
  refine (save_json_writes_ascii (data_file ex_user) ex_store (ex_ready []) _).
  vm_compute. reflexivity.
Defined.

(* ================================================================== *)
(** * The object after [__init__] *)

Lemma makedirs_ok (p : path) (s s' : state) :
  makedirs p s = (Ok tt, s') ->
  self s' = self s
  /\ Forall (fun q => fs s' !! q = Some Dir) (prefixes_from [] p)
  /\ (forall q n, fs s !! q = Some n -> fs s' !! q = Some n).
Proof.
  unfold makedirs, mkdir_p. intros H.
  destruct (mkdir_from [] p (fs s)) as [[[]|e] f] eqn:Hm; [|discriminate].
  inversion H; subst s'. cbn [self fs with_fs].
  split; [reflexivity|]. split.
  - eapply mkdir_from_ok_dirs; eassumption.
  - intros q n Hq. eapply mkdir_from_preserves; eassumption.
Qed.

(** X19.  When [__init__] returns, the layout is in place: [output], the
    data directory and its [highlights] and [stories] directories are
    directories, [metadata.json] exists, and the object starts with
    empty lists and an empty store. *)
Theorem init_layout_in_place (u : string) (s : state) :
  fst (init u s) = Ok tt ->
  Forall (fun q => fs (snd (init u s)) !! q = Some Dir) (layout_dirs u)
  /\ is_Some (fs (snd (init u s)) !! metadata_file u)
  /\ self (snd (init u s)) = fresh_monitor u.
Proof.
  intros Hok.
  destruct (init u s) as [[[]|e] s'] eqn:Hrun; [|discriminate]. clear Hok.
  cbn [snd]. unfold init in Hrun.
  erewrite bind_ok in Hrun by reflexivity.
  apply bind_ok_inv in Hrun as ([] & s2 & Hdirs & Hmeta).
  unfold setup_dirs in Hdirs.
  erewrite bind_ok in Hdirs by reflexivity.
  cbn [self with_self fresh_monitor profile_username] in Hdirs.
  apply bind_ok_inv in Hdirs as ([] & s1 & H1 & H2).
  apply makedirs_ok in H1 as (Hself1 & D1 & _).
  apply makedirs_ok in H2 as (Hself2 & D2 & K2).
  rewrite prefixes_highlights_dir in D1. rewrite prefixes_stories_dir in D2.
  apply Forall_cons in D1 as [_ D1]. apply Forall_cons in D1 as [_ D1].
  apply Forall_cons in D1 as [Dh _]. apply K2 in Dh.
  apply Forall_cons in D2 as [Do D2]. apply Forall_cons in D2 as [Dd D2].
  apply Forall_cons in D2 as [Ds _].
  assert (Hself : self s2 = fresh_monitor u).
  { rewrite Hself2, Hself1. reflexivity. }
  unfold setup_metadata_file in Hmeta.
  erewrite bind_ok in Hmeta by reflexivity. rewrite Hself in Hmeta.
  cbn [fresh_monitor profile_username] in Hmeta.
  destruct (fs s2 !! metadata_file u) as [n|] eqn:Hm.
  - erewrite bind_ok in Hmeta by (eapply path_exists_true; exact Hm).
    cbn [negb] in Hmeta. inversion Hmeta; subst s'.
    split; [|split; [rewrite Hm; eauto|assumption]].
    unfold layout_dirs. repeat constructor; assumption.
  - erewrite bind_ok in Hmeta by (eapply path_exists_false; exact Hm).
    cbn [negb] in Hmeta.
    change (json_dump_to (metadata_file u) initial_metadata)
      with (save_json (metadata_file u) initial_metadata) in Hmeta.
    apply save_json_state in Hmeta. subst s'. cbn [fs self].
    split; [|split; [rewrite lookup_insert_eq; eauto|assumption]].
    unfold layout_dirs.
    repeat constructor;
      (rewrite lookup_insert_ne; [assumption|]);
      unfold metadata_file, highlights_dir, stories_dir, data_dir;
      cbn [app]; congruence.
Qed.

Lemma init_layout_in_place_witness :
  Forall (fun q => fs (snd (init ex_user (ex_start []))) !! q = Some Dir)
    (layout_dirs ex_user)
  /\ is_Some (fs (snd (init ex_user (ex_start []))) !! metadata_file ex_user)
  /\ self (snd (init ex_user (ex_start []))) = fresh_monitor ex_user.
Proof.
  refine (init_layout_in_place ex_user (ex_start []) _).
  vm_compute. reflexivity.
Defined.

(* ================================================================== *)
(** * Runs that fail, downloads that are not undone *)

Lemma setup_only_dirs_made (s : state) : only_dirs_made s (snd (setup s)).
Proof.
  assert (H : triple (only_dirs_made s) setup
                (fun _ => only_dirs_made s) (only_dirs_made s)).
  { apply (setup_keeps (profile_username (self s))).
    - intros s1 Hs1. apply Hs1.
    - intros s1 d (Hu & He & Hf). repeat split; assumption.
    - intros s1 f (Hu & He & Hf) _ Hkeep. repeat split; try assumption.
      intros q n Hq. cbn [fs with_fs]. apply Hkeep. now apply Hf.
    - intros s1 v (Hu & He & Hf). repeat split; assumption.
    - intros s1 v (Hu & He & Hf). repeat split; assumption. }
  specialize (H s ltac:(repeat split; auto)).
  destruct (setup s) as [[[]|e] s1]; exact H.
Qed.

(** X20.  When [setup] raises (a state file that is not JSON, a regular
    file where the data directory should be), the run stops there:
    [run_monitor] raises the same exception, has logged nothing but its
    error line, so that nothing was downloaded, and has changed nothing
    that was on disk. *)
Theorem run_monitor_stops_when_setup_raises (now : text) (s : state)
        (e : exn) :
  fst (setup s) = Raise e ->
  fst (run_monitor now s) = Raise e
  /\ events (snd (run_monitor now s)) = events s ++ [EvLogError e]
  /\ (forall q n, fs s !! q = Some n ->
                  fs (snd (run_monitor now s)) !! q = Some n).
Proof.
  intros Hsetup.
  pose proof (setup_only_dirs_made s) as (_ & Hev & Hfs).
  destruct (setup s) as [[[]|e0] s1] eqn:Hs; [discriminate|].
  cbn [fst snd] in *. inversion Hsetup; subst e0. clear Hsetup.
  change (run_monitor now) with (try_log_raise (setup >> run_after_setup now)).
  erewrite try_log_raise_raise by (erewrite bind_raise by exact Hs; reflexivity).
  cbn [fst snd events fs with_events].
  split; [reflexivity|]. split; [now rewrite Hev|exact Hfs].
Qed.

Lemma run_monitor_stops_when_setup_raises_witness :
  fst (run_monitor ex_time ex_bad_stories) = Raise JSONDecodeError
  /\ events (snd (run_monitor ex_time ex_bad_stories))
     = events ex_bad_stories ++ [EvLogError JSONDecodeError]
  /\ (forall q n, fs ex_bad_stories !! q = Some n ->
                  fs (snd (run_monitor ex_time ex_bad_stories)) !! q = Some n).
Proof.
  refine (run_monitor_stops_when_setup_raises ex_time ex_bad_stories
            JSONDecodeError _).
  vm_compute. reflexivity.
Defined.

(** X21.  [download_highlights_with_metadata] has every item of the
    highlight downloaded, in reel order, before it touches the metadata
    log.  When the log update then raises, the items have been
    downloaded all the same and nothing is written; when it returns, the
    one [json.dump] of the log comes after the downloads. *)
Theorem download_highlights_with_metadata_downloads_first
        (highlight : Highlight.t) (timestamp : text) (s : state) :
  let u := profile_username (self s) in
  let r := download_highlights_with_metadata highlight timestamp s in
  let downloads :=
    map (fun item => EvDownloadStoryItem item (highlights_dir u))
      (Highlight.get_items highlight) in
  match fst r with
  | Ok _ =>
      exists log, events (snd r)
                  = events s ++ downloads ++ [EvJsonDump (metadata_file u) log]
  | Raise _ =>
      events (snd r) = events s ++ downloads /\ fs (snd r) = fs s
  end.
Proof.
  intros u r downloads. unfold r. clear r.
  rewrite download_highlights_with_metadata_eq. fold u downloads.
  rewrite update_metadata_file_eq. cbv zeta.
  cbn [self fs events with_events]. fold u.
  destruct (lookup_node (fs s) (metadata_file u)) as [[|old]|];
    cbn [fst snd events fs with_events]; try (split; reflexivity).
  destruct (json_loads old) as [metadata|e0];
    cbn [fst snd events fs with_events]; try (split; reflexivity).
  destruct (merge_metadata _ _ _ _) as [metadata'|e0];
    cbn [fst snd events fs with_events]; try (split; reflexivity).
  exists metadata'. now rewrite <- app_assoc.
Qed.
